(** * TFT-Auto-Picker: a shallow embedding of the recognition-and-control core

    The development follows the layout of the Python sources:

    - [Card]       core/card.py
    - [GameState]  core/game_state.py
    - [Strategy]   core/strategy.py
    - [Matcher]    modules/image_recognition/template_matcher.py
    - [Mouse]      modules/automation/mouse_controller.py
    - [Recognizer] modules/image_recognition/card_recognizer.py
    - [Automator]  modules/automation/game_automator.py

    Python [int] is [Z]; Python [float] (scores, thresholds, clock readings)
    is abstracted to exact rationals [Q]; [str] is [string]; a [dict] whose
    iteration order is observable is an association list in insertion order.
    Python objects that are shared and mutated ([Card] instances) live in an
    append-only object store and are passed around as references. *)

From Stdlib Require Import ZArith QArith Qminmax String List Bool Lia Lqa.
From stdpp Require Import base option list.
Import ListNotations.

Local Open Scope Z_scope.

(** ** What the interpreter and the imaging library supply *)

(** Built-ins of the Python runtime whose results the sources only pass on. *)
Class PyBuiltins := {
  str_hash : string -> Z;        (* hash(s) for a str *)
  str_strip : string -> string   (* s.strip() *)
}.

(** A BGR frame as rows of pixels; [np.array([])] is the empty list. *)
Definition Pixel : Type := Z * Z * Z.
Definition Image : Type := list (list Pixel).

(** ndarray.size of an image with three channels *)
Definition img_size (img : Image) : Z :=
  match img with
  | [] => 0
  | row :: _ => Z.of_nat (length img) * Z.of_nat (length row) * 3
  end.

(** ndarray.shape[:2] *)
Definition img_shape (img : Image) : Z * Z :=
  match img with
  | [] => (0, 0)
  | row :: _ => (Z.of_nat (length img), Z.of_nat (length row))
  end.

(** The OpenCV entry points the sources call. [None] stands for a raised
    [cv2.error]. *)
Class OpenCV := {
  (* cv2.matchTemplate(source, template, cv2.TM_CCOEFF_NORMED): the
     correlation surface, indexed [y][x] *)
  matchTemplate : Image -> Image -> option (list (list Q));
  (* cv2.cvtColor(img, cv2.COLOR_BGR2HSV) *)
  cvtColor_BGR2HSV : Image -> option Image;
  (* np.sum(cv2.inRange(hsv, lower, upper) > 0) *)
  inRange_count : Image -> Z * Z * Z -> Z * Z * Z -> Z
}.

(** ** core/card.py *)

Module Card.

Inductive CardRarity :=
| ONE_COST | TWO_COST | THREE_COST | FOUR_COST | FIVE_COST
| SPATULA | UNKNOWN.

(** CardRarity.from_cost: [cost_map.get(cost, cls.UNKNOWN)] *)
Definition from_cost (cost : Z) : CardRarity :=
  match cost with
  | 1 => ONE_COST
  | 2 => TWO_COST
  | 3 => THREE_COST
  | 4 => FOUR_COST
  | 5 => FIVE_COST
  | _ => UNKNOWN
  end.

(** CardRarity.cost *)
Definition CardRarity_cost (self : CardRarity) : Z :=
  match self with
  | ONE_COST => 1
  | TWO_COST => 2
  | THREE_COST => 3
  | FOUR_COST => 4
  | FIVE_COST => 5
  | SPATULA => 0
  | UNKNOWN => 0
  end.

Record CardClass := { class_name : string }.

(** CardClass.__init__ *)
Definition CardClass_init `{py : PyBuiltins} (name : string) : CardClass :=
  {| class_name := str_strip name |}.

Record Card := mkCard {
  name : string;
  cost : Z;
  rarity : CardRarity;
  classes : list CardClass;
  template_path : string;
  confidence : Q;
  position : Z * Z;
  is_selected : bool;
  shop_index : option Z
}.

(** Card.__init__; [position or (0, 0)] keeps every given tuple, a pair
    being a non-empty tuple. *)
Definition init `{py : PyBuiltins} (name : string) (cost : Z)
    (classes : option (list string)) (template_path : string)
    (confidence : Q) (position : option (Z * Z)) : Card :=
  {| name := name;
     cost := cost;
     rarity := from_cost cost;
     classes := match classes with
                | Some cs => map CardClass_init cs
                | None => []
                end;
     template_path := template_path;
     confidence := confidence;
     position := match position with Some p => p | None => (0, 0) end;
     is_selected := false;
     shop_index := None |}.

(** Card.set_position *)
Definition set_position (x y : Z) (self : Card) : Card :=
  mkCard self.(name) self.(cost) self.(rarity) self.(classes)
         self.(template_path) self.(confidence) (x, y)
         self.(is_selected) self.(shop_index).

(** Card.select *)
Definition select (self : Card) : Card :=
  mkCard self.(name) self.(cost) self.(rarity) self.(classes)
         self.(template_path) self.(confidence) self.(position)
         true self.(shop_index).

(** Card.deselect *)
Definition deselect (self : Card) : Card :=
  mkCard self.(name) self.(cost) self.(rarity) self.(classes)
         self.(template_path) self.(confidence) self.(position)
         false self.(shop_index).

(** the assignment [card.shop_index = i] *)
Definition set_shop_index (i : Z) (self : Card) : Card :=
  mkCard self.(name) self.(cost) self.(rarity) self.(classes)
         self.(template_path) self.(confidence) self.(position)
         self.(is_selected) (Some i).

(** What the right operand of [==] can be. *)
Inductive PyObject :=
| OCard (c : Card)
| OStr (s : string)
| OInt (n : Z)
| ONone.

(** Card.__eq__ *)
Definition eq (self : Card) (other : PyObject) : bool :=
  match other with
  | OCard o => String.eqb self.(name) o.(name)
  | _ => false
  end.

(** Card.__hash__ *)
Definition hash `{py : PyBuiltins} (self : Card) : Z := str_hash self.(name).

(** Card.matches_priority: [self.name in priorities] *)
Definition matches_priority (self : Card) (priorities : list string) : bool :=
  existsb (String.eqb self.(name)) priorities.

(** Card.__lt__; [None] is [NotImplemented] *)
Definition lt (self : Card) (other : PyObject) : option bool :=
  match other with
  | OCard o => Some (self.(cost) <? o.(cost))
  | _ => None
  end.

(** Card.__gt__; [None] is [NotImplemented] *)
Definition gt (self : Card) (other : PyObject) : option bool :=
  match other with
  | OCard o => Some (o.(cost) <? self.(cost))
  | _ => None
  end.

End Card.

(** ** Python containers *)

Module Py.

(** [list.index(x)]; [None] is the raised [ValueError]. *)
Fixpoint index (x : string) (l : list string) : option Z :=
  match l with
  | [] => None
  | y :: ys =>
      if String.eqb y x then Some 0
      else match index x ys with
           | Some i => Some (i + 1)
           | None => None
           end
  end.

(** [x in l] for a list of str *)
Definition contains (x : string) (l : list string) : bool :=
  existsb (fun y => String.eqb y x) l.

(** [len(l)] *)
Definition len {A} (l : list A) : Z := Z.of_nat (length l).

(** [not l] for a list *)
Definition is_empty {A} (l : list A) : bool :=
  match l with [] => true | _ => false end.

(** [l.sort(key=..., reverse=True)]: descending by key and stable, so
    elements with equal keys keep the order they had in [l]. An element is
    moved right only past elements whose key is strictly greater. *)
Section Sort.
Context {A K : Type} (ltb : K -> K -> bool) (key : A -> K).

Fixpoint insert_desc (x : A) (l : list A) : list A :=
  match l with
  | [] => [x]
  | y :: ys =>
      if ltb (key x) (key y) then y :: insert_desc x ys
      else x :: y :: ys
  end.

Definition sort_reverse (l : list A) : list A :=
  fold_right insert_desc [] l.
End Sort.

(** [d.get(k)] for a dict kept in insertion order *)
Fixpoint dict_get {K V} (eqb : K -> K -> bool) (k : K) (d : list (K * V))
    : option V :=
  match d with
  | [] => None
  | (k', v) :: d' => if eqb k' k then Some v else dict_get eqb k d'
  end.

(** [d[k] = v]: an existing key keeps its place *)
Fixpoint dict_set {K V} (eqb : K -> K -> bool) (k : K) (v : V)
    (d : list (K * V)) : list (K * V) :=
  match d with
  | [] => [(k, v)]
  | (k', v') :: d' =>
      if eqb k' k then (k, v) :: d' else (k', v') :: dict_set eqb k v d'
  end.

(** strict [<] on floats *)
Definition Qltb (a b : Q) : bool := negb (Qle_bool b a).

(** [del d[k]] for a key that is present; no change otherwise *)
Fixpoint dict_del {K V} (eqb : K -> K -> bool) (k : K) (d : list (K * V))
    : list (K * V) :=
  match d with
  | [] => []
  | (k', v) :: d' =>
      if eqb k' k then d' else (k', v) :: dict_del eqb k d'
  end.

(** [max(l, key=...)] for a list with first element [x]: the first of the
    elements whose key is greatest *)
Fixpoint max_key {A} (key : A -> Q) (x : A) (l : list A) : A :=
  match l with
  | [] => x
  | y :: ys => if Qltb (key x) (key y) then max_key key y ys
               else max_key key x ys
  end.

(** [l.insert(i, x)]: a negative index counts from the end, and an index
    out of range is clamped *)
Definition list_insert (i : Z) (x : string) (l : list string)
    : list string :=
  let n := Z.of_nat (length l) in
  let i := if i <? 0 then Z.max 0 (i + n) else Z.min i n in
  firstn (Z.to_nat i) l ++ x :: skipn (Z.to_nat i) l.

(** [l.remove(x)] for an [x] that occurs: the first occurrence goes *)
Fixpoint list_remove (x : string) (l : list string) : list string :=
  match l with
  | [] => []
  | y :: ys => if String.eqb y x then ys else y :: list_remove x ys
  end.

End Py.

(** ** core/game_state.py *)

Module GameState.

Inductive GamePhase :=
| UNKNOWN | LOBBY | SHOPPING | PICKING | BATTLING | GAME_OVER | PAUSED.

Definition phase_eqb (a b : GamePhase) : bool :=
  match a, b with
  | UNKNOWN, UNKNOWN | LOBBY, LOBBY | SHOPPING, SHOPPING
  | PICKING, PICKING | BATTLING, BATTLING | GAME_OVER, GAME_OVER
  | PAUSED, PAUSED => true
  | _, _ => false
  end.

(** an entry of [shop_slots] *)
Record ShopSlot := {
  slot_index : Z;
  slot_position : Z * Z;
  has_card : bool
}.

(** [available_cards] holds references to [Card] objects. *)
Record GameState := mkGameState {
  phase : GamePhase;
  available_cards : list nat;
  gold : Z;
  level : Z;
  shop_slots : list ShopSlot;
  is_active : bool;
  last_update_time : option Q
}.

(** GameState.__init__ *)
Definition init : GameState :=
  {| phase := UNKNOWN; available_cards := []; gold := 0; level := 1;
     shop_slots := []; is_active := false; last_update_time := None |}.

Definition with_is_active (b : bool) (self : GameState) : GameState :=
  mkGameState self.(phase) self.(available_cards) self.(gold) self.(level)
              self.(shop_slots) b self.(last_update_time).

Definition with_available_cards (cs : list nat) (self : GameState)
    : GameState :=
  mkGameState self.(phase) cs self.(gold) self.(level)
              self.(shop_slots) self.(is_active) self.(last_update_time).

Definition with_shop_slots (ss : list ShopSlot) (self : GameState)
    : GameState :=
  mkGameState self.(phase) self.(available_cards) self.(gold) self.(level)
              ss self.(is_active) self.(last_update_time).

(** GameState.update_phase; [now] is the reading of [time.time()] *)
Definition update_phase (now : Q) (new_phase : GamePhase)
    (self : GameState) : GameState :=
  if negb (phase_eqb self.(phase) new_phase) then
    mkGameState new_phase self.(available_cards) self.(gold) self.(level)
                self.(shop_slots) self.(is_active) (Some now)
  else self.

(** GameState.set_shop_phase *)
Definition set_shop_phase (now : Q) (self : GameState) : GameState :=
  with_is_active true (update_phase now SHOPPING self).

(** GameState.set_lobby_phase *)
Definition set_lobby_phase (now : Q) (self : GameState) : GameState :=
  with_is_active false (update_phase now LOBBY self).

(** GameState.set_battle_phase *)
Definition set_battle_phase (now : Q) (self : GameState) : GameState :=
  with_is_active false (update_phase now BATTLING self).

(** GameState.reset *)
Definition reset (self : GameState) : GameState := init.

End GameState.

(** ** core/strategy.py *)

Module Strategy.

Record PriorityStrategy := {
  priority_list : list string;
  max_cost : Z;
  prefer_higher_cost : bool
}.

Record CostBalanceStrategy := {
  cost_weights : list (Z * Q)
}.

Record CompBuildingStrategy := {
  target_comp : list string;
  current_comp : list string
}.

(** PriorityStrategy.__init__ with its defaults *)
Definition PriorityStrategy_init (priority_list : option (list string))
    (max_cost : option Z) (prefer_higher_cost : option bool)
    : PriorityStrategy :=
  {| priority_list := default [] priority_list;
     max_cost := default 5 max_cost;
     prefer_higher_cost := default true prefer_higher_cost |}.

(** CostBalanceStrategy.__init__; an empty dict is falsy *)
Definition CostBalanceStrategy_init (cost_weights : option (list (Z * Q)))
    : CostBalanceStrategy :=
  {| cost_weights :=
       match cost_weights with
       | Some (w :: ws) => w :: ws
       | _ => [(1, 1%Q); (2, 1%Q); (3, 1%Q); (4, 1%Q); (5, 1%Q)]
       end |}.

(** CompBuildingStrategy.__init__ *)
Definition CompBuildingStrategy_init (target_comp : option (list string))
    : CompBuildingStrategy :=
  {| target_comp := default [] target_comp; current_comp := [] |}.

(** PriorityStrategy.set_priority_list *)
Definition set_priority_list (l : list string) (self : PriorityStrategy)
    : PriorityStrategy :=
  {| priority_list := l;
     max_cost := self.(max_cost);
     prefer_higher_cost := self.(prefer_higher_cost) |}.

(** PriorityStrategy.get_priority_index *)
Definition get_priority_index (self : PriorityStrategy) (card_name : string)
    : Z :=
  match Py.index card_name self.(priority_list) with
  | Some i => i
  | None => -1
  end.

(** The candidates handed to a strategy are references to [Card] objects;
    [card] reads the fields of the object a reference designates. A strategy
    returns one of the references it was given. *)
Section Candidates.
Context {A : Type} (card : A -> Card.Card).

(** the body of the scoring loop of PriorityStrategy.select_card, for one
    card: what it appends to [scored_cards] *)
Definition priority_scored (self : PriorityStrategy) (c : A) : list (A * Z) :=
  let priority_index := get_priority_index self (card c).(Card.name) in
  if 0 <=? priority_index then
    let base_score := Py.len self.(priority_list) - priority_index in
    let cost_bonus :=
      if self.(prefer_higher_cost) then (card c).(Card.cost) * 10 else 0 in
    let total_score := base_score + cost_bonus in
    [(c, total_score)]
  else [].

(** PriorityStrategy.select_card *)
Definition priority_select_card (self : PriorityStrategy)
    (available_cards : list A) : option A :=
  if Py.is_empty available_cards then None else
  let filtered_cards :=
    List.filter (fun c => (card c).(Card.cost) <=? self.(max_cost))
                available_cards in
  if Py.is_empty filtered_cards then None else
  let scored_cards := flat_map (priority_scored self) filtered_cards in
  match Py.sort_reverse Z.ltb snd scored_cards with
  | (selected_card, _) :: _ => Some selected_card
  | [] => None
  end.

(** CostBalanceStrategy.select_card *)
Definition cost_balance_select_card (self : CostBalanceStrategy)
    (available_cards : list A) : option A :=
  if Py.is_empty available_cards then None else
  let scored_cards :=
    map (fun c =>
           let weight :=
             default 1%Q
               (Py.dict_get Z.eqb (card c).(Card.cost) self.(cost_weights)) in
           let score := (weight + (card c).(Card.confidence) * (1 # 10))%Q in
           (c, score))
        available_cards in
  match Py.sort_reverse Py.Qltb snd scored_cards with
  | (c, _) :: _ => Some c
  | [] => None
  end.

(** CompBuildingStrategy.select_card *)
Definition comp_building_select_card (self : CompBuildingStrategy)
    (available_cards : list A) : option A :=
  if Py.is_empty available_cards then None else
  let priority_cards :=
    List.filter (fun c => Py.contains (card c).(Card.name) self.(target_comp))
                available_cards in
  match priority_cards with
  | c :: _ => Some c
  | [] => None
  end.

End Candidates.

(** The registered strategy objects, by class. *)
Inductive PickStrategy :=
| Priority (s : PriorityStrategy)
| CostBalance (s : CostBalanceStrategy)
| CompBuilding (s : CompBuildingStrategy).

(** PickStrategy.select_card, dispatched on the class of the object *)
Definition select_card {A} (card : A -> Card.Card) (self : PickStrategy)
    (available_cards : list A) : option A :=
  match self with
  | Priority s => priority_select_card card s available_cards
  | CostBalance s => cost_balance_select_card card s available_cards
  | CompBuilding s => comp_building_select_card card s available_cards
  end.

Record StrategyManager := {
  strategies : list (string * PickStrategy);
  current_strategy_name : option string
}.

(** StrategyManager.__init__ and _register_default_strategies *)
Definition StrategyManager_init : StrategyManager :=
  {| strategies :=
       [("priority"%string, Priority (PriorityStrategy_init None None None));
        ("cost_balance"%string, CostBalance (CostBalanceStrategy_init None));
        ("comp_building"%string,
         CompBuilding (CompBuildingStrategy_init None))];
     current_strategy_name := Some "priority"%string |}.

(** StrategyManager.register_strategy *)
Definition register_strategy (name : string) (strategy : PickStrategy)
    (self : StrategyManager) : bool * StrategyManager :=
  (true,
   {| strategies := Py.dict_set String.eqb name strategy self.(strategies);
      current_strategy_name := self.(current_strategy_name) |}).

(** StrategyManager.set_strategy *)
Definition set_strategy (name : string) (self : StrategyManager)
    : bool * StrategyManager :=
  match Py.dict_get String.eqb name self.(strategies) with
  | Some _ =>
      (true, {| strategies := self.(strategies);
                current_strategy_name := Some name |})
  | None => (false, self)
  end.

(** StrategyManager.get_current_strategy; the empty name is falsy *)
Definition get_current_strategy (self : StrategyManager)
    : option PickStrategy :=
  match self.(current_strategy_name) with
  | Some n =>
      if String.eqb n ""%string then None
      else Py.dict_get String.eqb n self.(strategies)
  | None => None
  end.

(** StrategyManager.execute_selection *)
Definition execute_selection {A} (card : A -> Card.Card)
    (self : StrategyManager) (available_cards : list A) : option A :=
  match get_current_strategy self with
  | Some strategy => select_card card strategy available_cards
  | None => None
  end.

(** StrategyManager.get_available_strategies *)
Definition get_available_strategies (self : StrategyManager) : list string :=
  map fst self.(strategies).

End Strategy.

(** ** modules/image_recognition/template_matcher.py *)

Module Matcher.

Record TemplateMatcher := {
  templates : list (string * Image);
  default_threshold : Q
}.

(** an entry of the list match_template returns *)
Record Match := {
  name : string;
  top_left : Z * Z;
  bottom_right : Z * Z;
  center : Z * Z;
  confidence : Q;
  width : Z;
  height : Z
}.

(** TemplateMatcher.__init__ with its default *)
Definition init (default_threshold : option Q) : TemplateMatcher :=
  {| templates := [];
     default_threshold := default (8 # 10)%Q default_threshold |}.

(** TemplateMatcher.load_template; [file] is what [cv2.imread] yields for
    the path, [None] when the file is missing or unreadable *)
Definition load_template (name : string) (file : option Image)
    (self : TemplateMatcher) : bool * TemplateMatcher :=
  match file with
  | None => (false, self)
  | Some template =>
      (true,
       {| templates := Py.dict_set String.eqb name template self.(templates);
          default_threshold := self.(default_threshold) |})
  end.

(** [threshold or self.default_threshold]: [None] and [0.0] are falsy *)
Definition float_or (threshold : option Q) (dflt : Q) : Q :=
  match threshold with
  | Some t => if Qeq_bool t 0 then dflt else t
  | None => dflt
  end.

(** The pairs [(y, x)] that zipping [np.where(result >= threshold)] yields,
    in row-major order, each with [result[y, x]]. *)
Fixpoint where_ge_row (threshold : Q) (y x : Z) (row : list Q)
    : list (Z * Z * Q) :=
  match row with
  | [] => []
  | v :: row' =>
      (if Qle_bool threshold v then [(y, x, v)] else [])
      ++ where_ge_row threshold y (x + 1) row'
  end.

Fixpoint where_ge (threshold : Q) (y : Z) (result : list (list Q))
    : list (Z * Z * Q) :=
  match result with
  | [] => []
  | row :: rows =>
      where_ge_row threshold y 0 row ++ where_ge threshold (y + 1) rows
  end.

(** TemplateMatcher.match_template *)
Definition match_template `{cv : OpenCV} (self : TemplateMatcher) (source : Image)
    (template_name : string) (threshold : option Q) : list Match :=
  match Py.dict_get String.eqb template_name self.(templates) with
  | None => []
  | Some template =>
      let threshold := float_or threshold self.(default_threshold) in
      match matchTemplate source template with
      | Some result =>
          let locations := where_ge threshold 0 result in
          let '(h, w) := img_shape template in
          map (fun '(y, x, v) =>
                 {| name := template_name;
                    top_left := (x, y);
                    bottom_right := (x + w, y + h);
                    center := (x + w / 2, y + h / 2);
                    confidence := v;
                    width := w;
                    height := h |})
              locations
      | None => []
      end
  end.

(** TemplateMatcher.match_all_templates: the resulting dict, in the
    iteration order of [self.templates] *)
Definition match_all_templates `{cv : OpenCV} (self : TemplateMatcher)
    (source : Image) (threshold : option Q) : list (string * list Match) :=
  let threshold := float_or threshold self.(default_threshold) in
  flat_map
    (fun '(template_name, _) =>
       let matches :=
         match_template self source template_name (Some threshold) in
       if Py.is_empty matches then [] else [(template_name, matches)])
    self.(templates).

(** TemplateMatcher.remove_template *)
Definition remove_template (name : string) (self : TemplateMatcher)
    : bool * TemplateMatcher :=
  match Py.dict_get String.eqb name self.(templates) with
  | Some _ =>
      (true,
       {| templates := Py.dict_del String.eqb name self.(templates);
          default_threshold := self.(default_threshold) |})
  | None => (false, self)
  end.

(** TemplateMatcher.clear_templates *)
Definition clear_templates (self : TemplateMatcher) : TemplateMatcher :=
  {| templates := []; default_threshold := self.(default_threshold) |}.

(** TemplateMatcher.get_template_count *)
Definition get_template_count (self : TemplateMatcher) : Z :=
  Py.len self.(templates).

(** TemplateMatcher.find_best_match *)
Definition find_best_match `{cv : OpenCV} (self : TemplateMatcher)
    (source : Image) (template_name : string) (threshold : option Q)
    : option Match :=
  match match_template self source template_name threshold with
  | [] => None
  | m :: ms => Some (Py.max_key confidence m ms)
  end.

(** TemplateMatcher.load_templates_from_dir on an existing directory.
    [listing] is [os.listdir(directory)], each name with what [cv2.imread]
    yields for the file; [supported] is the test
    [filename.lower().endswith(supported_formats)] and [stem] is
    [os.path.splitext(filename)[0]]. *)
Fixpoint load_templates_from_dir (supported : string -> bool)
    (stem : string -> string) (listing : list (string * option Image))
    (self : TemplateMatcher) : Z * TemplateMatcher :=
  match listing with
  | [] => (0, self)
  | (filename, file) :: rest =>
      if supported filename then
        let '(loaded, self1) := load_template (stem filename) file self in
        let '(loaded_count, self2) :=
          load_templates_from_dir supported stem rest self1 in
        ((if loaded then 1 else 0) + loaded_count, self2)
      else load_templates_from_dir supported stem rest self
  end.

End Matcher.

(** ** What the outside world supplies and receives *)

(** a screen rectangle, as the dicts of [shop_regions] *)
Record Region := {
  left : Z;
  top : Z;
  width : Z;
  height : Z
}.

(** The readings one controller tick takes from the world, one field per
    call site. *)
Record Observation := {
  (* ScreenCapture.capture_full_screen() in detect_shop_phase *)
  screen_detect : Image;
  (* ScreenCapture.capture_full_screen() in recognize_cards *)
  screen_recognize : Image;
  (* ScreenCapture.capture_region(...) for slot i *)
  slot_image : Z -> Region -> Image;
  (* time.time() in GameState.update_phase *)
  time_phase : Q;
  (* time.time() in GameAutomator._can_pick *)
  time_check : Q;
  (* time.time() in GameAutomator._pick_card, after the click *)
  time_picked : Q;
  (* pyautogui.size() *)
  screen_size : Z * Z;
  (* the two random.randint(-offset_range, offset_range) draws *)
  random_offset : Z * Z;
  (* whether the registered pick callback raises *)
  callback_raises : bool
}.

(** What the program does to the world. *)
Inductive Event :=
| CaptureRegion (slot : Z) (r : Region)   (* a per-slot capture *)
| ClickCard (x y : Z)                     (* a call of MouseController.click_card *)
| Click (x y : Z)                         (* a pointer click *)
| Callback (card : nat)                   (* pick_callback(card) *)
| ThreadStart (tid : nat)                 (* Thread(target=_monitor_loop).start() *)
| ThreadJoin (tid : nat)                  (* thread.join(timeout=2.0) *)
| Sleep (seconds : Q).

(** ** modules/automation/mouse_controller.py *)

Module Mouse.

(** MouseController.is_on_screen *)
Definition is_on_screen (size : Z * Z) (x y : Z) (tolerance : Z) : bool :=
  let '(screen_width, screen_height) := size in
  (- tolerance <=? x) && (x <=? screen_width + tolerance) &&
  ((- tolerance <=? y) && (y <=? screen_height + tolerance)).

(** MouseController.click_card with [offset_range] left at its default;
    [self.click] logs and swallows whatever pyautogui raises. *)
Definition click_card (obs : Observation) (card_x card_y : Z)
    : bool * list Event :=
  if negb (is_on_screen obs.(screen_size) card_x card_y 10) then (false, [])
  else
    let '(offset_x, offset_y) := obs.(random_offset) in
    let target_x := card_x + offset_x in
    let target_y := card_y + offset_y in
    (true, [Click target_x target_y]).

End Mouse.

(** ** Running methods: state, effects and exceptions *)

(** The part of the process that is not a field of the receiver: the store
    of [Card] objects (a reference is an index; objects are only ever added)
    and the effects performed so far, oldest first. *)
Record World := {
  heap : list Card.Card;
  events : list Event
}.

Inductive Exception := CvError | CallbackError.

Inductive Result (A : Type) :=
| Ok (a : A)
| Raised (e : Exception).
Arguments Ok {A} a.
Arguments Raised {A} e.

(** A method of a class [Self] returning an [A]: it may update the receiver
    and the world, and ends normally or by raising. *)
Definition M (Self A : Type) : Type := World * Self -> Result A * (World * Self).

Definition ret {Self A} (a : A) : M Self A := fun s => (Ok a, s).

Definition bind {Self A B} (m : M Self A) (k : A -> M Self B) : M Self B :=
  fun s =>
    match m s with
    | (Ok a, s') => k a s'
    | (Raised e, s') => (Raised e, s')
    end.

Declare Scope method_scope.
Delimit Scope method_scope with method.
Notation "x <- m ;; k" := (bind m (fun x => k))
  (at level 100, m at next level, k at level 200, only parsing)
  : method_scope.
Notation "'do' m ;; k" := (bind m (fun _ => k))
  (at level 100, m at next level, k at level 200, only parsing)
  : method_scope.

(** [raise e] *)
Definition raise {Self A} (e : Exception) : M Self A :=
  fun s => (Raised e, s).

(** [try: m  except Exception: handler] *)
Definition try_except {Self A} (m : M Self A) (handler : M Self A)
    : M Self A :=
  fun s =>
    match m s with
    | (Ok a, s') => (Ok a, s')
    | (Raised _, s') => handler s'
    end.

(** reading and updating the receiver *)
Definition self {Self} : M Self Self := fun s => (Ok (snd s), s).

Definition update {Self} (f : Self -> Self) : M Self unit :=
  fun s => (Ok tt, (fst s, f (snd s))).

(** performing an effect *)
Definition emit {Self} (es : list Event) : M Self unit :=
  fun s =>
    (Ok tt, ({| heap := (fst s).(heap); events := (fst s).(events) ++ es |},
             snd s)).

(** constructing a [Card] object *)
Definition new {Self} (c : Card.Card) : M Self nat :=
  fun s =>
    (Ok (length (fst s).(heap)),
     ({| heap := (fst s).(heap) ++ [c]; events := (fst s).(events) |},
      snd s)).

(** The fields of the object behind a reference. References come from
    [new] alone, so the fallback is never read. *)
Definition deref (h : list Card.Card) (r : nat) : Card.Card :=
  default (Card.mkCard ""%string 0 Card.UNKNOWN [] ""%string 0%Q (0, 0)
                       false None)
          (h !! r).

(** calling a mutating method of a [Card] object *)
Definition mutate {Self} (r : nat) (f : Card.Card -> Card.Card)
    : M Self unit :=
  fun s =>
    (Ok tt, ({| heap := alter f r (fst s).(heap);
                events := (fst s).(events) |},
             snd s)).

(** calling a method of an object held in a field: [get] reads the field,
    [set] writes the updated object back *)
Definition on_field {Self Field A} (get : Self -> Field)
    (set : Field -> Self -> Self) (m : M Field A) : M Self A :=
  fun s =>
    let '(r, (w, f)) := m (fst s, get (snd s)) in
    (r, (w, set f (snd s))).

(** ** modules/image_recognition/card_recognizer.py *)

Module Recognizer.

Record CardRecognizer := mkCardRecognizer {
  template_matcher : Matcher.TemplateMatcher;
  game_state : GameState.GameState;
  shop_regions : list Region
}.

Definition DEFAULT_SHOP_REGIONS : list Region :=
  [ {| left := 200; top := 500; width := 150; height := 200 |};
    {| left := 400; top := 500; width := 150; height := 200 |};
    {| left := 600; top := 500; width := 150; height := 200 |};
    {| left := 800; top := 500; width := 150; height := 200 |};
    {| left := 1000; top := 500; width := 150; height := 200 |} ].

(** CardRecognizer.__init__, before any template is loaded *)
Definition init : CardRecognizer :=
  {| template_matcher := Matcher.init (Some (75 # 100)%Q);
     game_state := GameState.init;
     shop_regions := DEFAULT_SHOP_REGIONS |}.

(** a method call on [self.game_state] *)
Definition on_game_state (f : GameState.GameState -> GameState.GameState)
    : M CardRecognizer unit :=
  update (fun r => mkCardRecognizer r.(template_matcher)
                                    (f r.(game_state)) r.(shop_regions)).

(** CardRecognizer.detect_shop_phase *)
Definition detect_shop_phase `{cv : OpenCV} (obs : Observation)
    (screenshot : option Image) : M CardRecognizer bool :=
  (let screenshot := default obs.(screen_detect) screenshot in
   if img_size screenshot =? 0 then ret false else
   match cvtColor_BGR2HSV screenshot with
   | None => raise CvError
   | Some hsv =>
       let gold_pixels := inRange_count hsv (20, 100, 200) (40, 255, 255) in
       let '(rows, cols) := img_shape screenshot in
       let gold_ratio := (inject_Z gold_pixels / inject_Z (rows * cols))%Q in
       let is_shop := Py.Qltb (2 # 100) gold_ratio in
       do (if is_shop
           then on_game_state (GameState.set_shop_phase obs.(time_phase))
           else on_game_state (GameState.set_lobby_phase obs.(time_phase)));;
       ret is_shop
   end)%method.

(** the table [cost_ranges] of _estimate_cost, in insertion order *)
Definition cost_ranges : list (Z * ((Z * Z * Z) * (Z * Z * Z))) :=
  [ (1, ((40, 200, 200), (50, 255, 255)));
    (2, ((20, 150, 200), (30, 255, 255)));
    (3, ((0, 100, 200), (10, 200, 255)));
    (4, ((120, 100, 200), (140, 255, 255)));
    (5, ((0, 0, 200), (180, 50, 255))) ].

(** CardRecognizer._estimate_cost *)
Definition _estimate_cost `{cv : OpenCV} (card_image : Image) : Z :=
  match cvtColor_BGR2HSV card_image with
  | Some hsv =>
      fst (fold_left
             (fun '(best_cost, max_pixels) '(cost, (lower, upper)) =>
                let pixel_count := inRange_count hsv lower upper in
                if max_pixels <? pixel_count then (cost, pixel_count)
                else (best_cost, max_pixels))
             cost_ranges (1, 0))
  | None => 1
  end.

(** the body of the inner loop of _recognize_single_card, for one match
    of one template, on the pair [(best_match, best_confidence)] *)
Definition best_step (acc : option (string * Q) * Q)
    (entry : string * Matcher.Match) : option (string * Q) * Q :=
  let '(best_match, best_confidence) := acc in
  let '(template_name, m) := entry in
  if Py.Qltb best_confidence m.(Matcher.confidence)
  then (Some (template_name, m.(Matcher.confidence)), m.(Matcher.confidence))
  else (best_match, best_confidence).

(** The two nested loops of _recognize_single_card over the matches of
    every template: [best_match] after them. *)
Definition best_of (template_results : list (string * list Matcher.Match))
    : option (string * Q) :=
  fst (fold_left best_step
         (flat_map (fun '(template_name, matches) =>
                      map (fun m => (template_name, m)) matches)
                   template_results)
         (None, (7 # 10)%Q)).

(** CardRecognizer._recognize_single_card *)
Definition _recognize_single_card `{cv : OpenCV} `{py : PyBuiltins}
    (card_image : Image) (shop_index : Z) : M CardRecognizer (option nat) :=
  (r <- self;;
   let template_results :=
     Matcher.match_all_templates r.(template_matcher) card_image
                                 (Some (7 # 10)%Q) in
   match best_of template_results with
   | Some (best_name, best_confidence) =>
       card <- new (Card.init best_name (_estimate_cost card_image) None
                              ""%string best_confidence None);;
       do mutate card (Card.set_shop_index shop_index);;
       ret (Some card)
   | None => ret None
   end)%method.

(** the loop of recognize_cards over [enumerate(self.shop_regions)] from
    slot [i] on; [cards] is the list built so far *)
Fixpoint recognize_slots `{cv : OpenCV} `{py : PyBuiltins} (obs : Observation) (i : Z)
    (regions : list Region) (cards : list nat)
    : M CardRecognizer (list nat) :=
  match regions with
  | [] => ret cards
  | region :: rest =>
      (do emit [CaptureRegion i region];;
       let card_image := obs.(slot_image) i region in
       if img_size card_image =? 0 then
         recognize_slots obs (i + 1) rest cards
       else
         found <- _recognize_single_card card_image i;;
         match found with
         | Some card =>
             do mutate card
                  (Card.set_position (region.(left) + region.(width) / 2)
                                     (region.(top) + region.(height) / 2));;
             do on_game_state
               (fun g =>
                  GameState.with_shop_slots
                    (g.(GameState.shop_slots) ++
                     [ {| GameState.slot_index := i;
                          GameState.slot_position :=
                            (region.(left), region.(top));
                          GameState.has_card := true |} ])
                    g);;
             recognize_slots obs (i + 1) rest (cards ++ [card])
         | None => recognize_slots obs (i + 1) rest cards
         end)%method
  end.

(** CardRecognizer.recognize_cards *)
Definition recognize_cards `{cv : OpenCV} `{py : PyBuiltins} (obs : Observation)
    (screenshot : option Image) : M CardRecognizer (list nat) :=
  (let screenshot := default obs.(screen_recognize) screenshot in
   if img_size screenshot =? 0 then ret [] else
   do on_game_state (GameState.with_shop_slots []);;
   r <- self;;
   cards <- recognize_slots obs 0 r.(shop_regions) [];;
   do on_game_state (GameState.with_available_cards cards);;
   ret cards)%method.

(** CardRecognizer.get_card_position. [card.position] is a pair, hence
    truthy, so the first [return] is always the one taken. *)
Definition get_card_position (card : nat) : M CardRecognizer (Z * Z) :=
  fun s => (Ok (deref (fst s).(heap) card).(Card.position), s).

(** CardRecognizer.refresh_and_recognize *)
Definition refresh_and_recognize `{cv : OpenCV} `{py : PyBuiltins} (obs : Observation)
    : M CardRecognizer (list nat) :=
  (do detect_shop_phase obs None;;
   r <- self;;
   if GameState.phase_eqb r.(game_state).(GameState.phase) GameState.SHOPPING
   then recognize_cards obs None
   else ret [])%method.

(** CardRecognizer.set_shop_regions *)
Definition set_shop_regions (regions : list Region)
    : M CardRecognizer unit :=
  update (fun r => mkCardRecognizer r.(template_matcher) r.(game_state)
                                    regions).

End Recognizer.

(** ** modules/automation/game_automator.py *)

Module Automator.

Inductive AutoPickerState := STOPPED | RUNNING | PAUSED | DETECTING.

Definition state_eqb (a b : AutoPickerState) : bool :=
  match a, b with
  | STOPPED, STOPPED | RUNNING, RUNNING | PAUSED, PAUSED
  | DETECTING, DETECTING => true
  | _, _ => false
  end.

(** [pick_callback] records whether a callback is registered; the two
    [threading.Event] objects are their flags; [_monitor_thread] is the
    identifier of the thread it refers to. *)
Record GameAutomator := mkGameAutomator {
  card_recognizer : Recognizer.CardRecognizer;
  strategy_manager : Strategy.StrategyManager;
  auto_picker_state : AutoPickerState;
  pick_callback : bool;
  _monitor_thread : option nat;
  _stop_event : bool;
  _pause_event : bool;
  pick_cooldown : Q;
  detect_interval : Q;
  pick_count : Z;
  total_picks : Z;
  last_pick_time : option Q
}.

Definition DEFAULT_PICK_COOLDOWN : Q := 5 # 10.
Definition DEFAULT_DETECT_INTERVAL : Q := 3 # 10.

(** GameAutomator.__init__ *)
Definition init : GameAutomator :=
  {| card_recognizer := Recognizer.init;
     strategy_manager := Strategy.StrategyManager_init;
     auto_picker_state := STOPPED;
     pick_callback := false;
     _monitor_thread := None;
     _stop_event := false;
     _pause_event := false;
     pick_cooldown := DEFAULT_PICK_COOLDOWN;
     detect_interval := DEFAULT_DETECT_INTERVAL;
     pick_count := 0;
     total_picks := 0;
     last_pick_time := None |}.

(** [self.game_state], the object [self.card_recognizer.game_state] *)
Definition game_state (a : GameAutomator) : GameState.GameState :=
  a.(card_recognizer).(Recognizer.game_state).

Definition with_card_recognizer (r : Recognizer.CardRecognizer)
    (a : GameAutomator) : GameAutomator :=
  mkGameAutomator r a.(strategy_manager) a.(auto_picker_state)
    a.(pick_callback) a.(_monitor_thread) a.(_stop_event) a.(_pause_event)
    a.(pick_cooldown) a.(detect_interval) a.(pick_count) a.(total_picks)
    a.(last_pick_time).

(** the assignments to the lifecycle fields *)
Definition with_lifecycle (st : AutoPickerState) (thread : option nat)
    (stop pause : bool) (a : GameAutomator) : GameAutomator :=
  mkGameAutomator a.(card_recognizer) a.(strategy_manager) st
    a.(pick_callback) thread stop pause
    a.(pick_cooldown) a.(detect_interval) a.(pick_count) a.(total_picks)
    a.(last_pick_time).

(** the assignments to the pick bookkeeping *)
Definition with_picks (count total : Z) (last : option Q)
    (a : GameAutomator) : GameAutomator :=
  mkGameAutomator a.(card_recognizer) a.(strategy_manager)
    a.(auto_picker_state) a.(pick_callback) a.(_monitor_thread)
    a.(_stop_event) a.(_pause_event)
    a.(pick_cooldown) a.(detect_interval) count total last.

Definition with_pick_cooldown (c : Q) (a : GameAutomator) : GameAutomator :=
  mkGameAutomator a.(card_recognizer) a.(strategy_manager)
    a.(auto_picker_state) a.(pick_callback) a.(_monitor_thread)
    a.(_stop_event) a.(_pause_event)
    c a.(detect_interval) a.(pick_count) a.(total_picks) a.(last_pick_time).

(** the store and the effects so far *)
Definition world : M GameAutomator World := fun s => (Ok (fst s), s).

(** The identifier a newly created thread gets: the number of threads
    started before it. *)
Definition next_thread (es : list Event) : nat :=
  length (List.filter (fun e => match e with ThreadStart _ => true
                                        | _ => false end) es).

(** GameAutomator.start_auto_picker *)
Definition start_auto_picker : M GameAutomator bool :=
  (a <- self;;
   if state_eqb a.(auto_picker_state) RUNNING then ret false else
   w <- world;;
   let thread := next_thread w.(events) in
   do update (with_lifecycle RUNNING (Some thread) false false);;
   do emit [ThreadStart thread];;
   ret true)%method.

(** GameAutomator.stop_auto_picker; [alive] is what
    [self._monitor_thread.is_alive()] answers *)
Definition stop_auto_picker (alive : bool) : M GameAutomator bool :=
  (a <- self;;
   if state_eqb a.(auto_picker_state) STOPPED then ret false else
   do update (with_lifecycle STOPPED a.(_monitor_thread) true
                             a.(_pause_event));;
   do match a.(_monitor_thread) with
      | Some thread => if alive then emit [ThreadJoin thread] else ret tt
      | None => ret tt
      end;;
   ret true)%method.

(** GameAutomator.pause_auto_picker *)
Definition pause_auto_picker : M GameAutomator bool :=
  (a <- self;;
   if negb (state_eqb a.(auto_picker_state) RUNNING) then ret false else
   do update (with_lifecycle PAUSED a.(_monitor_thread) a.(_stop_event)
                             true);;
   ret true)%method.

(** GameAutomator.resume_auto_picker *)
Definition resume_auto_picker : M GameAutomator bool :=
  (a <- self;;
   if negb (state_eqb a.(auto_picker_state) PAUSED) then ret false else
   do update (with_lifecycle RUNNING a.(_monitor_thread) a.(_stop_event)
                             false);;
   ret true)%method.

(** GameAutomator._can_pick *)
Definition _can_pick (obs : Observation) : M GameAutomator bool :=
  (a <- self;;
   match a.(last_pick_time) with
   | None => ret true
   | Some last =>
       let elapsed := (obs.(time_check) - last)%Q in
       ret (Qle_bool a.(pick_cooldown) elapsed)
   end)%method.

(** GameAutomator._pick_card. A position is a pair, so [not position] is
    false and only the comparison with [(0, 0)] can refuse it. *)
Definition _pick_card (obs : Observation) (card : nat)
    : M GameAutomator bool :=
  (position <- on_field card_recognizer with_card_recognizer
                        (Recognizer.get_card_position card);;
   let '(x, y) := position in
   if (x =? 0) && (y =? 0) then ret false else
   do emit [ClickCard x y];;
   let '(success, clicks) := Mouse.click_card obs x y in
   do emit clicks;;
   if success then
     do mutate card Card.select;;
     do update (fun a => with_picks (a.(pick_count) + 1)
                                    (a.(total_picks) + 1)
                                    (Some obs.(time_picked)) a);;
     a <- self;;
     do (if a.(pick_callback) then
           do emit [Callback card];;
           if obs.(callback_raises) then raise CallbackError else ret tt
         else ret tt);;
     ret success
   else ret success)%method.

(** GameAutomator._process_shop_phase *)
Definition _process_shop_phase `{cv : OpenCV} `{py : PyBuiltins} (obs : Observation)
    : M GameAutomator unit :=
  (a <- self;;
   if negb (game_state a).(GameState.is_active) then ret tt else
   cards <- on_field card_recognizer with_card_recognizer
                     (Recognizer.refresh_and_recognize obs);;
   if Py.is_empty cards then ret tt else
   a <- self;;
   w <- world;;
   let selected_card :=
     Strategy.execute_selection (deref w.(heap)) a.(strategy_manager) cards in
   match selected_card with
   | Some card =>
       can <- _can_pick obs;;
       if can then do _pick_card obs card;; ret tt else ret tt
   | None => ret tt
   end)%method.

(** One pass through the [while] loop of GameAutomator._monitor_loop;
    [false] when the loop condition fails and the thread ends. *)
Definition _monitor_loop_pass `{cv : OpenCV} `{py : PyBuiltins} (obs : Observation)
    : M GameAutomator bool :=
  (a <- self;;
   if a.(_stop_event) then ret false else
   if a.(_pause_event) then do emit [Sleep (1 # 10)];; ret true else
   do try_except (_process_shop_phase obs) (ret tt);;
   a <- self;;
   do emit [Sleep a.(detect_interval)];;
   ret true)%method.

(** GameAutomator._monitor_loop over the observations of successive
    passes; it ends early when a pass finds the stop flag set. *)
Fixpoint _monitor_loop `{cv : OpenCV} `{py : PyBuiltins} (obss : list Observation)
    : M GameAutomator unit :=
  match obss with
  | [] => ret tt
  | obs :: rest =>
      (continue <- _monitor_loop_pass obs;;
       if continue then _monitor_loop rest else ret tt)%method
  end.

(** GameAutomator.set_priority_list; of the strategy classes only
    [PriorityStrategy] has the attribute [set_priority_list] *)
Definition set_priority_list (priority_list : list string)
    : M GameAutomator unit :=
  update (fun a =>
    let m := a.(strategy_manager) in
    match Strategy.get_current_strategy m,
          m.(Strategy.current_strategy_name) with
    | Some (Strategy.Priority p), Some n =>
        mkGameAutomator a.(card_recognizer)
          {| Strategy.strategies :=
               Py.dict_set String.eqb n
                 (Strategy.Priority
                    (Strategy.set_priority_list priority_list p))
                 m.(Strategy.strategies);
             Strategy.current_strategy_name :=
               m.(Strategy.current_strategy_name) |}
          a.(auto_picker_state) a.(pick_callback) a.(_monitor_thread)
          a.(_stop_event) a.(_pause_event) a.(pick_cooldown)
          a.(detect_interval) a.(pick_count) a.(total_picks)
          a.(last_pick_time)
    | _, _ => a
    end).

(** GameAutomator.reset_statistics *)
Definition reset_statistics : M GameAutomator unit :=
  update (fun a => with_picks 0 a.(total_picks) None a).

(** GameAutomator.set_pick_cooldown *)
Definition set_pick_cooldown (cooldown : Q) : M GameAutomator unit :=
  update (with_pick_cooldown (Qmax (1 # 10) cooldown)).

(** GameAutomator.manual_pick *)
Definition manual_pick (obs : Observation) (card : nat)
    : M GameAutomator bool :=
  _pick_card obs card.

(** GameAutomator.set_strategy *)
Definition set_strategy (strategy_name : string) : M GameAutomator bool :=
  fun s =>
    let a := snd s in
    let '(ok, m) := Strategy.set_strategy strategy_name
                      a.(strategy_manager) in
    (Ok ok,
     (fst s,
      mkGameAutomator a.(card_recognizer) m a.(auto_picker_state)
        a.(pick_callback) a.(_monitor_thread) a.(_stop_event)
        a.(_pause_event) a.(pick_cooldown) a.(detect_interval)
        a.(pick_count) a.(total_picks) a.(last_pick_time))).

(** GameAutomator.get_current_strategy_name *)
Definition get_current_strategy_name (a : GameAutomator) : string :=
  match a.(strategy_manager).(Strategy.current_strategy_name) with
  | Some n => n
  | None => ""%string
  end.

(** GameAutomator.set_detect_interval *)
Definition set_detect_interval (interval : Q) : M GameAutomator unit :=
  update (fun a =>
    mkGameAutomator a.(card_recognizer) a.(strategy_manager)
      a.(auto_picker_state) a.(pick_callback) a.(_monitor_thread)
      a.(_stop_event) a.(_pause_event) a.(pick_cooldown)
      (Qmax (1 # 10) interval) a.(pick_count) a.(total_picks)
      a.(last_pick_time)).

End Automator.

(** ** modules/config/card_config.py *)

Module CardConfig.

(** The priority list and the decks a CardConfigManager keeps in memory.
    Writing the JSON files changes neither: [_save_priority_list] logs and
    swallows a failed write, [_save_custom_decks] answers whether the write
    went through. *)
Record CardConfigManager := {
  _priority_list : list string;
  _custom_decks : list (string * list string)
}.

Definition with_priority_list (l : list string) (self : CardConfigManager)
    : CardConfigManager :=
  {| _priority_list := l; _custom_decks := self.(_custom_decks) |}.

Definition with_custom_decks (d : list (string * list string))
    (self : CardConfigManager) : CardConfigManager :=
  {| _priority_list := self.(_priority_list); _custom_decks := d |}.

(** CardConfigManager.get_priority_list *)
Definition get_priority_list (self : CardConfigManager) : list string :=
  self.(_priority_list).

(** CardConfigManager.set_priority_list *)
Definition set_priority_list (cards : list string)
    (self : CardConfigManager) : CardConfigManager :=
  with_priority_list cards self.

(** CardConfigManager.add_to_priority *)
Definition add_to_priority (card_name : string) (position : option Z)
    (self : CardConfigManager) : CardConfigManager :=
  if Py.contains card_name self.(_priority_list) then self else
  match position with
  | None => with_priority_list (self.(_priority_list) ++ [card_name]) self
  | Some p =>
      if Py.len self.(_priority_list) <=? p
      then with_priority_list (self.(_priority_list) ++ [card_name]) self
      else with_priority_list
             (Py.list_insert p card_name self.(_priority_list)) self
  end.

(** CardConfigManager.remove_from_priority *)
Definition remove_from_priority (card_name : string)
    (self : CardConfigManager) : bool * CardConfigManager :=
  if negb (Py.contains card_name self.(_priority_list)) then (false, self)
  else (true,
        with_priority_list (Py.list_remove card_name self.(_priority_list))
                           self).

(** CardConfigManager.clear_priority *)
Definition clear_priority (self : CardConfigManager) : CardConfigManager :=
  with_priority_list [] self.

(** CardConfigManager.get_deck *)
Definition get_deck (deck_name : string) (self : CardConfigManager)
    : option (list string) :=
  Py.dict_get String.eqb deck_name self.(_custom_decks).

(** CardConfigManager.save_deck; [written] is what [_save_custom_decks]
    answers *)
Definition save_deck (written : bool) (deck_name : string)
    (cards : list string) (self : CardConfigManager)
    : bool * CardConfigManager :=
  (written,
   with_custom_decks
     (Py.dict_set String.eqb deck_name cards self.(_custom_decks)) self).

(** CardConfigManager.delete_deck *)
Definition delete_deck (written : bool) (deck_name : string)
    (self : CardConfigManager) : bool * CardConfigManager :=
  match Py.dict_get String.eqb deck_name self.(_custom_decks) with
  | None => (false, self)
  | Some _ =>
      (written,
       with_custom_decks
         (Py.dict_del String.eqb deck_name self.(_custom_decks)) self)
  end.

(** CardConfigManager.rename_deck:
    [self._custom_decks[new_name] = self._custom_decks.pop(old_name)] *)
Definition rename_deck (written : bool) (old_name new_name : string)
    (self : CardConfigManager) : bool * CardConfigManager :=
  match Py.dict_get String.eqb old_name self.(_custom_decks) with
  | None => (false, self)
  | Some cards =>
      (written,
       with_custom_decks
         (Py.dict_set String.eqb new_name cards
            (Py.dict_del String.eqb old_name self.(_custom_decks))) self)
  end.

End CardConfig.

(** * The vocabulary of the properties *)

(** ** The specification's terms *)

(** The priority-ordered policy in the words of the specification: a
    candidate is eligible when its cost is at most the configured maximum and
    its name is on the priority list; its score is the length of the list
    minus the rank of its name, plus ten times its cost when higher costs are
    preferred. *)
Module PrioritySpec.

(** the rank of a name: the position of its first occurrence *)
Fixpoint rank (x : string) (l : list string) : Z :=
  match l with
  | [] => 0
  | y :: ys => if String.eqb y x then 0 else 1 + rank x ys
  end.

Section Candidates.
Context {A : Type} (card : A -> Card.Card).

Definition eligible (self : Strategy.PriorityStrategy) (c : A) : bool :=
  ((card c).(Card.cost) <=? self.(Strategy.max_cost)) &&
  Py.contains (card c).(Card.name) self.(Strategy.priority_list).

Definition score (self : Strategy.PriorityStrategy) (c : A) : Z :=
  (Py.len self.(Strategy.priority_list)
   - rank (card c).(Card.name) self.(Strategy.priority_list))
  + (if self.(Strategy.prefer_higher_cost)
     then (card c).(Card.cost) * 10 else 0).

End Candidates.
End PrioritySpec.

(** What a pass over the shop slots constructs, read off the frame alone:
    for each slot whose capture is not empty and in which some template
    beats the confidence bar, the card built for it. *)
Module RecognitionSpec.
Section Slots.
Context `{cv : OpenCV} `{py : PyBuiltins}.

Definition slot_card (tm : Matcher.TemplateMatcher) (obs : Observation)
    (i : Z) (region : Region) : option Card.Card :=
  let card_image := obs.(slot_image) i region in
  if img_size card_image =? 0 then None else
  match Recognizer.best_of
          (Matcher.match_all_templates tm card_image (Some (7 # 10)%Q)) with
  | Some (best_name, best_confidence) =>
      Some (Card.set_position
              (region.(left) + region.(width) / 2)
              (region.(top) + region.(height) / 2)
              (Card.set_shop_index i
                 (Card.init best_name (Recognizer._estimate_cost card_image)
                            None ""%string best_confidence None)))
  | None => None
  end.

(** the slots from [i] on that yield a card, each with its region *)
Fixpoint slot_cards (tm : Matcher.TemplateMatcher) (obs : Observation)
    (i : Z) (regions : list Region) : list (Z * Region * Card.Card) :=
  match regions with
  | [] => []
  | region :: rest =>
      match slot_card tm obs i region with
      | Some c => (i, region, c) :: slot_cards tm obs (i + 1) rest
      | None => slot_cards tm obs (i + 1) rest
      end
  end.

(** the per-slot captures of a pass, one per configured region *)
Fixpoint captures (i : Z) (regions : list Region) : list Event :=
  match regions with
  | [] => []
  | region :: rest => CaptureRegion i region :: captures (i + 1) rest
  end.

Definition slot_entry (n : Z * Region * Card.Card) : GameState.ShopSlot :=
  let '(i, region, _) := n in
  {| GameState.slot_index := i;
     GameState.slot_position := (region.(left), region.(top));
     GameState.has_card := true |}.

End Slots.
End RecognitionSpec.

(** the actions handed to the actuator: the calls of [click_card] *)
Definition dispatched (es : list Event) : list (Z * Z) :=
  flat_map (fun e => match e with ClickCard x y => [(x, y)] | _ => [] end) es.

(** when [_can_pick] lets a pick through *)
Definition cooled_down (a : Automator.GameAutomator) (obs : Observation)
    : Prop :=
  match a.(Automator.last_pick_time) with
  | None => True
  | Some last => (a.(Automator.pick_cooldown) <= obs.(time_check) - last)%Q
  end.

(** the pick bookkeeping of two controller states agrees *)
Definition same_picks (a a' : Automator.GameAutomator) : Prop :=
  a'.(Automator.pick_count) = a.(Automator.pick_count) /\
  a'.(Automator.total_picks) = a.(Automator.total_picks) /\
  a'.(Automator.last_pick_time) = a.(Automator.last_pick_time).

(** one more pick is on the books, stamped [now] *)
Definition one_more_pick (now : Q) (a a' : Automator.GameAutomator) : Prop :=
  a'.(Automator.pick_count) = a.(Automator.pick_count) + 1 /\
  a'.(Automator.total_picks) = a.(Automator.total_picks) + 1 /\
  a'.(Automator.last_pick_time) = Some now.

(** the card a tick would select: what recognition and the active strategy
    yield on the frame, before any cooldown is consulted *)
Definition tick_selection `{cv : OpenCV} `{py : PyBuiltins}
    (obs : Observation) (s : World * Automator.GameAutomator) : option nat :=
  let '(w, a) := s in
  if negb (Automator.game_state a).(GameState.is_active) then None else
  match Recognizer.refresh_and_recognize obs
          (w, a.(Automator.card_recognizer)) with
  | (Ok cards, (w1, _)) =>
      Strategy.execute_selection (deref w1.(heap))
                                 a.(Automator.strategy_manager) cards
  | (Raised _, _) => None
  end.

(** C3 as the specification words it: whenever two ticks at most 0.1 s
    apart each have a card selected and the cooldown is 0.5 s, at most one
    action is dispatched over the two. *)
Definition at_most_one_dispatch_in_two_ticks : Prop :=
  forall (cv : OpenCV) (py : PyBuiltins) (obs1 obs2 : Observation)
         (s : World * Automator.GameAutomator),
    let s1 := snd (Automator._process_shop_phase obs1 s) in
    let s2 := snd (Automator._process_shop_phase obs2 s1) in
    (snd s).(Automator.pick_cooldown) = 5 # 10 ->
    (0 <= obs2.(time_check) - obs1.(time_check) <= 1 # 10)%Q ->
    (obs1.(time_check) <= obs1.(time_picked) <= obs2.(time_check))%Q ->
    tick_selection obs1 s <> None ->
    tick_selection obs2 s1 <> None ->
    (length (dispatched (fst s2).(events))
     <= length (dispatched (fst s).(events)) + 1)%nat.

(** ** Test doubles and a worked scene *)

(** Stand-ins for the runtime and for OpenCV on which the examples run.
    Frames are taken to be in HSV already; a template correlates perfectly
    with a source equal to it and not at all with any other; an empty source
    is rejected, as [cv2.error] does. *)
Module TestDouble.

Definition py : PyBuiltins :=
  {| str_hash := fun s => Z.of_nat (String.length s);
     str_strip := fun s => s |}.

Definition pixel_eqb (p q : Pixel) : bool :=
  let '(a, b, c) := p in
  let '(a', b', c') := q in
  (a =? a') && (b =? b') && (c =? c').

Fixpoint row_eqb (r s : list Pixel) : bool :=
  match r, s with
  | [], [] => true
  | p :: r', q :: s' => pixel_eqb p q && row_eqb r' s'
  | _, _ => false
  end.

Fixpoint image_eqb (a b : Image) : bool :=
  match a, b with
  | [], [] => true
  | r :: a', s :: b' => row_eqb r s && image_eqb a' b'
  | _, _ => false
  end.

Definition in_range (lower upper : Z * Z * Z) (p : Pixel) : bool :=
  let '(h, s, v) := p in
  let '(h0, s0, v0) := lower in
  let '(h1, s1, v1) := upper in
  (h0 <=? h) && (h <=? h1) && (s0 <=? s) && (s <=? s1) &&
  (v0 <=? v) && (v <=? v1).

Definition cv : OpenCV :=
  {| matchTemplate := fun source template =>
       if img_size source =? 0 then None
       else if image_eqb source template then Some [[1%Q]]
       else Some [[0%Q]];
     cvtColor_BGR2HSV := fun img =>
       if img_size img =? 0 then None else Some img;
     inRange_count := fun hsv lower upper =>
       Z.of_nat (length (List.filter (in_range lower upper) (concat hsv))) |}.

(** a surface fixed in advance, whatever the source *)
Definition cv_surface (result : list (list Q)) : OpenCV :=
  {| matchTemplate := fun source template =>
       if img_size source =? 0 then None else Some result;
     cvtColor_BGR2HSV := cvtColor_BGR2HSV (OpenCV := cv);
     inRange_count := inRange_count (OpenCV := cv) |}.

(** a one-pixel frame *)
Definition dot (h s v : Z) : Image := [[(h, s, v)]].

End TestDouble.

(** Cards for worked examples: a name and a cost, everything else as
    [Card.__init__] leaves it. *)
Definition example_card (name : string) (cost : Z) : Card.Card :=
  Card.mkCard name cost (Card.from_cost cost) [] ""%string 0%Q (0, 0)
              false None.

(** a process in which nothing has happened yet *)
Definition fresh_world : World := {| heap := []; events := [] |}.

(** running one method after another *)
Definition then_run {Self A B} (first : M Self A) (second : M Self B)
    (s : World * Self) : Result A * Result B * (World * Self) :=
  let '(r1, s1) := first s in
  let '(r2, s2) := second s1 in
  (r1, r2, s2).

(** The default shop regions, two templates, and a shop frame in which the
    fifth slot shows the first template. On a 1024x768 display the centre
    of that slot, (1075, 600), lies beyond the right edge; on a 1920x1080
    display it is on screen. *)
Module Scene.

Definition garen : Image := TestDouble.dot 1 1 1.
Definition jinx : Image := TestDouble.dot 2 2 2.
Definition blank : Image := TestDouble.dot 9 9 9.
Definition gold_frame : Image := TestDouble.dot 30 200 220.

(** the frame seen at clock reading [now], on a display of size [size] *)
Definition frame (size : Z * Z) (now : Q) : Observation :=
  {| screen_detect := gold_frame;
     screen_recognize := gold_frame;
     slot_image := fun i _ => if i =? 4 then garen else blank;
     time_phase := now;
     time_check := now;
     time_picked := now;
     screen_size := size;
     random_offset := (3, -2);
     callback_raises := false |}.

(** a controller with the templates loaded and "garen" on the priority
    list, after the operator had the shop detected once *)
Definition controller : World * Automator.GameAutomator :=
  let matcher :=
    snd (Matcher.load_template "jinx" (Some jinx)
           (snd (Matcher.load_template "garen" (Some garen)
                   (Matcher.init (Some (75 # 100)%Q))))) in
  let recognizer :=
    Recognizer.mkCardRecognizer matcher GameState.init
                                Recognizer.DEFAULT_SHOP_REGIONS in
  let a0 := Automator.with_card_recognizer recognizer Automator.init in
  let s1 := snd (Automator.set_priority_list ["garen"%string]
                   (fresh_world, a0)) in
  snd (on_field Automator.card_recognizer Automator.with_card_recognizer
         (Recognizer.refresh_and_recognize
            (cv := TestDouble.cv) (py := TestDouble.py)
            (frame (1024, 768) 99%Q))
         s1).

(** one pass of [_process_shop_phase] *)
Definition tick (obs : Observation) (s : World * Automator.GameAutomator)
    : World * Automator.GameAutomator :=
  snd (Automator._process_shop_phase
         (cv := TestDouble.cv) (py := TestDouble.py) obs s).

End Scene.

(** ** Terms of the further properties *)

(** the score CostBalanceStrategy.select_card sorts by *)
Definition cost_balance_score {A : Type} (card : A -> Card.Card)
    (self : Strategy.CostBalanceStrategy) (c : A) : Q :=
  (default 1%Q (Py.dict_get Z.eqb (card c).(Card.cost)
                            self.(Strategy.cost_weights))
   + (card c).(Card.confidence) * (1 # 10))%Q.

(** the number of pixels of a frame in the colour band of a cost tier,
    by the table of _estimate_cost *)
Definition band_count `{cv : OpenCV} (hsv : Image) (cost : Z) : Z :=
  match Py.dict_get Z.eqb cost Recognizer.cost_ranges with
  | Some (lower, upper) => inRange_count hsv lower upper
  | None => 0
  end.

(** the centre of a shop region *)
Definition region_centre (region : Region) : Z * Z :=
  (region.(left) + region.(width) / 2, region.(top) + region.(height) / 2).

(** every field of the controller but the recognizer and the pick
    bookkeeping agrees *)
Definition same_controls (a a' : Automator.GameAutomator) : Prop :=
  a'.(Automator.strategy_manager) = a.(Automator.strategy_manager) /\
  a'.(Automator.auto_picker_state) = a.(Automator.auto_picker_state) /\
  a'.(Automator.pick_callback) = a.(Automator.pick_callback) /\
  a'.(Automator._monitor_thread) = a.(Automator._monitor_thread) /\
  a'.(Automator._stop_event) = a.(Automator._stop_event) /\
  a'.(Automator._pause_event) = a.(Automator._pause_event) /\
  a'.(Automator.pick_cooldown) = a.(Automator.pick_cooldown) /\
  a'.(Automator.detect_interval) = a.(Automator.detect_interval).

(** the state of the controller and its two flags tell the same story *)
Definition lifecycle_consistent (a : Automator.GameAutomator) : Prop :=
  match a.(Automator.auto_picker_state) with
  | Automator.STOPPED =>
      a.(Automator._stop_event) = true \/
      a.(Automator._monitor_thread) = None
  | Automator.RUNNING =>
      a.(Automator._stop_event) = false /\
      a.(Automator._pause_event) = false /\
      a.(Automator._monitor_thread) <> None
  | Automator.PAUSED =>
      a.(Automator._stop_event) = false /\
      a.(Automator._pause_event) = true /\
      a.(Automator._monitor_thread) <> None
  | Automator.DETECTING => False
  end.

(** * Properties *)

(** ** Cards *)

(** C8. [CardRarity.from_cost] sends each cost 1..5 to the tier of that cost
    (the tier whose [cost] property reads the same number back) and cost 0,
    like every value outside 1..5, to [UNKNOWN]. *)
Theorem from_cost_tiers :
  Card.from_cost 1 = Card.ONE_COST /\
  Card.from_cost 2 = Card.TWO_COST /\
  Card.from_cost 3 = Card.THREE_COST /\
  Card.from_cost 4 = Card.FOUR_COST /\
  Card.from_cost 5 = Card.FIVE_COST /\
  Card.from_cost 0 = Card.UNKNOWN /\
  forall c : Z,
    if (1 <=? c) && (c <=? 5)
    then Card.CardRarity_cost (Card.from_cost c) = c /\
         Card.from_cost c <> Card.UNKNOWN
    else Card.from_cost c = Card.UNKNOWN.
Proof.
  repeat split; try reflexivity.
  intro c.
  destruct ((1 <=? c) && (c <=? 5)) eqn:Hrange.
  - apply andb_prop in Hrange as [Hlo Hhi].
    apply Z.leb_le in Hlo, Hhi.
    assert (Hc : c = 1 \/ c = 2 \/ c = 3 \/ c = 4 \/ c = 5) by lia.
    destruct Hc as [-> | [-> | [-> | [-> | ->]]]]; split; (reflexivity || discriminate).
  - apply andb_false_iff in Hrange.
    destruct c as [ | p | p ]; try reflexivity.
    assert (Hbig : 5 < Z.pos p).
    { destruct Hrange as [Hlo | Hhi];
        [ apply Z.leb_gt in Hlo | apply Z.leb_gt in Hhi ]; lia. }
    do 3 (destruct p as [ p | p | ]; try reflexivity; try lia).
Qed.

Section CardIdentity.
Context `{py : PyBuiltins}.

(** C4. Equality and hashing of [Card] look at the name alone: [==]
    between two cards is equality of their names, whatever the other
    fields hold, and cards with one name have one hash. *)
Theorem card_eq_hash_by_name :
  (forall a b : Card.Card,
     Card.eq a (Card.OCard b) = true <-> a.(Card.name) = b.(Card.name)) /\
  (forall a b : Card.Card,
     a.(Card.name) <> b.(Card.name) -> Card.eq a (Card.OCard b) = false) /\
  (forall (n : string) cost1 rar1 cls1 path1 conf1 pos1 sel1 idx1
          cost2 rar2 cls2 path2 conf2 pos2 sel2 idx2,
     let a := Card.mkCard n cost1 rar1 cls1 path1 conf1 pos1 sel1 idx1 in
     let b := Card.mkCard n cost2 rar2 cls2 path2 conf2 pos2 sel2 idx2 in
     Card.eq a (Card.OCard b) = true /\ Card.hash a = Card.hash b) /\
  (forall a b : Card.Card,
     a.(Card.name) = b.(Card.name) -> Card.hash a = Card.hash b).
Proof.
  split; [ | split; [ | split ] ].
  - intros a b. unfold Card.eq. apply String.eqb_eq.
  - intros a b Hne. unfold Card.eq. now apply String.eqb_neq.
  - intros. subst a b. unfold Card.eq, Card.hash. cbn.
    split; [ apply String.eqb_refl | reflexivity ].
  - intros a b Hab. unfold Card.hash. now rewrite Hab.
Qed.

End CardIdentity.

(** ** Python's sort and list search *)

Section SortFacts.
Context {A : Type} (key : A -> Z).

(** The first element of a list sorted by descending key is a maximum of
    the list, and the first of the maxima in the original order. *)
Lemma sort_reverse_head_split (l : list A) :
  match Py.sort_reverse Z.ltb key l with
  | [] => l = []
  | m :: _ =>
      exists before after,
        l = before ++ m :: after /\
        Forall (fun d => key d < key m) before /\
        Forall (fun d => key d <= key m) after
  end.
Proof.
  induction l as [ | a l IH ]; [ reflexivity | ].
  cbn [Py.sort_reverse fold_right].
  fold (Py.sort_reverse Z.ltb key l).
  destruct (Py.sort_reverse Z.ltb key l) as [ | m rest ].
  - subst l. exists [], []. repeat split; constructor.
  - destruct IH as (before & after & -> & Hlt & Hle).
    cbn [Py.insert_desc].
    destruct (Z.ltb_spec (key a) (key m)) as [Ham | Hma].
    + exists (a :: before), after. repeat split; auto.
    + exists [], (before ++ m :: after). repeat split; [ constructor | ].
      apply Forall_app; split.
      * eapply Forall_impl; [ exact Hlt | ]. cbn. intros. lia.
      * constructor; [ lia | ].
        eapply Forall_impl; [ exact Hle | ]. cbn. intros. lia.
Qed.

(** Sorting neither drops nor invents elements. *)
Lemma insert_desc_Permutation (x : A) (l : list A) :
  Permutation (Py.insert_desc Z.ltb key x l) (x :: l).
Proof.
  induction l as [ | y l IH ]; cbn; [ reflexivity | ].
  destruct (key x <? key y); [ | reflexivity ].
  rewrite IH. apply perm_swap.
Qed.

Lemma sort_reverse_Permutation (l : list A) :
  Permutation (Py.sort_reverse Z.ltb key l) l.
Proof.
  induction l as [ | a l IH ]; cbn; [ reflexivity | ].
  fold (Py.sort_reverse Z.ltb key l).
  rewrite insert_desc_Permutation. now rewrite IH.
Qed.

End SortFacts.

Lemma index_In (x : string) (l : list string) :
  In x l -> exists i, Py.index x l = Some i /\ 0 <= i < Py.len l.
Proof.
  unfold Py.len.
  induction l as [ | y l IH ]; [ intros [] | ].
  intros Hin. cbn [Py.index].
  destruct (String.eqb_spec y x) as [ -> | Hne ].
  - exists 0. split; [ reflexivity | cbn [length]; lia ].
  - destruct Hin as [ Hyx | Hin ]; [ contradiction | ].
    destruct (IH Hin) as (i & -> & Hi).
    exists (i + 1). split; [ reflexivity | cbn [length]; lia ].
Qed.

Lemma index_not_In (x : string) (l : list string) :
  ~ In x l -> Py.index x l = None.
Proof.
  induction l as [ | y l IH ]; [ reflexivity | ].
  intros Hnin. cbn [Py.index].
  destruct (String.eqb_spec y x) as [ -> | Hne ].
  - exfalso. apply Hnin. now left.
  - rewrite IH; [ reflexivity | ]. intros Hin. apply Hnin. now right.
Qed.

Lemma contains_In (x : string) (l : list string) :
  Py.contains x l = true <-> In x l.
Proof.
  unfold Py.contains. rewrite existsb_exists. split.
  - intros (y & Hin & Heq). apply String.eqb_eq in Heq. now subst.
  - intros Hin. exists x. split; [ exact Hin | apply String.eqb_refl ].
Qed.

(** ** Selection strategies *)

Lemma filter_none {A} (f : A -> bool) (l : list A) :
  List.filter f l = [] <-> forall x, In x l -> f x = false.
Proof.
  induction l as [ | a l IH ]; cbn.
  - split; [ intros _ x [] | reflexivity ].
  - destruct (f a) eqn:Hfa; split.
    + discriminate.
    + intros Hall. specialize (Hall a (or_introl eq_refl)). congruence.
    + intros Hnil x [ <- | Hin ]; [ exact Hfa | now apply IH ].
    + intros Hall. apply IH. intros x Hin. apply Hall. now right.
Qed.

Lemma index_rank (x : string) (l : list string) :
  In x l -> Py.index x l = Some (PrioritySpec.rank x l).
Proof.
  induction l as [ | y l IH ]; [ intros [] | ].
  intros Hin. cbn [Py.index PrioritySpec.rank].
  destruct (String.eqb_spec y x) as [ -> | Hne ]; [ reflexivity | ].
  destruct Hin as [ Hyx | Hin ]; [ contradiction | ].
  rewrite (IH Hin). f_equal. lia.
Qed.

Lemma rank_bounds (x : string) (l : list string) :
  In x l -> 0 <= PrioritySpec.rank x l < Py.len l.
Proof.
  intros Hin.
  destruct (index_In x l Hin) as (i & Hi & Hrange).
  rewrite (index_rank x l Hin) in Hi. now inversion Hi; subst.
Qed.

Section PriorityFacts.
Context {A : Type} (card : A -> Card.Card).

(** What the scoring loop appends for one card. *)
Lemma priority_scored_eligible (self : Strategy.PriorityStrategy) (c : A) :
  Strategy.priority_scored card self c =
  if Py.contains (card c).(Card.name) self.(Strategy.priority_list)
  then [(c, PrioritySpec.score card self c)]
  else [].
Proof.
  unfold Strategy.priority_scored, Strategy.get_priority_index,
    PrioritySpec.score.
  destruct (Py.contains _ _) eqn:Hc.
  - apply contains_In in Hc.
    rewrite (index_rank _ _ Hc).
    pose proof (rank_bounds _ _ Hc) as Hb.
    destruct (Z.leb_spec 0 (PrioritySpec.rank (card c).(Card.name)
                              self.(Strategy.priority_list)));
      [ reflexivity | lia ].
  - rewrite index_not_In; [ reflexivity | ].
    intros Hin. apply contains_In in Hin. congruence.
Qed.

(** [scored_cards] holds the eligible candidates in their original order,
    each with its score. *)
Lemma scored_cards_eligible (self : Strategy.PriorityStrategy)
    (cards : list A) :
  flat_map (Strategy.priority_scored card self)
    (List.filter (fun c => (card c).(Card.cost) <=? self.(Strategy.max_cost))
                 cards)
  = map (fun c => (c, PrioritySpec.score card self c))
        (List.filter (PrioritySpec.eligible card self) cards).
Proof.
  induction cards as [ | c cards IH ]; [ reflexivity | ].
  cbn [List.filter]. unfold PrioritySpec.eligible at 1.
  destruct ((card c).(Card.cost) <=? self.(Strategy.max_cost)); cbn.
  - rewrite priority_scored_eligible, IH.
    now destruct (Py.contains _ _).
  - exact IH.
Qed.

Lemma priority_select_card_sorted (self : Strategy.PriorityStrategy)
    (cards : list A) :
  Strategy.priority_select_card card self cards =
  match Py.sort_reverse Z.ltb snd
          (map (fun c => (c, PrioritySpec.score card self c))
               (List.filter (PrioritySpec.eligible card self) cards)) with
  | (c, _) :: _ => Some c
  | [] => None
  end.
Proof.
  unfold Strategy.priority_select_card.
  rewrite scored_cards_eligible.
  destruct cards as [ | c0 cards ]; [ reflexivity | ].
  cbn [Py.is_empty].
  destruct (List.filter (fun c => (card c).(Card.cost) <=? _) (c0 :: cards))
    as [ | f fs ] eqn:Hf; [ | reflexivity ].
  cbn [Py.is_empty].
  replace (List.filter (PrioritySpec.eligible card self) (c0 :: cards))
    with (@nil A); [ reflexivity | ].
  symmetry. apply filter_none.
  intros d Hd. unfold PrioritySpec.eligible.
  pose proof (proj1 (filter_none _ _) Hf d Hd) as Hcost.
  cbn in Hcost. now rewrite Hcost.
Qed.

End PriorityFacts.

(** C1. [PriorityStrategy.select_card] keeps the candidates whose cost is at
    most [max_cost] and whose name is on the priority list, scores each as
    list length minus rank plus ten times its cost when higher costs are
    preferred, and returns a candidate of maximal score, the earliest among
    equals; it returns [None] exactly when no candidate is eligible. With the
    list [A; B; C], candidates A (cost 2) and C (cost 1) and no cost bonus it
    returns A; with [max_cost = 2] a cost-3 candidate of the best rank loses
    to a cost-2 candidate of a worse rank. *)
Theorem priority_select_card_max_score :
  (forall (A : Type) (card : A -> Card.Card)
          (self : Strategy.PriorityStrategy) (cards : list A),
     match Strategy.priority_select_card card self cards with
     | Some c =>
         (card c).(Card.cost) <= self.(Strategy.max_cost) /\
         In (card c).(Card.name) self.(Strategy.priority_list) /\
         exists before after,
           List.filter (PrioritySpec.eligible card self) cards
             = before ++ c :: after /\
           Forall (fun d => PrioritySpec.score card self d
                            < PrioritySpec.score card self c) before /\
           Forall (fun d => PrioritySpec.score card self d
                            <= PrioritySpec.score card self c) after
     | None =>
         List.filter (PrioritySpec.eligible card self) cards = []
     end) /\
  (let self := Strategy.PriorityStrategy_init
                 (Some ["A"; "B"; "C"]%string) None (Some false) in
   let a := example_card "A" 2 in
   let c := example_card "C" 1 in
   Strategy.priority_select_card id self [a; c] = Some a /\
   Strategy.priority_select_card id self [c; a] = Some a) /\
  (let self := Strategy.PriorityStrategy_init
                 (Some ["A"; "B"]%string) (Some 2) None in
   let a := example_card "A" 3 in
   let b := example_card "B" 2 in
   Strategy.priority_select_card id self [a; b] = Some b /\
   Strategy.priority_select_card id self [a] = None).
Proof.
  split; [ | split; [ split; reflexivity | split; reflexivity ] ].
  intros A card self cards.
  rewrite priority_select_card_sorted.
  pose proof (sort_reverse_head_split snd
                (map (fun c => (c, PrioritySpec.score card self c))
                     (List.filter (PrioritySpec.eligible card self) cards)))
    as Hhead.
  destruct (Py.sort_reverse Z.ltb snd _) as [ | [c s] rest ].
  - now apply map_eq_nil in Hhead.
  - destruct Hhead as (before & after & Hsplit & Hlt & Hle).
    apply map_eq_app in Hsplit as (before' & tl & Hcards & <- & Htl).
    destruct tl as [ | c' after' ]; [ discriminate Htl | ].
    cbn [map] in Htl. injection Htl as -> <- <-.
    assert (Hin : In c (List.filter (PrioritySpec.eligible card self) cards)).
    { rewrite Hcards. apply in_or_app. right. now left. }
    apply filter_In in Hin as [_ Hel].
    unfold PrioritySpec.eligible in Hel.
    apply andb_prop in Hel as [Hcost Hname].
    apply Z.leb_le in Hcost. apply contains_In in Hname.
    split; [ exact Hcost | split; [ exact Hname | ] ].
    exists before', after'. split; [ exact Hcards | ].
    cbn [snd] in Hlt, Hle.
    rewrite Forall_map in Hlt, Hle. split; assumption.
Qed.

(** The cards and the priority list of tests/test_strategy.py. With the
    constructor's defaults the cost bonus is on and outweighs the rank: the
    cost-5 card ranked third scores 51 against 33 for the cost-3 card
    ranked first. Without the bonus the first-ranked card is returned. *)
Lemma priority_bonus_on_test_cards :
  let cards := [ example_card "德莱文" 4; example_card "亚索" 3;
                 example_card "凯尔" 5; example_card "盖伦" 1;
                 example_card "赵信" 2 ] in
  let priority_list := Some ["亚索"; "德莱文"; "凯尔"]%string in
  Strategy.priority_select_card id
    (Strategy.PriorityStrategy_init priority_list None None) cards
    = Some (example_card "凯尔" 5) /\
  Strategy.priority_select_card id
    (Strategy.PriorityStrategy_init priority_list None (Some false)) cards
    = Some (example_card "亚索" 3).
Proof. split; reflexivity. Qed.

(** C9. [CompBuildingStrategy.select_card] returns the first candidate, in
    the order given, whose name is in the target composition: every
    candidate before it has a name outside the target, and no score is
    consulted. It returns [None] on an empty list and when no name is in the
    target. When two candidates X, Y are both in the target and X comes
    first, it returns X. *)
Theorem comp_building_first_match :
  (forall (A : Type) (card : A -> Card.Card)
          (self : Strategy.CompBuildingStrategy) (cards : list A),
     Strategy.comp_building_select_card card self cards
     = List.find (fun c => Py.contains (card c).(Card.name)
                                       self.(Strategy.target_comp)) cards /\
     match Strategy.comp_building_select_card card self cards with
     | Some c =>
         In (card c).(Card.name) self.(Strategy.target_comp) /\
         exists before after,
           cards = before ++ c :: after /\
           Forall (fun d => ~ In (card d).(Card.name)
                                 self.(Strategy.target_comp)) before
     | None =>
         Forall (fun d => ~ In (card d).(Card.name)
                               self.(Strategy.target_comp)) cards
     end) /\
  (forall (A : Type) (card : A -> Card.Card)
          (self : Strategy.CompBuildingStrategy),
     Strategy.comp_building_select_card card self [] = None) /\
  (forall (A : Type) (card : A -> Card.Card)
          (self : Strategy.CompBuildingStrategy) (x y : A),
     In (card x).(Card.name) self.(Strategy.target_comp) ->
     In (card y).(Card.name) self.(Strategy.target_comp) ->
     Strategy.comp_building_select_card card self [x; y] = Some x) /\
  (let self := Strategy.CompBuildingStrategy_init (Some ["Y"; "X"]%string) in
   let x := example_card "X" 1 in
   let y := example_card "Y" 5 in
   let z := example_card "Z" 3 in
   Strategy.comp_building_select_card id self [x; y] = Some x /\
   Strategy.comp_building_select_card id self [z; y; x] = Some y /\
   Strategy.comp_building_select_card id self [z] = None).
Proof.
  split; [ | split; [ reflexivity | split; [ | repeat split ] ] ].
  - intros A card self cards.
    assert (Hfind :
      Strategy.comp_building_select_card card self cards
      = List.find (fun c => Py.contains (card c).(Card.name)
                                        self.(Strategy.target_comp)) cards).
    { unfold Strategy.comp_building_select_card.
      destruct cards as [ | c0 cards ]; [ reflexivity | ].
      cbn [Py.is_empty].
      generalize (c0 :: cards). intros l.
      induction l as [ | c l IH ]; [ reflexivity | ].
      cbn [List.filter List.find].
      destruct (Py.contains _ _); [ reflexivity | exact IH ]. }
    split; [ exact Hfind | ].
    rewrite Hfind. clear Hfind.
    induction cards as [ | c cards IH ]; cbn [List.find].
    + constructor.
    + destruct (Py.contains (card c).(Card.name) _) eqn:Hc.
      * split; [ now apply contains_In | ].
        exists [], cards. split; [ reflexivity | constructor ].
      * assert (Hnot : ~ In (card c).(Card.name) self.(Strategy.target_comp)).
        { intros Hin. apply contains_In in Hin. congruence. }
        destruct (List.find _ cards) as [ m | ].
        -- destruct IH as (Hm & before & after & -> & Hbefore).
           split; [ exact Hm | ].
           exists (c :: before), after.
           split; [ reflexivity | now constructor ].
        -- now constructor.
  - intros A card self x y Hx Hy.
    unfold Strategy.comp_building_select_card. cbn.
    apply contains_In in Hx. now rewrite Hx.
Qed.

(** The two candidates of the specification's example. *)
Lemma comp_building_first_match_witness :
  Strategy.comp_building_select_card id
    (Strategy.CompBuildingStrategy_init (Some ["Y"; "X"]%string))
    [example_card "X" 1; example_card "Y" 5]
  = Some (example_card "X" 1).
Proof.
  apply (proj1 (proj2 (proj2 comp_building_first_match))).
  - cbn. auto.
  - cbn. auto.
Defined.

(** ** Template matching *)



Section MatcherFacts.
Context `{cv : OpenCV}.

(** The threshold [match_template] compares against: the default when none
    is passed, the value passed when it is not zero, and the default again
    when [0.0] is passed. *)
Lemma float_or_cases (d : Q) :
  Matcher.float_or None d = d /\
  (forall t : Q, Qeq_bool t 0 = false -> Matcher.float_or (Some t) d = t) /\
  (forall t : Q, Qeq_bool t 0 = true -> Matcher.float_or (Some t) d = d).
Proof.
  unfold Matcher.float_or.
  repeat split; intros t Ht; now rewrite Ht.
Qed.

(** For a loaded template on which OpenCV answers with a surface, the
    matches are the cells that reach the threshold [float_or] picks, in
    row-major order. *)
Lemma match_template_locations (self : Matcher.TemplateMatcher)
    (source template : Image) (template_name : string)
    (threshold : option Q) (result : list (list Q)) :
  Py.dict_get String.eqb template_name self.(Matcher.templates)
    = Some template ->
  matchTemplate source template = Some result ->
  map (fun m => (snd m.(Matcher.top_left), fst m.(Matcher.top_left),
                 m.(Matcher.confidence)))
      (Matcher.match_template self source template_name threshold)
  = Matcher.where_ge
      (Matcher.float_or threshold self.(Matcher.default_threshold)) 0 result.
Proof.
  intros Hloaded Hcv. unfold Matcher.match_template.
  rewrite Hloaded, Hcv.
  destruct (img_shape template) as [h w].
  rewrite map_map.
  erewrite map_ext; [ apply map_id | ].
  intros [[y x] v]. reflexivity.
Qed.

(** C6. Whenever OpenCV raises, on any source, [match_template] answers
    the empty list and raises nothing: it returns a list on every input.
    OpenCV rejecting a source of size zero, [match_template] answers the
    empty list on every such source, for every template and threshold, and
    so does [match_all_templates]. *)
Theorem match_template_empty_source :
  (forall (self : Matcher.TemplateMatcher) (source template : Image)
          (template_name : string) (threshold : option Q),
     Py.dict_get String.eqb template_name self.(Matcher.templates)
       = Some template ->
     matchTemplate source template = None ->
     Matcher.match_template self source template_name threshold = []) /\
  (forall (self : Matcher.TemplateMatcher) (source : Image)
          (template_name : string) (threshold : option Q),
     Py.dict_get String.eqb template_name self.(Matcher.templates) = None ->
     Matcher.match_template self source template_name threshold = []) /\
  ((forall source template : Image,
      img_size source = 0 -> matchTemplate source template = None) ->
   (forall (self : Matcher.TemplateMatcher) (source : Image)
           (template_name : string) (threshold : option Q),
      img_size source = 0 ->
      Matcher.match_template self source template_name threshold = []) /\
   (forall (self : Matcher.TemplateMatcher) (source : Image)
           (threshold : option Q),
      img_size source = 0 ->
      Matcher.match_all_templates self source threshold = [])).
Proof.
  split; [ | split ].
  - intros self source template template_name threshold Hloaded Hraise.
    unfold Matcher.match_template. now rewrite Hloaded, Hraise.
  - intros self source template_name threshold Hmissing.
    unfold Matcher.match_template. now rewrite Hmissing.
  - intros Hreject.
    assert (Hone : forall self source template_name threshold,
              img_size source = 0 ->
              Matcher.match_template self source template_name threshold
              = []).
    { intros self source template_name threshold Hsize.
      unfold Matcher.match_template.
      destruct (Py.dict_get _ _ _) as [ template | ]; [ | reflexivity ].
      now rewrite (Hreject source template Hsize). }
    split; [ exact Hone | ].
    intros self source threshold Hsize.
    unfold Matcher.match_all_templates.
    induction self.(Matcher.templates) as [ | [n t] ts IH ];
      [ reflexivity | ].
    cbn [flat_map]. rewrite (Hone _ _ _ _ Hsize). exact IH.
Qed.

End MatcherFacts.

(** An empty capture against a loaded template. *)
Lemma match_template_empty_source_witness :
  Matcher.match_template (cv := TestDouble.cv)
    {| Matcher.templates := [("garen"%string, TestDouble.dot 1 2 3)];
       Matcher.default_threshold := 8 # 10 |}
    [] "garen" None = [].
Proof.
  refine (proj1 (proj2 (proj2 (match_template_empty_source
                                 (cv := TestDouble.cv))) _)
                _ _ _ _ _).
  - intros source template Hsize. cbn. now rewrite Hsize.
  - reflexivity.
Defined.

(** C5 at a threshold of zero. The surface holds one cell, of score 1/2;
    the matcher's default is 0.8. Called with [threshold = 0.0] the method
    compares against 0.8 and finds nothing, although the cell reaches the
    threshold that was passed; a threshold of 0.1 is honoured, and no
    threshold means 0.8. *)
Theorem match_template_zero_threshold :
  let cv := TestDouble.cv_surface [[1 # 2]] in
  let self := {| Matcher.templates := [("garen"%string, TestDouble.dot 1 2 3)];
                 Matcher.default_threshold := 8 # 10 |} in
  let source := TestDouble.dot 4 5 6 in
  Matcher.match_template (cv := cv) self source "garen" (Some 0%Q) = [] /\
  Matcher.where_ge 0 0 [[1 # 2]] = [(0, 0, 1 # 2)] /\
  map Matcher.confidence
      (Matcher.match_template (cv := cv) self source "garen" (Some (1 # 10)))
    = [1 # 2] /\
  Matcher.match_template (cv := cv) self source "garen" None
    = Matcher.match_template (cv := cv) self source "garen" (Some (8 # 10)) /\
  Matcher.float_or (Some 0%Q) (8 # 10) = 8 # 10.
Proof.
  repeat split; reflexivity.
Qed.

(** ** The controller's lifecycle *)

Lemma state_eqb_eq (a b : Automator.AutoPickerState) :
  Automator.state_eqb a b = true <-> a = b.
Proof. destruct a, b; cbn; split; (reflexivity || discriminate). Qed.

Lemma state_eqb_neq (a b : Automator.AutoPickerState) :
  Automator.state_eqb a b = false <-> a <> b.
Proof.
  destruct a, b; cbn; split; try reflexivity; try discriminate;
    try (intros Hne; exfalso; now apply Hne); intros _ Heq; discriminate.
Qed.

(** C2. The four lifecycle calls always end normally with a boolean
    (starting and joining a thread are taken not to fail).
    [start_auto_picker] on a running controller answers [False], changes
    nothing and starts no thread; [stop_auto_picker] on a stopped one
    answers [False]; [pause_auto_picker] outside Running and
    [resume_auto_picker] outside Paused answer [False] and change nothing.
    A second [start] right after a successful one answers [False], with one
    thread started in all; [pause] on a new controller answers [False]. *)
Theorem lifecycle_misuse_returns_false :
  (forall s : World * Automator.GameAutomator,
     (exists b s', Automator.start_auto_picker s = (Ok b, s')) /\
     (forall alive,
        exists b s', Automator.stop_auto_picker alive s = (Ok b, s')) /\
     (exists b s', Automator.pause_auto_picker s = (Ok b, s')) /\
     (exists b s', Automator.resume_auto_picker s = (Ok b, s'))) /\
  (forall s : World * Automator.GameAutomator,
     (snd s).(Automator.auto_picker_state) = Automator.RUNNING ->
     Automator.start_auto_picker s = (Ok false, s)) /\
  (forall (s : World * Automator.GameAutomator) (alive : bool),
     (snd s).(Automator.auto_picker_state) = Automator.STOPPED ->
     Automator.stop_auto_picker alive s = (Ok false, s)) /\
  (forall s : World * Automator.GameAutomator,
     (snd s).(Automator.auto_picker_state) <> Automator.RUNNING ->
     Automator.pause_auto_picker s = (Ok false, s)) /\
  (forall s : World * Automator.GameAutomator,
     (snd s).(Automator.auto_picker_state) <> Automator.PAUSED ->
     Automator.resume_auto_picker s = (Ok false, s)) /\
  (forall s s' : World * Automator.GameAutomator,
     Automator.start_auto_picker s = (Ok true, s') ->
     Automator.start_auto_picker s' = (Ok false, s')) /\
  (let '(first, second, (w, a)) :=
     then_run Automator.start_auto_picker Automator.start_auto_picker
              (fresh_world, Automator.init) in
   first = Ok true /\ second = Ok false /\
   w.(events) = [ThreadStart 0] /\
   a.(Automator.auto_picker_state) = Automator.RUNNING) /\
  Automator.pause_auto_picker (fresh_world, Automator.init)
    = (Ok false, (fresh_world, Automator.init)).
Proof.
  split; [ | split; [ | split; [ | split; [ | split; [ | split ] ] ] ] ].
  - intros [w a]. repeat split; [ | intros alive | | ].
    + unfold Automator.start_auto_picker, bind, self. cbn.
      destruct (Automator.state_eqb _ _); cbn; eauto.
    + unfold Automator.stop_auto_picker, bind, self. cbn.
      destruct (Automator.state_eqb _ _); cbn; [ eauto | ].
      destruct a.(Automator._monitor_thread); [ destruct alive | ];
        cbn; eauto.
    + unfold Automator.pause_auto_picker, bind, self. cbn.
      destruct (Automator.state_eqb _ _); cbn; eauto.
    + unfold Automator.resume_auto_picker, bind, self. cbn.
      destruct (Automator.state_eqb _ _); cbn; eauto.
  - intros [w a] Hst. cbn in Hst.
    unfold Automator.start_auto_picker, bind, self. cbn.
    now rewrite Hst.
  - intros [w a] alive Hst. cbn in Hst.
    unfold Automator.stop_auto_picker, bind, self. cbn.
    now rewrite Hst.
  - intros [w a] Hst. cbn in Hst.
    unfold Automator.pause_auto_picker, bind, self. cbn.
    apply state_eqb_neq in Hst. now rewrite Hst.
  - intros [w a] Hst. cbn in Hst.
    unfold Automator.resume_auto_picker, bind, self. cbn.
    apply state_eqb_neq in Hst. now rewrite Hst.
  - intros [w a] [w' a'].
    unfold Automator.start_auto_picker, bind, self. cbn.
    destruct (Automator.state_eqb a.(Automator.auto_picker_state) _);
      cbn; [ discriminate | ].
    intros Heq. injection Heq as <- <-. reflexivity.
  - split; [ | reflexivity ]. cbn. repeat split; reflexivity.
Qed.

(** A controller that was started and is started again. *)
Lemma lifecycle_misuse_returns_false_witness :
  Automator.start_auto_picker
    (snd (Automator.start_auto_picker (fresh_world, Automator.init)))
  = (Ok false, snd (Automator.start_auto_picker (fresh_world, Automator.init))).
Proof.
  apply (proj1 (proj2 lifecycle_misuse_returns_false)).
  reflexivity.
Defined.

Section RestartFacts.
Context `{cv : OpenCV} `{py : PyBuiltins}.

(** A pass of the monitor loop that finds the stop flag clear goes on to
    another pass, whatever happens inside it. *)
Lemma monitor_loop_pass_continues (obs : Observation)
    (s : World * Automator.GameAutomator) :
  (snd s).(Automator._stop_event) = false ->
  fst (Automator._monitor_loop_pass obs s) = Ok true.
Proof.
  destruct s as [w a]. cbn [snd]. intros Hstop.
  unfold Automator._monitor_loop_pass, bind, self. cbn [snd fst].
  rewrite Hstop.
  destruct a.(Automator._pause_event); [ reflexivity | ].
  unfold try_except.
  destruct (Automator._process_shop_phase obs (w, a)) as [[ [] | e ] s'];
    reflexivity.
Qed.

(** C10. [start_auto_picker] answers [False] exactly when the state is
    Running. On a paused controller it answers [True], clears the stop and
    pause flags, sets the state to Running and starts one more monitor
    thread: it joins nothing and sets no stop flag, so every loop already
    running finds the flag clear and goes on. After start, pause, start on
    a new controller two threads have been started and none has been asked
    to stop. *)
Theorem start_while_paused_spawns_again :
  (forall s : World * Automator.GameAutomator,
     fst (Automator.start_auto_picker s) = Ok false <->
     (snd s).(Automator.auto_picker_state) = Automator.RUNNING) /\
  (forall (w : World) (a : Automator.GameAutomator),
     a.(Automator.auto_picker_state) = Automator.PAUSED ->
     exists (w' : World) (a' : Automator.GameAutomator),
       Automator.start_auto_picker (w, a) = (Ok true, (w', a')) /\
       a'.(Automator._stop_event) = false /\
       a'.(Automator._pause_event) = false /\
       a'.(Automator.auto_picker_state) = Automator.RUNNING /\
       a'.(Automator._monitor_thread)
         = Some (Automator.next_thread w.(events)) /\
       w'.(events)
         = w.(events) ++ [ThreadStart (Automator.next_thread w.(events))] /\
       forall obs : Observation,
         fst (Automator._monitor_loop_pass obs (w', a')) = Ok true) /\
  (let '(r1, (w1, a1)) :=
     Automator.start_auto_picker (fresh_world, Automator.init) in
   let '(r2, (w2, a2)) := Automator.pause_auto_picker (w1, a1) in
   let '(r3, (w3, a3)) := Automator.start_auto_picker (w2, a2) in
   r1 = Ok true /\ r2 = Ok true /\ r3 = Ok true /\
   a2.(Automator.auto_picker_state) = Automator.PAUSED /\
   a3.(Automator.auto_picker_state) = Automator.RUNNING /\
   w3.(events) = [ThreadStart 0; ThreadStart 1]).
Proof.
  split; [ | split ].
  - intros [w a]. cbn [snd].
    unfold Automator.start_auto_picker, bind, self. cbn [snd fst].
    destruct (Automator.state_eqb _ _) eqn:Hst; cbn.
    + apply state_eqb_eq in Hst. split; [ intros _; exact Hst | reflexivity ].
    + apply state_eqb_neq in Hst. split; [ discriminate | contradiction ].
  - intros w a Hpaused.
    unfold Automator.start_auto_picker, bind, self. cbn [snd fst].
    rewrite Hpaused.
    eexists _, _. split; [ reflexivity | ].
    do 5 (split; [ reflexivity | ]).
    intros obs. now apply monitor_loop_pass_continues.
  - cbn. repeat split; reflexivity.
Qed.

End RestartFacts.

(** A controller that was started and paused. *)
Lemma start_while_paused_spawns_again_witness :
  exists (w' : World) (a' : Automator.GameAutomator),
    Automator.start_auto_picker
      (snd (then_run Automator.start_auto_picker Automator.pause_auto_picker
                     (fresh_world, Automator.init)))
      = (Ok true, (w', a')) /\
    w'.(events) = [ThreadStart 0; ThreadStart 1].
Proof.
  destruct (proj1 (proj2 (start_while_paused_spawns_again
                            (cv := TestDouble.cv) (py := TestDouble.py)))
                  {| heap := []; events := [ThreadStart 0] |}
                  (Automator.with_lifecycle Automator.PAUSED (Some 0%nat)
                     false true Automator.init)
                  eq_refl)
    as (w' & a' & Hrun & _ & _ & _ & _ & Hev & _).
  exists w', a'. split; [ exact Hrun | exact Hev ].
Defined.

(** ** Recognition passes *)

Lemma alter_snoc {A} (f : A -> A) (h : list A) (c : A) :
  alter f (length h) (h ++ [c]) = h ++ [f c].
Proof.
  replace (length h) with (length h + 0)%nat by lia.
  now rewrite alter_app_r.
Qed.

Section RecognizerRuns.
Context `{cv : OpenCV} `{py : PyBuiltins}.

Lemma recognize_single_card_run (card_image : Image) (shop_index : Z)
    (w : World) (r : Recognizer.CardRecognizer) :
  Recognizer._recognize_single_card card_image shop_index (w, r) =
  match Recognizer.best_of
          (Matcher.match_all_templates r.(Recognizer.template_matcher)
                                       card_image (Some (7 # 10)%Q)) with
  | Some (best_name, best_confidence) =>
      (Ok (Some (length w.(heap))),
       ({| heap := w.(heap) ++
                   [Card.set_shop_index shop_index
                      (Card.init best_name
                         (Recognizer._estimate_cost card_image)
                         None ""%string best_confidence None)];
           events := w.(events) |}, r))
  | None => (Ok None, (w, r))
  end.
Proof.
  unfold Recognizer._recognize_single_card, bind, self. cbn [snd fst].
  destruct (Recognizer.best_of _) as [ [n c] | ]; [ | reflexivity ].
  unfold new, mutate, ret. cbn [snd fst heap events].
  now rewrite alter_snoc.
Qed.

(** A run of the slot loop: it emits one capture per region, appends the
    cards of [slot_cards] to the store in slot order, returns references to
    exactly these new objects after the ones collected before, and touches
    nothing of the recognizer but [shop_slots]. *)
Lemma recognize_slots_run (obs : Observation) (regions : list Region) :
  forall (i : Z) (cards : list nat) (w : World)
         (r : Recognizer.CardRecognizer),
    let found := RecognitionSpec.slot_cards r.(Recognizer.template_matcher)
                                            obs i regions in
    let g := r.(Recognizer.game_state) in
    Recognizer.recognize_slots obs i regions cards (w, r) =
    (Ok (cards ++ seq (length w.(heap)) (length found)),
     ({| heap := w.(heap) ++ map snd found;
         events := w.(events) ++ RecognitionSpec.captures i regions |},
      Recognizer.mkCardRecognizer
        r.(Recognizer.template_matcher)
        (GameState.mkGameState
           g.(GameState.phase) g.(GameState.available_cards)
           g.(GameState.gold) g.(GameState.level)
           (g.(GameState.shop_slots) ++ map RecognitionSpec.slot_entry found)
           g.(GameState.is_active) g.(GameState.last_update_time))
        r.(Recognizer.shop_regions))).
Proof.
  induction regions as [ | region rest IH ]; intros i cards w r found g.
  - subst found g. destruct w, r as [tm [] regs]. cbn.
    now rewrite !app_nil_r.
  - subst found g.
    cbn [Recognizer.recognize_slots RecognitionSpec.slot_cards
         RecognitionSpec.captures].
    unfold bind at 1, emit at 1. cbn [fst snd].
    unfold RecognitionSpec.slot_card.
    destruct (img_size (obs.(slot_image) i region) =? 0).
    + rewrite IH. cbn [heap events Recognizer.template_matcher
                       Recognizer.game_state Recognizer.shop_regions].
      now rewrite <- app_assoc.
    + unfold bind at 1. rewrite recognize_single_card_run.
      cbn [heap events].
      destruct (Recognizer.best_of _) as [ [n c] | ].
      * unfold bind at 1, mutate at 1. cbn [fst snd heap events].
        rewrite alter_snoc.
        unfold bind at 1, Recognizer.on_game_state at 1, update at 1.
        cbn [fst snd]. rewrite IH.
        cbn [heap events Recognizer.template_matcher
             Recognizer.game_state Recognizer.shop_regions
             GameState.with_shop_slots GameState.phase
             GameState.available_cards GameState.gold GameState.level
             GameState.shop_slots GameState.is_active
             GameState.last_update_time map snd length seq
             RecognitionSpec.slot_entry].
        rewrite length_app. cbn [length].
        rewrite Nat.add_1_r, <- !app_assoc. reflexivity.
      * rewrite IH. cbn [heap events Recognizer.template_matcher
                         Recognizer.game_state Recognizer.shop_regions].
        now rewrite <- app_assoc.
Qed.

End RecognizerRuns.

Section RecognitionPass.
Context `{cv : OpenCV} `{py : PyBuiltins}.

(** Phase detection changes the phase fields of the game state and nothing
    else; when it raises it has changed nothing at all. *)
Lemma detect_shop_phase_run (obs : Observation) (screenshot : option Image)
    (w : World) (r : Recognizer.CardRecognizer) :
  exists (res : Result bool) (g' : GameState.GameState),
    Recognizer.detect_shop_phase obs screenshot (w, r)
      = (res, (w, Recognizer.mkCardRecognizer
                    r.(Recognizer.template_matcher) g'
                    r.(Recognizer.shop_regions))) /\
    g'.(GameState.available_cards)
      = r.(Recognizer.game_state).(GameState.available_cards) /\
    g'.(GameState.shop_slots)
      = r.(Recognizer.game_state).(GameState.shop_slots) /\
    g'.(GameState.gold) = r.(Recognizer.game_state).(GameState.gold) /\
    g'.(GameState.level) = r.(Recognizer.game_state).(GameState.level) /\
    (forall e, res = Raised e -> g' = r.(Recognizer.game_state)).
Proof.
  destruct r as [tm g regs].
  unfold Recognizer.detect_shop_phase.
  destruct (img_size _ =? 0).
  { exists (Ok false), g. repeat split. }
  destruct (cvtColor_BGR2HSV _) as [ hsv | ].
  2:{ exists (Raised CvError), g. repeat split. }
  destruct (img_shape _) as [rows cols].
  unfold bind, ret, Recognizer.on_game_state, update.
  destruct (Py.Qltb _ _); cbn [fst snd Recognizer.template_matcher
                               Recognizer.game_state Recognizer.shop_regions].
  - exists (Ok true), (GameState.set_shop_phase obs.(time_phase) g).
    unfold GameState.set_shop_phase, GameState.update_phase.
    destruct (negb _); repeat split; intros e He; discriminate He.
  - exists (Ok false), (GameState.set_lobby_phase obs.(time_phase) g).
    unfold GameState.set_lobby_phase, GameState.update_phase.
    destruct (negb _); repeat split; intros e He; discriminate He.
Qed.

(** A recognition pass that got a frame: the slot loop runs from slot 0
    with an empty list, and its result becomes [available_cards]. *)
Lemma recognize_cards_run (obs : Observation) (w : World)
    (r : Recognizer.CardRecognizer) :
  (img_size obs.(screen_recognize) =? 0) = false ->
  let found := RecognitionSpec.slot_cards r.(Recognizer.template_matcher)
                 obs 0 r.(Recognizer.shop_regions) in
  let g := r.(Recognizer.game_state) in
  let cards := seq (length w.(heap)) (length found) in
  Recognizer.recognize_cards obs None (w, r) =
  (Ok cards,
   ({| heap := w.(heap) ++ map snd found;
       events := w.(events)
                 ++ RecognitionSpec.captures 0 r.(Recognizer.shop_regions) |},
    Recognizer.mkCardRecognizer
      r.(Recognizer.template_matcher)
      (GameState.mkGameState
         g.(GameState.phase) cards g.(GameState.gold) g.(GameState.level)
         (map RecognitionSpec.slot_entry found)
         g.(GameState.is_active) g.(GameState.last_update_time))
      r.(Recognizer.shop_regions))).
Proof.
  intros Hframe found g cards. subst found g cards.
  unfold Recognizer.recognize_cards. cbn [default]. unfold default.
  rewrite Hframe.
  unfold bind at 1, Recognizer.on_game_state at 1, update at 1.
  cbn [fst snd].
  unfold bind at 1, self at 1. cbn [fst snd Recognizer.shop_regions].
  unfold bind at 1. rewrite recognize_slots_run.
  reflexivity.
Qed.

(** Without a frame there is no pass: nothing is captured or changed. *)
Lemma recognize_cards_no_frame (obs : Observation)
    (s : World * Recognizer.CardRecognizer) :
  (img_size obs.(screen_recognize) =? 0) = true ->
  Recognizer.recognize_cards obs None s = (Ok [], s).
Proof.
  intros Hframe.
  unfold Recognizer.recognize_cards. cbn [default]. unfold default.
  now rewrite Hframe.
Qed.

End RecognitionPass.

(** References to objects appended to the store read back those objects. *)
Lemma deref_new_objects (h l : list Card.Card) :
  map (deref (h ++ l)) (seq (length h) (length l)) = l.
Proof.
  revert h. induction l as [ | x l IH ]; intros h; [ reflexivity | ].
  cbn [length seq map]. f_equal.
  - unfold deref. now rewrite list_lookup_middle.
  - replace (h ++ x :: l) with ((h ++ [x]) ++ l)
      by (now rewrite <- app_assoc).
    replace (S (length h)) with (length (h ++ [x]))
      by (rewrite length_app; cbn; lia).
    apply IH.
Qed.

Lemma seq_fresh (h : list Card.Card) (n : nat) :
  Forall (fun c => h !! c = None) (seq (length h) n).
Proof.
  apply Forall_forall. intros c Hc.
  apply elem_of_seq in Hc. apply lookup_ge_None. lia.
Qed.

Section SlotCardFacts.
Context `{cv : OpenCV} `{py : PyBuiltins}.

(** A card built for a slot is not selected and carries the slot's index. *)
Lemma slot_card_fresh (tm : Matcher.TemplateMatcher) (obs : Observation)
    (i : Z) (region : Region) (c : Card.Card) :
  RecognitionSpec.slot_card tm obs i region = Some c ->
  c.(Card.is_selected) = false /\ c.(Card.shop_index) = Some i.
Proof.
  unfold RecognitionSpec.slot_card.
  destruct (img_size _ =? 0); [ discriminate | ].
  destruct (Recognizer.best_of _) as [ [n q] | ]; [ | discriminate ].
  intros Hc. injection Hc as <-. split; reflexivity.
Qed.

Lemma slot_cards_fresh (tm : Matcher.TemplateMatcher) (obs : Observation)
    (regions : list Region) (i : Z) :
  Forall (fun n => (snd n).(Card.is_selected) = false /\
                   (snd n).(Card.shop_index) = Some (fst (fst n)))
         (RecognitionSpec.slot_cards tm obs i regions).
Proof.
  revert i. induction regions as [ | region rest IH ]; intros i; cbn.
  - constructor.
  - destruct (RecognitionSpec.slot_card tm obs i region) as [ c | ] eqn:Hc;
      [ | apply IH ].
    constructor; [ | apply IH ].
    cbn. now apply slot_card_fresh with (tm := tm) (obs := obs) (region := region).
Qed.

(** The slots that yield a card are those whose capture is not empty and
    for which [slot_card] finds a confident match, in slot order. *)
Lemma slot_cards_In (tm : Matcher.TemplateMatcher) (obs : Observation)
    (regions : list Region) (i0 i : Z) (region : Region) (c : Card.Card) :
  In (i, region, c) (RecognitionSpec.slot_cards tm obs i0 regions) <->
  exists k : nat,
    i = i0 + Z.of_nat k /\ regions !! k = Some region /\
    RecognitionSpec.slot_card tm obs i region = Some c.
Proof.
  revert i0. induction regions as [ | r rest IH ]; intros i0; cbn.
  - split; [ intros [] | intros (k & _ & Hk & _); discriminate ].
  - assert (Hrest :
      In (i, region, c) (RecognitionSpec.slot_cards tm obs (i0 + 1) rest) <->
      exists k : nat, i = i0 + Z.of_nat (S k) /\ rest !! k = Some region /\
                      RecognitionSpec.slot_card tm obs i region = Some c).
    { rewrite IH. split; intros (k & -> & Hk & Hc); exists k;
        (split; [ lia | split; assumption ]). }
    destruct (RecognitionSpec.slot_card tm obs i0 r) as [ c0 | ] eqn:Hc0.
    + cbn [In]. rewrite Hrest. split.
      * intros [ Heq | (k & -> & Hk & Hc) ].
        -- injection Heq as <- <- <-. exists 0%nat.
           replace (i0 + Z.of_nat 0) with i0 by lia. now repeat split.
        -- exists (S k). now repeat split.
      * intros ([ | k ] & -> & Hk & Hc).
        -- left. cbn in Hk. injection Hk as <-.
           replace (i0 + Z.of_nat 0) with i0 in * by lia. congruence.
        -- right. exists k. now repeat split.
    + rewrite Hrest. split.
      * intros (k & -> & Hk & Hc). exists (S k). now repeat split.
      * intros ([ | k ] & -> & Hk & Hc).
        -- cbn in Hk. injection Hk as <-.
           replace (i0 + Z.of_nat 0) with i0 in Hc by lia. congruence.
        -- exists k. now repeat split.
Qed.

End SlotCardFacts.

(** ** The confidence bar *)

Lemma Qltb_lt (a b : Q) : Py.Qltb a b = true <-> (a < b)%Q.
Proof.
  unfold Py.Qltb. rewrite negb_true_iff. split.
  - intros Hle. apply Qnot_le_lt. intros Hba.
    apply Qle_bool_iff in Hba. congruence.
  - intros Hlt. destruct (Qle_bool b a) eqn:Hba; [ | reflexivity ].
    apply Qle_bool_iff in Hba. exfalso. now apply (Qlt_not_le a b).
Qed.

Lemma Qltb_ge (a b : Q) : Py.Qltb a b = false <-> (b <= a)%Q.
Proof.
  unfold Py.Qltb. rewrite negb_false_iff. apply Qle_bool_iff.
Qed.

(** Running the loops from a bar [t]: either no entry beats the bar and
    nothing changes, or the result is an entry that beats it. *)
Lemma best_fold_inv (l : list (string * Matcher.Match))
    (b : option (string * Q)) (t : Q) :
  let '(b', t') := fold_left Recognizer.best_step l (b, t) in
  (t <= t')%Q /\
  ((b' = b /\ t' = t /\
    Forall (fun e => ((snd e).(Matcher.confidence) <= t)%Q) l) \/
   (exists n m, In (n, m) l /\ b' = Some (n, m.(Matcher.confidence)) /\
                t' = m.(Matcher.confidence) /\
                (t < m.(Matcher.confidence))%Q)).
Proof.
  revert b t. induction l as [ | [n m] l IH ]; intros b t.
  - cbn. split; [ apply Qle_refl | left; repeat split; constructor ].
  - cbn [fold_left Recognizer.best_step].
    destruct (Py.Qltb t m.(Matcher.confidence)) eqn:Hbeat.
    + apply Qltb_lt in Hbeat.
      specialize (IH (Some (n, m.(Matcher.confidence)))
                     m.(Matcher.confidence)).
      destruct (fold_left Recognizer.best_step l _) as [b' t'].
      destruct IH as [Hle [ (-> & -> & _) | (n' & m' & Hin & -> & -> & Hlt) ]].
      * split; [ now apply Qlt_le_weak | ].
        right. exists n, m. repeat split; auto. now left.
      * split; [ apply Qlt_le_weak; now apply Qlt_trans with m.(Matcher.confidence) | ].
        right. exists n', m'. repeat split; auto.
        -- now right.
        -- now apply Qlt_trans with m.(Matcher.confidence).
    + apply Qltb_ge in Hbeat.
      specialize (IH b t).
      destruct (fold_left Recognizer.best_step l _) as [b' t'].
      destruct IH as [Hle [ (-> & -> & Hall) | (n' & m' & Hin & -> & -> & Hlt) ]].
      * split; [ exact Hle | ]. left. repeat split. now constructor.
      * split; [ exact Hle | ]. right. exists n', m'. repeat split; auto.
        now right.
Qed.

(** [best_of] answers a template only with a confidence strictly above
    0.7, taken from one of that template's matches; it answers nothing
    exactly when no match is above 0.7. *)
Lemma best_of_confident (rs : list (string * list Matcher.Match)) :
  match Recognizer.best_of rs with
  | Some (n, c) =>
      (7 # 10 < c)%Q /\
      exists ms m, In (n, ms) rs /\ In m ms /\ m.(Matcher.confidence) = c
  | None =>
      forall n ms m, In (n, ms) rs -> In m ms ->
                     (m.(Matcher.confidence) <= 7 # 10)%Q
  end.
Proof.
  unfold Recognizer.best_of.
  set (flat := flat_map _ rs).
  assert (Hflat : forall n m, In (n, m) flat <->
                              exists ms, In (n, ms) rs /\ In m ms).
  { intros n m. subst flat. rewrite in_flat_map. split.
    - intros ([n' ms] & Hrs & Hin). apply in_map_iff in Hin.
      destruct Hin as (m' & Heq & Hm'). injection Heq as -> ->.
      now exists ms.
    - intros (ms & Hrs & Hm). exists (n, ms). split; [ exact Hrs | ].
      apply in_map_iff. now exists m. }
  pose proof (best_fold_inv flat None (7 # 10)%Q) as Hinv.
  destruct (fold_left Recognizer.best_step flat _) as [b' t'].
  destruct Hinv as [_ [ (-> & -> & Hall) | (n & m & Hin & -> & -> & Hlt) ]];
    cbn [fst].
  - intros n ms m Hrs Hm.
    rewrite Forall_forall in Hall.
    apply (Hall (n, m)). apply list_elem_of_In. apply Hflat. now exists ms.
  - split; [ exact Hlt | ].
    apply Hflat in Hin as (ms & Hrs & Hm). now exists ms, m.
Qed.

Section RefreshFacts.
Context `{cv : OpenCV} `{py : PyBuiltins}.

(** The three ways [refresh_and_recognize] can go. *)
Lemma refresh_and_recognize_run (obs : Observation) (w : World)
    (r : Recognizer.CardRecognizer) :
  exists (res : Result bool) (g1 : GameState.GameState),
    let r1 := Recognizer.mkCardRecognizer r.(Recognizer.template_matcher) g1
                                          r.(Recognizer.shop_regions) in
    Recognizer.detect_shop_phase obs None (w, r) = (res, (w, r1)) /\
    g1.(GameState.available_cards)
      = r.(Recognizer.game_state).(GameState.available_cards) /\
    Recognizer.refresh_and_recognize obs (w, r) =
    match res with
    | Raised e => (Raised e, (w, r))
    | Ok _ =>
        if GameState.phase_eqb g1.(GameState.phase) GameState.SHOPPING
        then Recognizer.recognize_cards obs None (w, r1)
        else (Ok [], (w, r1))
    end.
Proof.
  destruct (detect_shop_phase_run obs None w r)
    as (res & g1 & Hrun & Hav & _ & _ & _ & Hraise).
  exists res, g1. cbn zeta. split; [ exact Hrun | split; [ exact Hav | ] ].
  unfold Recognizer.refresh_and_recognize, bind at 1. rewrite Hrun.
  destruct res as [ is_shop | e ].
  - unfold bind, self. cbn [fst snd Recognizer.game_state].
    now destruct (GameState.phase_eqb _ _).
  - rewrite (Hraise e eq_refl). now destruct r.
Qed.

(** C7. [refresh_and_recognize] captures shop slots only when the phase it
    finds after detection is Shopping, and returns the empty list
    otherwise. A recognition pass (phase Shopping, a frame captured) puts
    into [available_cards] exactly the list it returns; every card on it is
    an object constructed during this pass, absent from the store before,
    so no card listed earlier is on it; every card on it is unselected; and
    the slots represented are, in order, those for which a confident match
    was found. When no pass runs (another phase, or no frame) the list held
    in the game state is left as it was. *)
Theorem refresh_and_recognize_replaces_cards :
  forall (obs : Observation) (w : World) (r : Recognizer.CardRecognizer),
    let '(res, (w', r')) := Recognizer.refresh_and_recognize obs (w, r) in
    let g := r.(Recognizer.game_state) in
    let g' := r'.(Recognizer.game_state) in
    let found := RecognitionSpec.slot_cards r.(Recognizer.template_matcher)
                   obs 0 r.(Recognizer.shop_regions) in
    match res with
    | Raised _ => w' = w /\ r' = r
    | Ok cards =>
        if GameState.phase_eqb g'.(GameState.phase) GameState.SHOPPING
        then
          if img_size obs.(screen_recognize) =? 0
          then cards = [] /\ w' = w /\
               g'.(GameState.available_cards) = g.(GameState.available_cards)
          else
            g'.(GameState.available_cards) = cards /\
            cards = seq (length w.(heap)) (length found) /\
            w'.(heap) = w.(heap) ++ map snd found /\
            w'.(events) = w.(events)
                          ++ RecognitionSpec.captures 0
                               r.(Recognizer.shop_regions) /\
            Forall (fun c => w.(heap) !! c = None) cards /\
            (forall old, In old g.(GameState.available_cards) ->
                         (old < length w.(heap))%nat -> ~ In old cards) /\
            Forall (fun c => (deref w'.(heap) c).(Card.is_selected) = false)
                   cards /\
            map (fun c => (deref w'.(heap) c).(Card.shop_index)) cards
              = map (fun n => Some (fst (fst n))) found
        else cards = [] /\ w' = w /\
             g'.(GameState.available_cards) = g.(GameState.available_cards)
    end.
Proof.
  intros obs w r.
  destruct (refresh_and_recognize_run obs w r)
    as (res & g1 & _ & Hkept & ->).
  destruct res as [ is_shop | e ]; [ | now split ].
  destruct (GameState.phase_eqb g1.(GameState.phase) GameState.SHOPPING)
    eqn:Hphase.
  2:{ cbn [Recognizer.game_state]. now rewrite Hphase. }
  destruct (img_size obs.(screen_recognize) =? 0) eqn:Hframe.
  { rewrite (recognize_cards_no_frame obs _ Hframe).
    cbn [Recognizer.game_state]. now rewrite Hphase. }
  rewrite (recognize_cards_run obs w _ Hframe).
  cbn [Recognizer.game_state Recognizer.template_matcher
       Recognizer.shop_regions GameState.phase GameState.available_cards
       heap events].
  rewrite Hphase.
  set (found := RecognitionSpec.slot_cards _ obs 0 _).
  pose proof (slot_cards_fresh r.(Recognizer.template_matcher) obs
                r.(Recognizer.shop_regions) 0) as Hfresh.
  fold found in Hfresh.
  assert (Hderef :
    map (deref (w.(heap) ++ map snd found))
        (seq (length w.(heap)) (length found)) = map snd found).
  { rewrite <- (length_map snd found) at 1. apply deref_new_objects. }
  repeat split.
  - apply seq_fresh.
  - intros old _ Hold Hin. apply in_seq in Hin. lia.
  - apply (Forall_map (deref _) (fun c => c.(Card.is_selected) = false)).
    rewrite Hderef. apply Forall_map.
    eapply Forall_impl; [ exact Hfresh | ]. cbn. now intros n [Hsel _].
  - rewrite <- (map_map (deref _) Card.shop_index), Hderef, map_map.
    apply Forall_fmap_ext.
    eapply Forall_impl; [ exact Hfresh | ]. cbn. now intros n [_ Hidx].
Qed.

End RefreshFacts.

(** ** Cooldown *)

Lemma dispatched_app (es es' : list Event) :
  dispatched (es ++ es') = dispatched es ++ dispatched es'.
Proof. unfold dispatched. apply flat_map_app. Qed.

Lemma dispatched_captures (i : Z) (regions : list Region) :
  dispatched (RecognitionSpec.captures i regions) = [].
Proof.
  revert i. induction regions as [ | r rest IH ]; intros i;
    [ reflexivity | apply IH ].
Qed.

Section TickFacts.
Context `{cv : OpenCV} `{py : PyBuiltins}.

(** Recognition hands nothing to the actuator. *)
Lemma refresh_dispatches_nothing (obs : Observation) (w : World)
    (r : Recognizer.CardRecognizer) :
  dispatched (fst (snd (Recognizer.refresh_and_recognize obs (w, r)))).(events)
  = dispatched w.(events).
Proof.
  destruct (refresh_and_recognize_run obs w r) as (res & g1 & _ & _ & ->).
  destruct res as [ is_shop | e ]; [ | reflexivity ].
  destruct (GameState.phase_eqb _ _); [ | reflexivity ].
  destruct (img_size obs.(screen_recognize) =? 0) eqn:Hframe.
  - now rewrite (recognize_cards_no_frame obs _ Hframe).
  - rewrite (recognize_cards_run obs w _ Hframe). cbn [fst snd events].
    now rewrite dispatched_app, dispatched_captures, app_nil_r.
Qed.

(** What [_can_pick] answers. *)
Lemma can_pick_run (obs : Observation)
    (s : World * Automator.GameAutomator) :
  exists can : bool,
    Automator._can_pick obs s = (Ok can, s) /\
    (can = true <-> cooled_down (snd s) obs).
Proof.
  destruct s as [w a].
  unfold Automator._can_pick, bind, self, cooled_down. cbn [fst snd].
  destruct a.(Automator.last_pick_time) as [ last | ].
  - eexists. split; [ reflexivity | apply Qle_bool_iff ].
  - exists true. now split.
Qed.

(** The three outcomes of [_pick_card]: the position (0, 0) is refused
    before the actuator is called; an off-screen target is handed to the
    actuator, which rejects it, and nothing else changes; an on-screen
    target is clicked, the card is marked, both counters go up by one and
    the timestamp is set. *)
Lemma pick_card_run (obs : Observation) (card : nat) (w : World)
    (a : Automator.GameAutomator) :
  let '(x, y) := (deref w.(heap) card).(Card.position) in
  let '(res, (w', a')) := Automator._pick_card obs card (w, a) in
  if (x =? 0) && (y =? 0) then
    res = Ok false /\ w' = w /\ a' = a
  else if Mouse.is_on_screen obs.(screen_size) x y 10 then
    (res = Ok true \/ res = Raised CallbackError) /\
    dispatched w'.(events) = dispatched w.(events) ++ [(x, y)] /\
    w'.(heap) = alter Card.select card w.(heap) /\
    one_more_pick obs.(time_picked) a a' /\
    a'.(Automator.pick_cooldown) = a.(Automator.pick_cooldown)
  else
    res = Ok false /\
    w'.(events) = w.(events) ++ [ClickCard x y] /\
    w'.(heap) = w.(heap) /\ a' = a.
Proof.
  unfold Automator._pick_card.
  unfold bind at 1, on_field at 1, Recognizer.get_card_position at 1.
  cbn [fst snd].
  replace (Automator.with_card_recognizer a.(Automator.card_recognizer) a)
    with a by (now destruct a).
  destruct (deref w.(heap) card).(Card.position) as [x y].
  destruct ((x =? 0) && (y =? 0)); [ now repeat split | ].
  unfold bind at 1, emit at 1. cbn [fst snd heap events].
  unfold Mouse.click_card.
  destruct (Mouse.is_on_screen obs.(screen_size) x y 10); cbn [negb].
  2:{ unfold bind, emit, ret. cbn [fst snd heap events].
      repeat split. now rewrite app_nil_r. }
  destruct obs.(random_offset) as [offset_x offset_y].
  unfold bind at 1, emit at 1. cbn [fst snd heap events].
  unfold bind at 1, mutate at 1. cbn [fst snd heap events].
  unfold bind at 1, update at 1. cbn [fst snd].
  unfold bind at 1, self at 1. cbn [fst snd Automator.with_picks
                                    Automator.pick_callback].
  destruct a.(Automator.pick_callback).
  - unfold bind at 1. unfold bind at 1, emit at 1.
    cbn [fst snd heap events].
    destruct obs.(callback_raises); cbn.
    + repeat split; [ now right | ].
      rewrite !dispatched_app. cbn. now rewrite !app_nil_r.
    + repeat split; [ now left | ].
      rewrite !dispatched_app. cbn. now rewrite !app_nil_r.
  - cbn. repeat split; [ now left | ].
    rewrite !dispatched_app. cbn. now rewrite !app_nil_r.
Qed.

End TickFacts.

Section TickOutcome.
Context `{cv : OpenCV} `{py : PyBuiltins}.

(** One tick hands at most one action to the actuator, and only when the
    controller has cooled down; the books move only for an action the
    actuator accepts. *)
Lemma process_shop_phase_outcome (obs : Observation) (w : World)
    (a : Automator.GameAutomator) :
  let '(res, (w', a')) := Automator._process_shop_phase obs (w, a) in
  a'.(Automator.pick_cooldown) = a.(Automator.pick_cooldown) /\
  ((dispatched w'.(events) = dispatched w.(events) /\ same_picks a a') \/
   (exists x y,
      dispatched w'.(events) = dispatched w.(events) ++ [(x, y)] /\
      cooled_down a obs /\
      if Mouse.is_on_screen obs.(screen_size) x y 10
      then one_more_pick obs.(time_picked) a a'
      else same_picks a a')).
Proof.
  unfold Automator._process_shop_phase.
  unfold bind at 1, self at 1. cbn [fst snd].
  destruct (negb _).
  { cbn. split; [ reflexivity | left; now repeat split ]. }
  unfold bind at 1, on_field at 1. cbn [fst snd].
  pose proof (refresh_dispatches_nothing obs w a.(Automator.card_recognizer))
    as Hnone.
  destruct (Recognizer.refresh_and_recognize obs _) as [rres [w1 r1]].
  cbn [fst snd] in Hnone.
  set (a1 := Automator.with_card_recognizer r1 a).
  assert (Hquiet :
    a1.(Automator.pick_cooldown) = a.(Automator.pick_cooldown) /\
    ((dispatched w1.(events) = dispatched w.(events) /\ same_picks a a1) \/
     (exists x y,
        dispatched w1.(events) = dispatched w.(events) ++ [(x, y)] /\
        cooled_down a obs /\
        if Mouse.is_on_screen obs.(screen_size) x y 10
        then one_more_pick obs.(time_picked) a a1
        else same_picks a a1))).
  { split; [ reflexivity | left ]. split; [ exact Hnone | ].
    subst a1. unfold same_picks. cbn. auto. }
  destruct rres as [ cards | e ]; [ | exact Hquiet ].
  destruct (Py.is_empty cards); [ exact Hquiet | ].
  unfold bind at 1, self at 1. cbn [fst snd].
  unfold bind at 1, Automator.world at 1. cbn [fst snd].
  destruct (Strategy.execute_selection _ _ _) as [ card | ];
    [ | exact Hquiet ].
  unfold bind at 1.
  destruct (can_pick_run obs (w1, a1)) as (can & -> & Hcan).
  destruct can; [ | exact Hquiet ].
  assert (Hcool : cooled_down a obs) by (now apply Hcan).
  clear Hquiet Hcan.
  unfold bind at 1.
  pose proof (pick_card_run obs card w1 a1) as Hpick.
  destruct (deref w1.(heap) card).(Card.position) as [x y].
  destruct (Automator._pick_card obs card (w1, a1)) as [pres [w2 a2]].
  destruct ((x =? 0) && (y =? 0)).
  { destruct Hpick as (-> & -> & ->).
    split; [ reflexivity | left; now repeat split ]. }
  destruct (Mouse.is_on_screen obs.(screen_size) x y 10) eqn:Hscreen.
  - destruct Hpick as (Hres & Hdisp & _ & Hmore & Hcd).
    assert (Hgoal :
      a2.(Automator.pick_cooldown) = a.(Automator.pick_cooldown) /\
      ((dispatched w2.(events) = dispatched w.(events) /\ same_picks a a2) \/
       (exists x0 y0,
          dispatched w2.(events) = dispatched w.(events) ++ [(x0, y0)] /\
          cooled_down a obs /\
          if Mouse.is_on_screen obs.(screen_size) x0 y0 10
          then one_more_pick obs.(time_picked) a a2
          else same_picks a a2))).
    { split; [ exact Hcd | right ]. exists x, y.
      rewrite Hdisp, Hnone, Hscreen.
      split; [ reflexivity | split; [ exact Hcool | exact Hmore ] ]. }
    destruct Hres as [ -> | -> ]; exact Hgoal.
  - destruct Hpick as (-> & Hev & _ & ->).
    split; [ reflexivity | right ]. exists x, y.
    rewrite Hev, dispatched_app, Hnone, Hscreen.
    split; [ reflexivity | split; [ exact Hcool | ] ].
    subst a1. unfold same_picks. cbn. auto.
Qed.

End TickOutcome.

Section Cooldown.
Context `{cv : OpenCV} `{py : PyBuiltins}.

(** C3, as the code has it. The default cooldown is 0.5 s. A tick hands at
    most one action to the actuator, and none unless no pick was made yet
    or at least the cooldown has passed since the last accepted one. A
    click the actuator rejects leaves both counters and the timestamp as
    they were; an accepted one raises both counters and sets the
    timestamp. Hence, when the first of two ticks has its click accepted
    and the second comes before the cooldown is over (within 0.1 s, the
    cooldown being 0.5 s), the two ticks dispatch exactly one action. *)
Theorem cooldown_defers_after_accepted_click :
  Automator.init.(Automator.pick_cooldown) = 5 # 10 /\
  (forall (obs : Observation) (w : World) (a : Automator.GameAutomator),
     let '(res, (w', a')) := Automator._process_shop_phase obs (w, a) in
     (dispatched w'.(events) = dispatched w.(events) /\ same_picks a a') \/
     (exists x y,
        dispatched w'.(events) = dispatched w.(events) ++ [(x, y)] /\
        cooled_down a obs /\
        if Mouse.is_on_screen obs.(screen_size) x y 10
        then one_more_pick obs.(time_picked) a a'
        else same_picks a a')) /\
  (forall (obs : Observation) (card : nat) (w : World)
          (a : Automator.GameAutomator),
     let '(res, (w', a')) := Automator._pick_card obs card (w, a) in
     match res with
     | Ok false => a' = a /\ w'.(heap) = w.(heap)
     | _ => one_more_pick obs.(time_picked) a a'
     end) /\
  (forall (obs1 obs2 : Observation) (w : World)
          (a : Automator.GameAutomator),
     let '(_, (w1, a1)) := Automator._process_shop_phase obs1 (w, a) in
     let '(_, (w2, a2)) := Automator._process_shop_phase obs2 (w1, a1) in
     a1.(Automator.pick_count) = a.(Automator.pick_count) + 1 ->
     (obs2.(time_check) - obs1.(time_picked) < a.(Automator.pick_cooldown))%Q ->
     exists x y,
       dispatched w1.(events) = dispatched w.(events) ++ [(x, y)] /\
       dispatched w2.(events) = dispatched w1.(events)) /\
  (forall (obs1 obs2 : Observation) (w : World)
          (a : Automator.GameAutomator),
     let '(_, (w1, a1)) := Automator._process_shop_phase obs1 (w, a) in
     let '(_, (w2, a2)) := Automator._process_shop_phase obs2 (w1, a1) in
     (a.(Automator.pick_cooldown) == 5 # 10)%Q ->
     (obs1.(time_check) <= obs1.(time_picked))%Q ->
     (obs2.(time_check) - obs1.(time_check) <= 1 # 10)%Q ->
     a1.(Automator.pick_count) = a.(Automator.pick_count) + 1 ->
     exists x y,
       dispatched w2.(events) = dispatched w.(events) ++ [(x, y)]).
Proof.
  assert (Htwo :
    forall (obs1 obs2 : Observation) (w : World)
           (a : Automator.GameAutomator),
      let '(_, (w1, a1)) := Automator._process_shop_phase obs1 (w, a) in
      let '(_, (w2, a2)) := Automator._process_shop_phase obs2 (w1, a1) in
      a1.(Automator.pick_count) = a.(Automator.pick_count) + 1 ->
      (obs2.(time_check) - obs1.(time_picked)
       < a.(Automator.pick_cooldown))%Q ->
      exists x y,
        dispatched w1.(events) = dispatched w.(events) ++ [(x, y)] /\
        dispatched w2.(events) = dispatched w1.(events)).
  { intros obs1 obs2 w a.
    pose proof (process_shop_phase_outcome obs1 w a) as H1.
    destruct (Automator._process_shop_phase obs1 (w, a)) as [res1 [w1 a1]].
    pose proof (process_shop_phase_outcome obs2 w1 a1) as H2.
    destruct (Automator._process_shop_phase obs2 (w1, a1)) as [res2 [w2 a2]].
    intros Hcounted Hsoon.
    destruct H1 as [Hcd1 [ [_ (Hsame & _)] | (x & y & Hd1 & _ & Hbooks) ]];
      [ lia | ].
    destruct (Mouse.is_on_screen obs1.(screen_size) x y 10);
      [ | destruct Hbooks as (Hsame & _); lia ].
    destruct Hbooks as (_ & _ & Hlast).
    exists x, y. split; [ exact Hd1 | ].
    destruct H2 as [_ [ [Hd2 _] | (x' & y' & _ & Hcool & _) ]];
      [ exact Hd2 | ].
    exfalso. unfold cooled_down in Hcool.
    rewrite Hlast, Hcd1 in Hcool. lra. }
  split; [ reflexivity | split; [ | split; [ | split; [ exact Htwo | ] ] ] ].
  - intros obs w a.
    pose proof (process_shop_phase_outcome obs w a) as H.
    destruct (Automator._process_shop_phase obs (w, a)) as [res [w' a']].
    exact (proj2 H).
  - intros obs card w a.
    pose proof (pick_card_run obs card w a) as H.
    destruct (deref w.(heap) card).(Card.position) as [x y].
    destruct (Automator._pick_card obs card (w, a)) as [res [w' a']].
    destruct ((x =? 0) && (y =? 0)).
    { destruct H as (-> & -> & ->). now split. }
    destruct (Mouse.is_on_screen obs.(screen_size) x y 10).
    + destruct H as ([ -> | -> ] & _ & _ & Hmore & _); exact Hmore.
    + destruct H as (-> & _ & Hheap & ->). now split.
  - intros obs1 obs2 w a.
    specialize (Htwo obs1 obs2 w a).
    destruct (Automator._process_shop_phase obs1 (w, a)) as [res1 [w1 a1]].
    destruct (Automator._process_shop_phase obs2 (w1, a1)) as [res2 [w2 a2]].
    intros Hhalf Hclock Hgap Hcounted.
    destruct Htwo as (x & y & Hd1 & Hd2); [ exact Hcounted | lra | ].
    exists x, y. now rewrite Hd2.
Qed.

End Cooldown.

(** On a 1920x1080 display the fifth slot is on screen: the first tick's
    click is accepted and the tick a tenth of a second later waits. *)
Lemma cooldown_defers_after_accepted_click_witness :
  let obs1 := Scene.frame (1920, 1080) 100 in
  let obs2 := Scene.frame (1920, 1080) (1001 # 10) in
  exists x y,
    dispatched (fst (Scene.tick obs2 (Scene.tick obs1 Scene.controller))).(events)
    = dispatched (fst Scene.controller).(events) ++ [(x, y)].
Proof.
  intros obs1 obs2.
  pose proof (proj2 (proj2 (proj2 (proj2
                (cooldown_defers_after_accepted_click
                   (cv := TestDouble.cv) (py := TestDouble.py)))))
                obs1 obs2 (fst Scene.controller) (snd Scene.controller))
    as H.
  unfold Scene.tick.
  change (fst Scene.controller, snd Scene.controller)
    with Scene.controller in H.
  destruct (Automator._process_shop_phase obs1 Scene.controller)
    as [res1 [w1 a1]] eqn:E1.
  cbn [snd].
  destruct (Automator._process_shop_phase obs2 (w1, a1))
    as [res2 [w2 a2]] eqn:E2.
  cbn [snd fst].
  apply H.
  - reflexivity.
  - subst obs1. cbn. lra.
  - subst obs1 obs2. cbn. lra.
  - vm_compute in E1. injection E1 as <- <- <-. reflexivity.
Defined.

(** On a 1024x768 display the fifth default slot is off screen. The first
    tick hands (1075, 600) to the actuator, which rejects it; no timestamp
    is set, so the tick a tenth of a second later hands it over again. *)
Lemma rejected_click_is_dispatched_again :
  ~ at_most_one_dispatch_in_two_ticks.
Proof.
  intros Hbound.
  specialize (Hbound TestDouble.cv TestDouble.py
                (Scene.frame (1024, 768) 100)
                (Scene.frame (1024, 768) (1001 # 10))
                Scene.controller).
  cbv zeta in Hbound.
  assert (Hrun :
    dispatched
      (fst (snd (Automator._process_shop_phase
                   (cv := TestDouble.cv) (py := TestDouble.py)
                   (Scene.frame (1024, 768) (1001 # 10))
                   (snd (Automator._process_shop_phase
                           (cv := TestDouble.cv) (py := TestDouble.py)
                           (Scene.frame (1024, 768) 100)
                           Scene.controller))))).(events)
    = [(1075, 600); (1075, 600)]) by (vm_compute; reflexivity).
  rewrite Hrun in Hbound.
  assert (Hbefore : dispatched (fst Scene.controller).(events) = [])
    by (vm_compute; reflexivity).
  rewrite Hbefore in Hbound.
  cbn [length] in Hbound.
  enough (2 <= 0 + 1)%nat by lia.
  apply Hbound.
  - reflexivity.
  - cbn. split; lra.
  - cbn. split; lra.
  - vm_compute. discriminate.
  - vm_compute. discriminate.
Qed.

(** In the scene, after a tick whose click was accepted the card picked
    (object 1) is marked selected. The next pass lists one card, object 2,
    constructed by that pass and unselected; object 1 is no longer listed
    and keeps its mark. *)
Lemma refresh_and_recognize_replaces_cards_witness :
  let s := Scene.tick (Scene.frame (1920, 1080) 100) Scene.controller in
  let w := fst s in
  let r := (snd s).(Automator.card_recognizer) in
  let '(res, (w', r')) :=
    Recognizer.refresh_and_recognize
      (cv := TestDouble.cv) (py := TestDouble.py)
      (Scene.frame (1920, 1080) 101) (w, r) in
  r.(Recognizer.game_state).(GameState.available_cards) = [1%nat] /\
  (deref w.(heap) 1).(Card.is_selected) = true /\
  res = Ok [2%nat] /\
  r'.(Recognizer.game_state).(GameState.available_cards) = [2%nat] /\
  Forall (fun c => (deref w'.(heap) c).(Card.is_selected) = false) [2%nat] /\
  (deref w'.(heap) 1).(Card.is_selected) = true.
Proof.
  intros s w r.
  pose proof (refresh_and_recognize_replaces_cards
                (cv := TestDouble.cv) (py := TestDouble.py)
                (Scene.frame (1920, 1080) 101) w r) as Hpass.
  destruct (Recognizer.refresh_and_recognize _ (w, r))
    as [res [w' r']] eqn:Erun.
  assert (Hres : res = Ok [2%nat])
    by (vm_compute in Erun; now injection Erun as <- _ _).
  assert (Hphase :
    GameState.phase_eqb r'.(Recognizer.game_state).(GameState.phase)
                        GameState.SHOPPING = true)
    by (vm_compute in Erun; now injection Erun as _ _ <-).
  cbv beta iota zeta in Hpass.
  rewrite Hres, Hphase in Hpass.
  change (img_size (Scene.frame (1920, 1080) 101).(screen_recognize) =? 0)
    with false in Hpass.
  destruct Hpass as (Havail & _ & _ & _ & _ & _ & Hunsel & _).
  repeat split; try assumption; try reflexivity.
  vm_compute in Erun. now injection Erun as _ <- _.
Defined.


(** * Further properties *)

(** ** Priority lists *)

Lemma index_first_occurrence (x : string) (l : list string) (i : Z) :
  Py.index x l = Some i ->
  0 <= i /\ l !! Z.to_nat i = Some x /\
  forall j : nat, (j < Z.to_nat i)%nat -> l !! j <> Some x.
Proof.
  revert i. induction l as [ | y l IH ]; intros i; cbn [Py.index];
    [ discriminate | ].
  destruct (String.eqb_spec y x) as [ -> | Hne ].
  - intros Hi. injection Hi as <-. cbn. repeat split; [ lia | ].
    intros j Hj. lia.
  - destruct (Py.index x l) as [ i' | ]; [ | discriminate ].
    intros Hi. injection Hi as <-.
    destruct (IH i' eq_refl) as (Hpos & Hat & Hfirst).
    replace (Z.to_nat (i' + 1)) with (S (Z.to_nat i')) by lia.
    repeat split; [ lia | exact Hat | ].
    intros [ | j ] Hj; cbn.
    + intros Heq. injection Heq as Heq. contradiction.
    + apply Hfirst. lia.
Qed.

(** [get_priority_index] answers -1 exactly for a name that is not on the
    list; for a name on the list it answers the position of its first
    occurrence, counted from 0. *)
Theorem get_priority_index_first_occurrence :
  forall (self : Strategy.PriorityStrategy) (card_name : string),
    let l := self.(Strategy.priority_list) in
    let i := Strategy.get_priority_index self card_name in
    if Py.contains card_name l
    then 0 <= i < Py.len l /\
         l !! Z.to_nat i = Some card_name /\
         forall j : nat, (j < Z.to_nat i)%nat -> l !! j <> Some card_name
    else i = -1.
Proof.
  intros self card_name l i. subst l i.
  unfold Strategy.get_priority_index.
  destruct (Py.contains card_name _) eqn:Hc.
  - apply contains_In in Hc.
    destruct (index_In _ _ Hc) as (i & Hi & Hrange).
    rewrite Hi.
    destruct (index_first_occurrence _ _ _ Hi) as (_ & Hat & Hfirst).
    repeat split; try lia; assumption.
  - rewrite index_not_In; [ reflexivity | ].
    intros Hin. apply contains_In in Hin. congruence.
Qed.

Section PriorityOrder.
Context {A : Type} (card : A -> Card.Card).

(** What [select_card] returns heads the eligible candidates in score. *)
Lemma priority_selected_is_best (self : Strategy.PriorityStrategy)
    (cards : list A) (c : A) :
  Strategy.priority_select_card card self cards = Some c ->
  PrioritySpec.eligible card self c = true /\
  forall d, In d cards -> PrioritySpec.eligible card self d = true ->
            PrioritySpec.score card self d <= PrioritySpec.score card self c.
Proof.
  rewrite priority_select_card_sorted.
  pose proof (sort_reverse_head_split snd
                (map (fun c => (c, PrioritySpec.score card self c))
                     (List.filter (PrioritySpec.eligible card self) cards)))
    as Hhead.
  destruct (Py.sort_reverse Z.ltb snd _) as [ | [c' s] rest ];
    [ discriminate | ].
  intros Hc. injection Hc as ->.
  destruct Hhead as (before & after & Hsplit & Hlt & Hle).
  assert (Hin : In (c, s)
                  (map (fun c => (c, PrioritySpec.score card self c))
                       (List.filter (PrioritySpec.eligible card self) cards))).
  { rewrite Hsplit. apply in_or_app. right. now left. }
  apply in_map_iff in Hin as (c0 & Heq & Hc0). injection Heq as -> <-.
  apply filter_In in Hc0 as [_ Hel]. split; [ exact Hel | ].
  intros d Hd Held.
  assert (Hdin : In (d, PrioritySpec.score card self d)
                    (before ++ (c, PrioritySpec.score card self c) :: after)).
  { rewrite <- Hsplit. apply in_map_iff. exists d. split; [ reflexivity | ].
    apply filter_In. now split. }
  rewrite Forall_forall in Hlt, Hle.
  apply in_app_or in Hdin as [ Hb | [ Heq | Ha ] ].
  - apply list_elem_of_In in Hb. specialize (Hlt _ Hb). cbn in Hlt. lia.
  - injection Heq as _ Heq. lia.
  - apply list_elem_of_In in Ha. specialize (Hle _ Ha). exact Hle.
Qed.

(** With the cost bonus off, [select_card] returns the eligible candidate
    whose name stands earliest on the priority list. *)
Theorem priority_without_bonus_takes_best_rank :
  forall (self : Strategy.PriorityStrategy) (cards : list A) (c : A),
    self.(Strategy.prefer_higher_cost) = false ->
    Strategy.priority_select_card card self cards = Some c ->
    forall d, In d cards ->
      (card d).(Card.cost) <= self.(Strategy.max_cost) ->
      In (card d).(Card.name) self.(Strategy.priority_list) ->
      Strategy.get_priority_index self (card c).(Card.name)
      <= Strategy.get_priority_index self (card d).(Card.name).
Proof.
  intros self cards c Hoff Hsel d Hd Hcost Hname.
  destruct (priority_selected_is_best self cards c Hsel) as (Helc & Hbest).
  assert (Held : PrioritySpec.eligible card self d = true).
  { unfold PrioritySpec.eligible. apply andb_true_intro. split.
    - now apply Z.leb_le.
    - now apply contains_In. }
  specialize (Hbest d Hd Held).
  unfold PrioritySpec.eligible in Helc.
  apply andb_prop in Helc as [_ Hcname]. apply contains_In in Hcname.
  unfold Strategy.get_priority_index.
  rewrite (index_rank _ _ Hcname), (index_rank _ _ Hname).
  unfold PrioritySpec.score in Hbest. rewrite Hoff in Hbest. lia.
Qed.

(** With the cost bonus on and at most ten names on the priority list, the
    bonus outweighs every difference in rank: [select_card] returns an
    eligible candidate of the highest cost. *)
Theorem priority_with_bonus_takes_highest_cost :
  forall (self : Strategy.PriorityStrategy) (cards : list A) (c : A),
    self.(Strategy.prefer_higher_cost) = true ->
    Py.len self.(Strategy.priority_list) <= 10 ->
    Strategy.priority_select_card card self cards = Some c ->
    forall d, In d cards ->
      (card d).(Card.cost) <= self.(Strategy.max_cost) ->
      In (card d).(Card.name) self.(Strategy.priority_list) ->
      (card d).(Card.cost) <= (card c).(Card.cost).
Proof.
  intros self cards c Hon Hshort Hsel d Hd Hcost Hname.
  destruct (priority_selected_is_best self cards c Hsel) as (Helc & Hbest).
  assert (Held : PrioritySpec.eligible card self d = true).
  { unfold PrioritySpec.eligible. apply andb_true_intro. split.
    - now apply Z.leb_le.
    - now apply contains_In. }
  specialize (Hbest d Hd Held).
  unfold PrioritySpec.eligible in Helc.
  apply andb_prop in Helc as [_ Hcname]. apply contains_In in Hcname.
  pose proof (rank_bounds _ _ Hcname) as Hrc.
  pose proof (rank_bounds _ _ Hname) as Hrd.
  unfold PrioritySpec.score in Hbest. rewrite Hon in Hbest. lia.
Qed.

End PriorityOrder.

(** Of A (rank 0, cost 1) and B (rank 1, cost 2), A is returned without
    the bonus. *)
Lemma priority_without_bonus_takes_best_rank_witness :
  let self := Strategy.PriorityStrategy_init
                (Some ["A"; "B"]%string) None (Some false) in
  Strategy.get_priority_index self "A" <= Strategy.get_priority_index self "B".
Proof.
  intros self.
  apply (priority_without_bonus_takes_best_rank id self
           [example_card "B" 2; example_card "A" 1] (example_card "A" 1)
           eq_refl eq_refl (example_card "B" 2)).
  - now left.
  - cbn. lia.
  - cbn. auto.
Defined.

(** Of A (rank 0, cost 1) and B (rank 1, cost 2), B is returned with the
    bonus. *)
Lemma priority_with_bonus_takes_highest_cost_witness :
  (example_card "A" 1).(Card.cost) <= (example_card "B" 2).(Card.cost).
Proof.
  apply (priority_with_bonus_takes_highest_cost id
           (Strategy.PriorityStrategy_init (Some ["A"; "B"]%string) None None)
           [example_card "A" 1; example_card "B" 2] (example_card "B" 2)
           eq_refl).
  - unfold Py.len. cbn. lia.
  - reflexivity.
  - now left.
  - cbn. lia.
  - cbn. auto.
Defined.

(** ** Cost-weighted selection *)

Section SortFactsQ.
Context {A : Type} (key : A -> Q).

(** The first element of a list sorted by descending rational key is the
    first of its maxima. *)
Lemma sort_reverse_head_split_Q (l : list A) :
  match Py.sort_reverse Py.Qltb key l with
  | [] => l = []
  | m :: _ =>
      exists before after,
        l = before ++ m :: after /\
        Forall (fun d => (key d < key m)%Q) before /\
        Forall (fun d => (key d <= key m)%Q) after
  end.
Proof.
  induction l as [ | a l IH ]; [ reflexivity | ].
  cbn [Py.sort_reverse fold_right].
  fold (Py.sort_reverse Py.Qltb key l).
  destruct (Py.sort_reverse Py.Qltb key l) as [ | m rest ].
  - subst l. exists [], []. repeat split; constructor.
  - destruct IH as (before & after & -> & Hlt & Hle).
    cbn [Py.insert_desc].
    destruct (Py.Qltb (key a) (key m)) eqn:Ham.
    + apply Qltb_lt in Ham.
      exists (a :: before), after. repeat split; auto.
    + apply Qltb_ge in Ham.
      exists [], (before ++ m :: after). repeat split; [ constructor | ].
      apply Forall_app; split.
      * eapply Forall_impl; [ exact Hlt | ]. cbn. intros d Hd.
        apply Qlt_le_weak. now apply Qlt_le_trans with (key m).
      * constructor; [ exact Ham | ].
        eapply Forall_impl; [ exact Hle | ]. cbn. intros d Hd.
        now apply Qle_trans with (key m).
Qed.

End SortFactsQ.

Lemma cost_balance_select_card_split :
  forall (A : Type) (card : A -> Card.Card)
         (self : Strategy.CostBalanceStrategy) (cards : list A),
    match Strategy.cost_balance_select_card card self cards with
    | Some c =>
        exists before after,
          cards = before ++ c :: after /\
          Forall (fun d => (cost_balance_score card self d
                            < cost_balance_score card self c)%Q) before /\
          Forall (fun d => (cost_balance_score card self d
                            <= cost_balance_score card self c)%Q) after
    | None => cards = []
    end.
Proof.
  intros A card self cards.
  unfold Strategy.cost_balance_select_card.
  destruct cards as [ | c0 cards ]; [ reflexivity | ].
  cbn [Py.is_empty].
  change (map _ (c0 :: cards))
    with (map (fun c => (c, cost_balance_score card self c)) (c0 :: cards)).
  pose proof (sort_reverse_head_split_Q snd
                (map (fun c => (c, cost_balance_score card self c))
                     (c0 :: cards))) as Hhead.
  destruct (Py.sort_reverse Py.Qltb snd _) as [ | [c s] rest ];
    [ discriminate Hhead | ].
  destruct Hhead as (before & after & Hsplit & Hlt & Hle).
  apply map_eq_app in Hsplit as (before' & tl & Hcards & <- & Htl).
  destruct tl as [ | c' after' ]; [ discriminate Htl | ].
  cbn [map] in Htl. injection Htl as -> <- <-.
  exists before', after'. split; [ exact Hcards | ].
  cbn [snd] in Hlt, Hle.
  rewrite Forall_map in Hlt, Hle. split; assumption.
Qed.

(** [CostBalanceStrategy.select_card] returns [None] only for an empty
    list. Otherwise it returns a candidate of the greatest score (weight of
    its cost, 1.0 when the cost has none, plus a tenth of its confidence),
    and of several such the one that comes first. *)
Theorem cost_balance_takes_first_maximum :
  forall (A : Type) (card : A -> Card.Card)
         (self : Strategy.CostBalanceStrategy) (cards : list A),
    (Strategy.cost_balance_select_card card self cards = None
     <-> cards = []) /\
    match Strategy.cost_balance_select_card card self cards with
    | Some c =>
        exists before after,
          cards = before ++ c :: after /\
          Forall (fun d => (cost_balance_score card self d
                            < cost_balance_score card self c)%Q) before /\
          Forall (fun d => (cost_balance_score card self d
                            <= cost_balance_score card self c)%Q) after
    | None => cards = []
    end.
Proof.
  intros A card self cards.
  pose proof (cost_balance_select_card_split A card self cards) as Hsplit.
  split; [ | exact Hsplit ].
  split.
  - intros Hnone. now rewrite Hnone in Hsplit.
  - intros ->. reflexivity.
Qed.



(** ** Dicts *)

Lemma dict_get_set_eq {V} (k : string) (v : V) (d : list (string * V)) :
  Py.dict_get String.eqb k (Py.dict_set String.eqb k v d) = Some v.
Proof.
  induction d as [ | [k' v'] d IH ]; cbn.
  - now rewrite String.eqb_refl.
  - destruct (String.eqb k' k) eqn:Hk; cbn.
    + now rewrite String.eqb_refl.
    + now rewrite Hk.
Qed.

Lemma dict_get_set_ne {V} (k k0 : string) (v : V) (d : list (string * V)) :
  k <> k0 ->
  Py.dict_get String.eqb k0 (Py.dict_set String.eqb k v d)
  = Py.dict_get String.eqb k0 d.
Proof.
  intros Hne. induction d as [ | [k' v'] d IH ]; cbn.
  - now apply String.eqb_neq in Hne as ->.
  - destruct (String.eqb_spec k' k) as [ -> | Hk ]; cbn.
    + now apply String.eqb_neq in Hne as ->.
    + now rewrite IH.
Qed.

Lemma dict_get_In {V} (k : string) (d : list (string * V)) :
  In k (map fst d) <-> Py.dict_get String.eqb k d <> None.
Proof.
  induction d as [ | [k' v'] d IH ]; cbn.
  - split; [ intros [] | congruence ].
  - destruct (String.eqb_spec k' k) as [ -> | Hk ].
    + split; [ discriminate | now left ].
    + rewrite <- IH. split; [ intros [ ? | ? ]; [ contradiction | assumption ]
                            | now right ].
Qed.

(** Setting a key keeps the keys distinct. *)
Lemma dict_set_keys {V} (k : string) (v : V) (d : list (string * V)) :
  forall k0, In k0 (map fst (Py.dict_set String.eqb k v d))
             <-> k0 = k \/ In k0 (map fst d).
Proof.
  intros k0. induction d as [ | [k' v'] d IH ]; cbn.
  - split; [ intros [ <- | [] ]; now left | intros [ -> | [] ]; now left ].
  - destruct (String.eqb_spec k' k) as [ -> | Hk ]; cbn.
    + split; [ intros [ <- | ? ]; auto | intros [ -> | [ <- | ? ] ]; auto ].
    + rewrite IH. split.
      * intros [ <- | [ -> | ? ] ]; auto.
      * intros [ -> | [ <- | ? ] ]; auto.
Qed.

Lemma dict_set_NoDup {V} (k : string) (v : V) (d : list (string * V)) :
  List.NoDup (map fst d) ->
  List.NoDup (map fst (Py.dict_set String.eqb k v d)).
Proof.
  induction d as [ | [k' v'] d IH ]; cbn; intros Hnd.
  - constructor; [ intros [] | constructor ].
  - inversion Hnd as [ | ? ? Hnin Hnd' ]; subst.
    destruct (String.eqb_spec k' k) as [ -> | Hk ]; cbn.
    + now constructor.
    + constructor; [ | now apply IH ].
      rewrite dict_set_keys. intros [ -> | Hin ]; [ now apply Hk | auto ].
Qed.

(** ** The strategy manager *)

(** Registering a strategy and then selecting it by name makes it the one
    [execute_selection] runs, and leaves every other registration as it
    was. Under the empty name this fails silently: [set_strategy] answers
    [True], but the empty name counts as no current strategy, and
    [execute_selection] answers [None] for every candidate list. *)
Theorem register_then_set_strategy :
  forall (name : string) (strategy : Strategy.PickStrategy)
         (self : Strategy.StrategyManager),
    let registered := snd (Strategy.register_strategy name strategy self) in
    let '(ok, current) := Strategy.set_strategy name registered in
    ok = true /\
    (forall other, other <> name ->
       Py.dict_get String.eqb other current.(Strategy.strategies)
       = Py.dict_get String.eqb other self.(Strategy.strategies)) /\
    forall (A : Type) (card : A -> Card.Card) (cards : list A),
      Strategy.execute_selection card current cards =
      if String.eqb name ""
      then None
      else Strategy.select_card card strategy cards.
Proof.
  intros name strategy self registered. subst registered.
  unfold Strategy.register_strategy, Strategy.set_strategy. cbn [snd Strategy.strategies].
  rewrite dict_get_set_eq.
  split; [ reflexivity | split ].
  - intros other Hne. cbn [Strategy.strategies].
    apply dict_get_set_ne. congruence.
  - intros A card cards.
    unfold Strategy.execute_selection, Strategy.get_current_strategy.
    cbn [Strategy.current_strategy_name Strategy.strategies].
    destruct (String.eqb name ""); [ reflexivity | ].
    now rewrite dict_get_set_eq.
Qed.

(** A name that is not registered cannot be selected: [set_strategy]
    answers [False] and the manager, its current strategy included, stays
    as it was. *)
Theorem set_strategy_unknown_name :
  forall (name : string) (self : Strategy.StrategyManager),
    ~ In name (Strategy.get_available_strategies self) ->
    Strategy.set_strategy name self = (false, self).
Proof.
  intros name self Hnot.
  unfold Strategy.set_strategy, Strategy.get_available_strategies in *.
  destruct (Py.dict_get String.eqb name _) eqn:Hget; [ | reflexivity ].
  exfalso. apply Hnot. apply dict_get_In. congruence.
Qed.

(** The misspelt name of the repository's own test. *)
Lemma set_strategy_unknown_name_witness :
  Strategy.set_strategy "invalid_strategy" Strategy.StrategyManager_init
  = (false, Strategy.StrategyManager_init).
Proof.
  apply set_strategy_unknown_name.
  cbn. intros [ H | [ H | [ H | [] ] ] ]; discriminate H.
Defined.

Section IdleFacts.
Context `{cv : OpenCV} `{py : PyBuiltins}.

(** A tick for which recognition and the strategy yield no card hands
    nothing to the actuator and leaves the books alone. *)
Lemma tick_without_selection (obs : Observation) (w : World)
    (a : Automator.GameAutomator) :
  tick_selection obs (w, a) = None ->
  let '(res, (w', a')) := Automator._process_shop_phase obs (w, a) in
  dispatched w'.(events) = dispatched w.(events) /\ same_picks a a'.
Proof.
  unfold tick_selection, Automator._process_shop_phase.
  unfold bind at 1, self at 1. cbn [fst snd].
  destruct (negb _); [ intros _; cbn; now repeat split | ].
  unfold bind at 1, on_field at 1. cbn [fst snd].
  pose proof (refresh_dispatches_nothing obs w a.(Automator.card_recognizer))
    as Hnone.
  destruct (Recognizer.refresh_and_recognize obs _) as [rres [w1 r1]].
  cbn [fst snd] in Hnone.
  destruct rres as [ cards | e ];
    [ | intros _; split; [ exact Hnone | now repeat split ] ].
  intros Hsel.
  destruct (Py.is_empty cards);
    [ split; [ exact Hnone | now repeat split ] | ].
  unfold bind at 1, self at 1. cbn [fst snd].
  unfold bind at 1, Automator.world at 1.
  cbn [fst snd Automator.with_card_recognizer Automator.strategy_manager].
  rewrite Hsel.
  split; [ exact Hnone | now repeat split ].
Qed.

End IdleFacts.

(** A newly constructed strategy manager selects nothing, whatever the
    candidates: its current strategy is the priority strategy with an empty
    priority list. A controller built on it therefore dispatches no action
    and counts no pick in any tick until a priority list is set. *)
Theorem default_manager_selects_nothing :
  (forall (A : Type) (card : A -> Card.Card) (cards : list A),
     Strategy.execute_selection card Strategy.StrategyManager_init cards
     = None) /\
  (forall (cv : OpenCV) (py : PyBuiltins) (obs : Observation) (w : World)
          (a : Automator.GameAutomator),
     a.(Automator.strategy_manager) = Strategy.StrategyManager_init ->
     let '(res, (w', a')) := Automator._process_shop_phase obs (w, a) in
     dispatched w'.(events) = dispatched w.(events) /\ same_picks a a').
Proof.
  assert (Hnone : forall (A : Type) (card : A -> Card.Card) (cards : list A),
            Strategy.execute_selection card Strategy.StrategyManager_init
                                       cards = None).
  { intros A card cards.
    cbn [Strategy.execute_selection Strategy.get_current_strategy
         Strategy.StrategyManager_init Strategy.current_strategy_name
         Strategy.strategies].
    cbn. unfold Strategy.priority_select_card.
    destruct (Py.is_empty cards); [ reflexivity | ].
    destruct (Py.is_empty (List.filter _ cards)); [ reflexivity | ].
    induction (List.filter _ cards) as [ | c l IH ]; [ reflexivity | ].
    exact IH. }
  split; [ exact Hnone | ].
  intros cv py obs w a Hmanager.
  apply tick_without_selection.
  unfold tick_selection.
  destruct (negb _); [ reflexivity | ].
  destruct (Recognizer.refresh_and_recognize obs _) as [[ cards | e ] [w1 r1]];
    [ | reflexivity ].
  rewrite Hmanager. apply Hnone.
Qed.

(** The controller as constructed, shown a shop with a known card. *)
Lemma default_manager_selects_nothing_witness :
  let s := (fresh_world,
            Automator.with_card_recognizer
              (snd Scene.controller).(Automator.card_recognizer)
              Automator.init) in
  dispatched
    (fst (snd (Automator._process_shop_phase
                 (cv := TestDouble.cv) (py := TestDouble.py)
                 (Scene.frame (1920, 1080) 100) s))).(events)
  = [].
Proof.
  intros s.
  pose proof (proj2 default_manager_selects_nothing
                TestDouble.cv TestDouble.py (Scene.frame (1920, 1080) 100)
                (fst s) (snd s) eq_refl) as H.
  change (fst s, snd s) with s in H.
  destruct (Automator._process_shop_phase _ s) as [res [w' a']].
  exact (proj1 H).
Defined.

(** ** Matches *)

Lemma float_or_idempotent (threshold : option Q) (d : Q) :
  Matcher.float_or (Some (Matcher.float_or threshold d)) d
  = Matcher.float_or threshold d.
Proof.
  unfold Matcher.float_or.
  destruct threshold as [ t | ].
  - destruct (Qeq_bool t 0) eqn:Ht.
    + now destruct (Qeq_bool d 0).
    + now rewrite Ht.
  - now destruct (Qeq_bool d 0).
Qed.

Section MatchFacts.
Context `{cv : OpenCV}.

(** [match_template] looks at its threshold through [float_or] only. *)
Lemma match_template_effective (self : Matcher.TemplateMatcher)
    (source : Image) (template_name : string) (threshold : option Q) :
  Matcher.match_template self source template_name
    (Some (Matcher.float_or threshold self.(Matcher.default_threshold)))
  = Matcher.match_template self source template_name threshold.
Proof.
  unfold Matcher.match_template.
  destruct (Py.dict_get _ _ _); [ | reflexivity ].
  now rewrite float_or_idempotent.
Qed.


(** [match_all_templates] holds an entry for a name exactly when a
    template is loaded under that name and [match_template], called with
    the same threshold, finds at least one match; the entry is that list of
    matches. No entry is empty. *)
Theorem match_all_templates_entries :
  forall (self : Matcher.TemplateMatcher) (source : Image)
         (threshold : option Q) (template_name : string)
         (matches : list Matcher.Match),
    In (template_name, matches)
       (Matcher.match_all_templates self source threshold) <->
    In template_name (map fst self.(Matcher.templates)) /\
    matches = Matcher.match_template self source template_name threshold /\
    matches <> [].
Proof.
  intros self source threshold template_name matches.
  unfold Matcher.match_all_templates. rewrite in_flat_map. split.
  - intros ([n t] & Hin & Hentry).
    rewrite match_template_effective in Hentry.
    destruct (Matcher.match_template self source n threshold)
      as [ | m ms ] eqn:Hms; cbn in Hentry; [ destruct Hentry | ].
    destruct Hentry as [ Heq | [] ]. injection Heq as <- <-.
    repeat split.
    + apply in_map_iff. now exists (n, t).
    + now symmetry.
    + discriminate.
  - intros (Hin & -> & Hne).
    apply in_map_iff in Hin as ([n t] & Hn & Hin). cbn in Hn. subst n.
    exists (template_name, t). split; [ exact Hin | ].
    rewrite match_template_effective.
    destruct (Matcher.match_template self source template_name threshold);
      [ contradiction | now left ].
Qed.

End MatchFacts.

Lemma max_key_greatest {A} (key : A -> Q) (l : list A) :
  forall x : A,
    In (Py.max_key key x l) (x :: l) /\
    forall y, In y (x :: l) -> (key y <= key (Py.max_key key x l))%Q.
Proof.
  induction l as [ | z l IH ]; intros x; cbn [Py.max_key].
  - split; [ now left | ]. intros y [ <- | [] ]. apply Qle_refl.
  - destruct (Py.Qltb (key x) (key z)) eqn:Hxz.
    + apply Qltb_lt in Hxz. destruct (IH z) as (Hin & Hmax). split.
      * now right.
      * intros y [ <- | Hy ]; [ | now apply Hmax ].
        apply Qlt_le_weak.
        apply Qlt_le_trans with (key z); [ exact Hxz | ].
        apply Hmax. now left.
    + apply Qltb_ge in Hxz. destruct (IH x) as (Hin & Hmax). split.
      * destruct Hin as [ <- | Hin ]; [ now left | now right; right ].
      * intros y [ <- | [ <- | Hy ] ].
        -- apply Hmax. now left.
        -- apply Qle_trans with (key x); [ exact Hxz | ].
           apply Hmax. now left.
        -- apply Hmax. now right.
Qed.

Section BestMatch.
Context `{cv : OpenCV}.

(** [find_best_match] answers [None] exactly when [match_template] finds
    nothing; otherwise it answers one of the matches found, and no match
    found has a greater confidence. *)
Theorem find_best_match_greatest :
  forall (self : Matcher.TemplateMatcher) (source : Image)
         (template_name : string) (threshold : option Q),
    let matches :=
      Matcher.match_template self source template_name threshold in
    match Matcher.find_best_match self source template_name threshold with
    | Some best =>
        In best matches /\
        forall m, In m matches ->
                  (m.(Matcher.confidence) <= best.(Matcher.confidence))%Q
    | None => matches = []
    end.
Proof.
  intros self source template_name threshold matches. subst matches.
  unfold Matcher.find_best_match.
  destruct (Matcher.match_template self source template_name threshold)
    as [ | m ms ]; [ reflexivity | ].
  apply max_key_greatest.
Qed.

End BestMatch.


(** ** The template library *)

Lemma dict_set_length {V} (k : string) (v : V) (d : list (string * V)) :
  length (Py.dict_set String.eqb k v d)
  = match Py.dict_get String.eqb k d with
    | Some _ => length d
    | None => S (length d)
    end.
Proof.
  induction d as [ | [k' v'] d IH ]; cbn; [ reflexivity | ].
  destruct (String.eqb k' k); cbn; [ reflexivity | ].
  rewrite IH. now destruct (Py.dict_get String.eqb k d).
Qed.

Lemma dict_del_get_ne {V} (k k0 : string) (d : list (string * V)) :
  k <> k0 ->
  Py.dict_get String.eqb k0 (Py.dict_del String.eqb k d)
  = Py.dict_get String.eqb k0 d.
Proof.
  intros Hne. induction d as [ | [k' v'] d IH ]; cbn; [ reflexivity | ].
  destruct (String.eqb_spec k' k) as [ -> | Hk ]; cbn.
  - now apply String.eqb_neq in Hne as ->.
  - now rewrite IH.
Qed.

Lemma dict_del_get_eq {V} (k : string) (d : list (string * V)) :
  List.NoDup (map fst d) ->
  Py.dict_get String.eqb k (Py.dict_del String.eqb k d) = None.
Proof.
  induction d as [ | [k' v'] d IH ]; cbn; intros Hnd; [ reflexivity | ].
  inversion Hnd as [ | ? ? Hnin Hnd' ]; subst.
  destruct (String.eqb_spec k' k) as [ -> | Hk ]; cbn.
  - destruct (Py.dict_get String.eqb k d) eqn:Hget; [ | reflexivity ].
    exfalso. apply Hnin. apply dict_get_In. congruence.
  - apply String.eqb_neq in Hk as ->. now apply IH.
Qed.

Lemma dict_del_keys {V} (k : string) (d : list (string * V)) :
  forall k0, In k0 (map fst (Py.dict_del String.eqb k d)) ->
             In k0 (map fst d).
Proof.
  intros k0. induction d as [ | [k' v'] d IH ]; cbn; [ auto | ].
  destruct (String.eqb k' k); cbn; [ auto | ].
  intros [ <- | Hin ]; auto.
Qed.

Lemma dict_del_NoDup {V} (k : string) (d : list (string * V)) :
  List.NoDup (map fst d) ->
  List.NoDup (map fst (Py.dict_del String.eqb k d)).
Proof.
  induction d as [ | [k' v'] d IH ]; cbn; intros Hnd; [ constructor | ].
  inversion Hnd as [ | ? ? Hnin Hnd' ]; subst.
  destruct (String.eqb k' k); cbn; [ exact Hnd' | ].
  constructor; [ | now apply IH ].
  intros Hin. apply Hnin. now apply dict_del_keys in Hin.
Qed.

Lemma dict_del_length {V} (k : string) (d : list (string * V)) :
  Py.dict_get String.eqb k d <> None ->
  S (length (Py.dict_del String.eqb k d)) = length d.
Proof.
  induction d as [ | [k' v'] d IH ]; cbn; [ congruence | ].
  destruct (String.eqb k' k); cbn; [ reflexivity | ].
  intros Hget. now rewrite IH.
Qed.

(** A file that cannot be read leaves the library as it was and
    [load_template] answers [False]. A file that can be read is stored
    under the given name, replacing without notice whatever was stored
    under it; the other templates stay, and the count grows by one only
    when the name is new. *)
Theorem load_template_lookup :
  forall (name : string) (file : option Image)
         (self : Matcher.TemplateMatcher),
    let '(ok, loaded) := Matcher.load_template name file self in
    match file with
    | None => ok = false /\ loaded = self
    | Some template =>
        ok = true /\
        Py.dict_get String.eqb name loaded.(Matcher.templates)
          = Some template /\
        (forall other, other <> name ->
           Py.dict_get String.eqb other loaded.(Matcher.templates)
           = Py.dict_get String.eqb other self.(Matcher.templates)) /\
        Matcher.get_template_count loaded
          = Matcher.get_template_count self
            + match Py.dict_get String.eqb name self.(Matcher.templates) with
              | Some _ => 0
              | None => 1
              end /\
        loaded.(Matcher.default_threshold) = self.(Matcher.default_threshold)
    end.
Proof.
  intros name file self. unfold Matcher.load_template.
  destruct file as [ template | ]; [ | now split ].
  cbn [Matcher.templates Matcher.default_threshold].
  split; [ reflexivity | split; [ apply dict_get_set_eq | split ] ].
  - intros other Hne. apply dict_get_set_ne. congruence.
  - split; [ | reflexivity ].
    unfold Matcher.get_template_count, Py.len.
    cbn [Matcher.templates]. rewrite dict_set_length.
    destruct (Py.dict_get String.eqb name self.(Matcher.templates)); lia.
Qed.

(** [remove_template] answers [True] exactly for a name that is loaded.
    Afterwards the name is not loaded, every other template is still there,
    and the count has dropped by one if the answer was [True]. *)
Theorem remove_template_lookup :
  forall (name : string) (self : Matcher.TemplateMatcher),
    List.NoDup (map fst self.(Matcher.templates)) ->
    let '(ok, removed) := Matcher.remove_template name self in
    (ok = true <-> In name (map fst self.(Matcher.templates))) /\
    Py.dict_get String.eqb name removed.(Matcher.templates) = None /\
    (forall other, other <> name ->
       Py.dict_get String.eqb other removed.(Matcher.templates)
       = Py.dict_get String.eqb other self.(Matcher.templates)) /\
    Matcher.get_template_count removed
      = Matcher.get_template_count self - (if ok then 1 else 0) /\
    List.NoDup (map fst removed.(Matcher.templates)).
Proof.
  intros name self Hnd. unfold Matcher.remove_template.
  destruct (Py.dict_get String.eqb name self.(Matcher.templates))
    as [ t | ] eqn:Hget; cbn [Matcher.templates].
  - split; [ | split; [ now apply dict_del_get_eq | split; [ | split ] ] ].
    + split; [ intros _ | reflexivity ]. apply dict_get_In. congruence.
    + intros other Hne. apply dict_del_get_ne. congruence.
    + unfold Matcher.get_template_count, Py.len. cbn [Matcher.templates].
      assert (Hlen := dict_del_length name self.(Matcher.templates)).
      rewrite Hget in Hlen. specialize (Hlen ltac:(discriminate)). lia.
    + now apply dict_del_NoDup.
  - split; [ | split; [ exact Hget | split; [ reflexivity | split ] ] ].
    + split; [ discriminate | ].
      intros Hin. apply dict_get_In in Hin. contradiction.
    + lia.
    + exact Hnd.
Qed.

(** Loading a template and removing it again. *)
Lemma remove_template_lookup_witness :
  let self := snd (Matcher.load_template "garen"%string
                     (Some (TestDouble.dot 1 2 3)) (Matcher.init None)) in
  Py.dict_get String.eqb "garen"%string
    (snd (Matcher.remove_template "garen"%string self)).(Matcher.templates)
  = None.
Proof.
  intros self.
  assert (Hnd : List.NoDup (map fst self.(Matcher.templates))).
  { cbn. constructor; [ intros [] | constructor ]. }
  pose proof (remove_template_lookup "garen"%string self Hnd) as H.
  destruct (Matcher.remove_template "garen"%string self) as [ok removed].
  exact (proj1 (proj2 H)).
Defined.

Section Directory.
Variable supported : string -> bool.
Variable stem : string -> string.

(** the listed files [load_templates_from_dir] loads: those with a
    supported extension that can be read *)
Let loadable (entry : string * option Image) : bool :=
  supported (fst entry) && match snd entry with Some _ => true | None => false end.

Lemma load_template_keeps (name : string) (file : option Image)
    (self : Matcher.TemplateMatcher) (n : string) :
  Py.dict_get String.eqb n self.(Matcher.templates) <> None ->
  Py.dict_get String.eqb n
    (snd (Matcher.load_template name file self)).(Matcher.templates) <> None.
Proof.
  unfold Matcher.load_template. destruct file as [ t | ]; [ | auto ].
  cbn [snd Matcher.templates]. intros Hn.
  destruct (String.eqb_spec name n) as [ -> | Hne ].
  - rewrite dict_get_set_eq. discriminate.
  - now rewrite dict_get_set_ne.
Qed.

(** Loading a directory leaves alone every name that is not the stem of a
    file it loads. *)
Lemma load_templates_from_dir_untouched
    (listing : list (string * option Image)) :
  forall (self : Matcher.TemplateMatcher) (n : string),
    ~ In n (map (fun e => stem (fst e)) (List.filter loadable listing)) ->
    Py.dict_get String.eqb n
      (snd (Matcher.load_templates_from_dir supported stem listing self))
        .(Matcher.templates)
    = Py.dict_get String.eqb n self.(Matcher.templates).
Proof.
  induction listing as [ | [filename file] rest IH ]; intros self n Hn;
    [ reflexivity | ].
  cbn [Matcher.load_templates_from_dir List.filter] in *.
  unfold loadable at 1 in Hn. cbn [fst snd] in Hn.
  destruct (supported filename); cbn [andb] in Hn; [ | now apply IH ].
  pose proof (load_template_lookup (stem filename) file self) as Hload.
  destruct (Matcher.load_template (stem filename) file self) as [ok self1].
  specialize (IH self1 n).
  destruct (Matcher.load_templates_from_dir supported stem rest self1)
    as [count loaded].
  cbn [snd] in *.
  destruct file as [ template | ].
  - cbn [map fst] in Hn.
    destruct Hload as (_ & _ & Hother & _).
    rewrite IH; [ | intros Hin; apply Hn; now right ].
    apply Hother. intros ->. apply Hn. now left.
  - destruct Hload as (_ & ->). now apply IH.
Qed.

(** [load_templates_from_dir] returns the number of listed files that have
    a supported extension and can be read; a file that cannot be read, or of
    another extension, is passed over and the files after it are still
    loaded. Every file counted is afterwards loaded under its stem, and
    nothing loaded before is lost. The library grows by at most the number
    returned, and by less when two files share a stem. When the stems of
    the files counted are pairwise distinct, each stem resolves to the
    image of its file. *)
Theorem load_templates_from_dir_count :
  forall (listing : list (string * option Image))
         (self : Matcher.TemplateMatcher),
    let '(count, loaded) :=
      Matcher.load_templates_from_dir supported stem listing self in
    count = Py.len (List.filter loadable listing) /\
    (forall filename template,
       In (filename, Some template) listing -> supported filename = true ->
       Py.dict_get String.eqb (stem filename) loaded.(Matcher.templates)
       <> None) /\
    (forall n, Py.dict_get String.eqb n self.(Matcher.templates) <> None ->
               Py.dict_get String.eqb n loaded.(Matcher.templates) <> None) /\
    Matcher.get_template_count loaded
      <= Matcher.get_template_count self + count /\
    (List.NoDup (map (fun e => stem (fst e)) (List.filter loadable listing)) ->
     forall filename template,
       In (filename, Some template) listing -> supported filename = true ->
       Py.dict_get String.eqb (stem filename) loaded.(Matcher.templates)
       = Some template).
Proof.
  induction listing as [ | [filename file] rest IH ]; intros self.
  - cbn. repeat split; try tauto. unfold Py.len. cbn. lia.
  - cbn [Matcher.load_templates_from_dir List.filter].
    assert (Hl : loadable (filename, file)
                 = supported filename
                   && match file with Some _ => true | None => false end)
      by reflexivity.
    rewrite !Hl. clear Hl.
    destruct (supported filename) eqn:Hsup; cbn [andb].
    2:{ specialize (IH self).
        destruct (Matcher.load_templates_from_dir supported stem rest self)
          as [count loaded].
        destruct IH as (Hcount & Hin & Hkeep & Hsize & Hexact).
        split; [ exact Hcount | split; [ | split; [ exact Hkeep | split;
          [ exact Hsize | ] ] ] ].
        - intros f t [ Heq | Hrest ] Hf; [ | exact (Hin f t Hrest Hf) ].
          injection Heq as -> ->. congruence.
        - intros Hnd f t [ Heq | Hrest ] Hf;
            [ | exact (Hexact Hnd f t Hrest Hf) ].
          injection Heq as -> ->. congruence. }
    pose proof (load_template_lookup (stem filename) file self) as Hload.
    pose proof (load_template_keeps (stem filename) file self) as Hkeep1.
    destruct (Matcher.load_template (stem filename) file self)
      as [ok self1].
    cbn [snd] in Hkeep1.
    pose proof (load_templates_from_dir_untouched rest self1
                  (stem filename)) as Huntouched.
    specialize (IH self1).
    destruct (Matcher.load_templates_from_dir supported stem rest self1)
      as [count loaded].
    destruct IH as (Hcount & Hin & Hkeep & Hsize & Hexact).
    destruct file as [ template | ].
    + destruct Hload as (-> & Hget & Hother & Hcnt & _).
      cbn [map fst length]. repeat split.
      * rewrite Hcount. unfold Py.len. cbn [length]. lia.
      * intros f t [ Heq | Hrest ] Hf; [ | eauto ].
        injection Heq as <- <-. apply Hkeep. congruence.
      * intros n Hn. auto.
      * revert Hcnt.
        destruct (Py.dict_get String.eqb (stem filename)
                              self.(Matcher.templates)); intros Hcnt; lia.
      * intros Hnd f t Hf Hsupf.
        inversion Hnd as [ | ? ? Hnin Hnd' ]; subst.
        destruct Hf as [ Heq | Hrest ]; [ | eauto ].
        injection Heq as <- <-.
        cbn [snd] in Huntouched. rewrite Huntouched; [ exact Hget | ].
        exact Hnin.
    + destruct Hload as (-> & ->).
      split; [ lia | split; [ | split; [ exact Hkeep | split; [ lia | ] ] ] ].
      * intros f t [ Heq | Hrest ] Hf;
          [ discriminate Heq | exact (Hin f t Hrest Hf) ].
      * intros Hnd f t [ Heq | Hrest ] Hf;
          [ discriminate Heq | exact (Hexact Hnd f t Hrest Hf) ].
Qed.

End Directory.


(** ** Game phases *)

(** The three phase setters keep [is_active] true exactly in the shopping
    phase, stamp the time only when the phase changes, and touch neither the
    card list nor gold, level or shop slots. *)
Theorem phase_setters_keep_activity :
  forall (now : Q) (g : GameState.GameState)
         (set : Q -> GameState.GameState -> GameState.GameState)
         (target : GameState.GamePhase),
    In (set, target)
       [ (GameState.set_shop_phase, GameState.SHOPPING);
         (GameState.set_lobby_phase, GameState.LOBBY);
         (GameState.set_battle_phase, GameState.BATTLING) ] ->
    let g' := set now g in
    g'.(GameState.phase) = target /\
    g'.(GameState.is_active)
      = GameState.phase_eqb g'.(GameState.phase) GameState.SHOPPING /\
    g'.(GameState.last_update_time)
      = (if GameState.phase_eqb g.(GameState.phase) target
         then g.(GameState.last_update_time) else Some now) /\
    g'.(GameState.available_cards) = g.(GameState.available_cards) /\
    g'.(GameState.shop_slots) = g.(GameState.shop_slots) /\
    g'.(GameState.gold) = g.(GameState.gold) /\
    g'.(GameState.level) = g.(GameState.level).
Proof.
  intros now g set target Hset g'. subst g'.
  destruct Hset as [ Heq | [ Heq | [ Heq | [] ] ] ];
    injection Heq as <- <-;
    unfold GameState.set_shop_phase, GameState.set_lobby_phase,
      GameState.set_battle_phase, GameState.update_phase;
    destruct g as [ph cards gold level slots active stamp];
    destruct ph; cbn; repeat split.
Qed.

(** A lobby that turns into a shop. *)
Lemma phase_setters_keep_activity_witness :
  (GameState.set_shop_phase 5 (GameState.set_lobby_phase 3 GameState.init))
    .(GameState.is_active) = true.
Proof.
  destruct (phase_setters_keep_activity 5
              (GameState.set_lobby_phase 3 GameState.init)
              GameState.set_shop_phase GameState.SHOPPING
              (or_introl eq_refl))
    as (Hphase & Hactive & _).
  rewrite Hactive, Hphase. reflexivity.
Defined.

Section DetectionFacts.
Context `{cv : OpenCV}.

(** [detect_shop_phase] captures and clicks nothing. Without a frame it
    answers [False] and leaves the game state as it was, a shopping phase
    found earlier included. With a frame it either raises, having changed
    nothing, or sets the phase to Shopping and [is_active] to true when it
    answers [True], and the phase to Lobby and [is_active] to false when it
    answers [False]. *)
Theorem detect_shop_phase_outcome :
  forall (obs : Observation) (screenshot : option Image) (w : World)
         (r : Recognizer.CardRecognizer),
    let '(res, (w', r')) :=
      Recognizer.detect_shop_phase obs screenshot (w, r) in
    let g' := r'.(Recognizer.game_state) in
    w' = w /\
    r'.(Recognizer.template_matcher) = r.(Recognizer.template_matcher) /\
    r'.(Recognizer.shop_regions) = r.(Recognizer.shop_regions) /\
    g'.(GameState.available_cards)
      = r.(Recognizer.game_state).(GameState.available_cards) /\
    if img_size (default obs.(screen_detect) screenshot) =? 0
    then res = Ok false /\ r' = r
    else match res with
         | Raised _ => r' = r
         | Ok is_shop =>
             g'.(GameState.is_active) = is_shop /\
             g'.(GameState.phase)
               = (if is_shop then GameState.SHOPPING else GameState.LOBBY)
         end.
Proof.
  intros obs screenshot w r. destruct r as [tm g regs].
  unfold Recognizer.detect_shop_phase.
  destruct (img_size _ =? 0); [ now repeat split | ].
  destruct (cvtColor_BGR2HSV _) as [ hsv | ]; [ | now repeat split ].
  destruct (img_shape _) as [rows cols].
  unfold bind, ret, Recognizer.on_game_state, update.
  destruct (Py.Qltb _ _);
    cbn [fst snd Recognizer.template_matcher Recognizer.game_state
         Recognizer.shop_regions];
    unfold GameState.set_shop_phase, GameState.set_lobby_phase,
      GameState.update_phase;
    destruct g as [ph cards gold level slots active stamp];
    destruct ph; cbn; now repeat split.
Qed.

(** [_estimate_cost] answers a cost from 1 to 5 for every image. When the
    colour conversion fails, or no band holds a pixel, it answers 1.
    Otherwise the band of the cost it answers holds at least as many pixels
    as any other, and more than every band of a lower cost. *)
Theorem estimate_cost_largest_band :
  forall card_image : Image,
    let cost := Recognizer._estimate_cost card_image in
    1 <= cost <= 5 /\
    match cvtColor_BGR2HSV card_image with
    | None => cost = 1
    | Some hsv =>
        (band_count hsv cost <= 0 -> cost = 1) /\
        forall k, 1 <= k <= 5 ->
          band_count hsv k <= Z.max 0 (band_count hsv cost) /\
          (k < cost -> band_count hsv k < band_count hsv cost)
    end.
Proof.
  intros card_image cost. subst cost.
  unfold Recognizer._estimate_cost.
  destruct (cvtColor_BGR2HSV card_image) as [ hsv | ]; [ | split; lia ].
  unfold band_count. cbn [fold_left Recognizer.cost_ranges].
  set (n1 := inRange_count hsv (40, 200, 200) (50, 255, 255)).
  set (n2 := inRange_count hsv (20, 150, 200) (30, 255, 255)).
  set (n3 := inRange_count hsv (0, 100, 200) (10, 200, 255)).
  set (n4 := inRange_count hsv (120, 100, 200) (140, 255, 255)).
  set (n5 := inRange_count hsv (0, 0, 200) (180, 50, 255)).
  assert (Hk : forall k, 1 <= k <= 5 ->
                         k = 1 \/ k = 2 \/ k = 3 \/ k = 4 \/ k = 5)
    by (intros; lia).
  destruct (Z.ltb_spec 0 n1) as [H1 | H1];
  repeat match goal with
         | |- context [ ?a <? ?b ] => destruct (Z.ltb_spec a b)
         end;
  cbn [fst]; (split; [ lia | ]); (split; [ cbn; fold n1 n2 n3 n4 n5; lia | ]);
  intros k Hrange;
  destruct (Hk k Hrange) as [ -> | [ -> | [ -> | [ -> | -> ] ] ] ];
  cbn; fold n1 n2 n3 n4 n5; lia.
Qed.

End DetectionFacts.

Section RecognizedCards.
Context `{cv : OpenCV} `{py : PyBuiltins}.

Lemma estimate_cost_range (card_image : Image) :
  1 <= Recognizer._estimate_cost card_image <= 5.
Proof.
  unfold Recognizer._estimate_cost.
  destruct (cvtColor_BGR2HSV card_image) as [ hsv | ]; [ | lia ].
  cbn [fold_left Recognizer.cost_ranges].
  repeat match goal with
         | |- context [ ?a <? ?b ] => destruct (a <? b)
         end; cbn [fst]; lia.
Qed.

Lemma match_all_templates_names (tm : Matcher.TemplateMatcher)
    (source : Image) (threshold : option Q) (n : string)
    (ms : list Matcher.Match) :
  In (n, ms) (Matcher.match_all_templates tm source threshold) ->
  In n (map fst tm.(Matcher.templates)).
Proof.
  unfold Matcher.match_all_templates. rewrite in_flat_map.
  intros ([n' t] & Hin & Hentry).
  destruct (Py.is_empty _); [ destruct Hentry | ].
  destruct Hentry as [ Heq | [] ]. injection Heq as <- _.
  apply in_map_iff. now exists (n', t).
Qed.

(** What a card built for a slot carries. *)
Lemma slot_card_attributes (tm : Matcher.TemplateMatcher) (obs : Observation)
    (i : Z) (region : Region) (c : Card.Card) :
  RecognitionSpec.slot_card tm obs i region = Some c ->
  In c.(Card.name) (map fst tm.(Matcher.templates)) /\
  (7 # 10 < c.(Card.confidence))%Q /\
  1 <= c.(Card.cost) <= 5 /\
  c.(Card.rarity) = Card.from_cost c.(Card.cost) /\
  c.(Card.classes) = [] /\
  c.(Card.position) = region_centre region /\
  c.(Card.shop_index) = Some i.
Proof.
  unfold RecognitionSpec.slot_card.
  destruct (img_size _ =? 0); [ discriminate | ].
  pose proof (best_of_confident
                (Matcher.match_all_templates tm (obs.(slot_image) i region)
                                             (Some (7 # 10)%Q))) as Hbest.
  destruct (Recognizer.best_of _) as [ [n q] | ]; [ | discriminate ].
  destruct Hbest as (Hbar & ms & m & Hin & _ & _).
  intros Hc. injection Hc as <-.
  cbn [Card.set_position Card.set_shop_index Card.init Card.name Card.cost
       Card.rarity Card.classes Card.confidence Card.position
       Card.shop_index].
  repeat split; try (apply estimate_cost_range); try exact Hbar.
  now apply match_all_templates_names with (1 := Hin).
Qed.

(** A recognition pass that got a frame returns cards each of which is
    named after a loaded template, has a confidence above 0.7, a cost from 1
    to 5 with the rarity of that cost (never Unknown or Spatula), no classes,
    the index of one of the configured regions and the centre of that region
    as its position. The pass rebuilds [shop_slots] with one occupied entry
    per card returned, in the same order. *)
Theorem recognize_cards_attributes :
  forall (obs : Observation) (w : World) (r : Recognizer.CardRecognizer),
    (img_size obs.(screen_recognize) =? 0) = false ->
    let run := Recognizer.recognize_cards obs None (w, r) in
    let heap' := (fst (snd run)).(heap) in
    let g' := (snd (snd run)).(Recognizer.game_state) in
    exists cards : list nat,
      fst run = Ok cards /\
      Forall
        (fun c =>
           let card := deref heap' c in
           In card.(Card.name)
              (map fst r.(Recognizer.template_matcher).(Matcher.templates)) /\
           (7 # 10 < card.(Card.confidence))%Q /\
           1 <= card.(Card.cost) <= 5 /\
           card.(Card.rarity) = Card.from_cost card.(Card.cost) /\
           card.(Card.rarity) <> Card.UNKNOWN /\
           card.(Card.rarity) <> Card.SPATULA /\
           card.(Card.classes) = [] /\
           exists (k : nat) (region : Region),
             r.(Recognizer.shop_regions) !! k = Some region /\
             card.(Card.shop_index) = Some (Z.of_nat k) /\
             card.(Card.position) = region_centre region)
        cards /\
      map (fun s => Some s.(GameState.slot_index)) g'.(GameState.shop_slots)
        = map (fun c => (deref heap' c).(Card.shop_index)) cards /\
      Forall (fun s => s.(GameState.has_card) = true)
             g'.(GameState.shop_slots).
Proof.
  intros obs w r Hframe run heap' g'. subst run heap' g'.
  rewrite (recognize_cards_run obs w r Hframe).
  cbn [fst snd heap Recognizer.game_state GameState.shop_slots].
  set (found := RecognitionSpec.slot_cards _ obs 0 _).
  eexists. split; [ reflexivity | ].
  assert (Hderef :
    map (deref (w.(heap) ++ map snd found))
        (seq (length w.(heap)) (length found)) = map snd found).
  { rewrite <- (length_map snd found) at 1. apply deref_new_objects. }
  assert (Hfound : forall i region c, In (i, region, c) found ->
            exists k : nat,
              i = Z.of_nat k /\
              r.(Recognizer.shop_regions) !! k = Some region /\
              RecognitionSpec.slot_card r.(Recognizer.template_matcher)
                                        obs i region = Some c).
  { intros i region c Hin. apply slot_cards_In in Hin.
    destruct Hin as (k & -> & Hk & Hc). exists k. now repeat split. }
  split; [ | split ].
  - apply List.Forall_forall. intros c Hc.
    apply (in_map (deref (w.(heap) ++ map snd found))) in Hc.
    rewrite Hderef in Hc. apply in_map_iff in Hc.
    destruct Hc as ([[i region] card] & Hcard & Hin). cbn [snd] in Hcard.
    cbv zeta. rewrite <- Hcard.
    destruct (Hfound i region card Hin) as (k & -> & Hk & Hslot).
    apply slot_card_attributes in Hslot.
    destruct Hslot as (Hname & Hconf & Hcost & Hrar & Hcls & Hpos & Hidx).
    repeat split; try assumption; try lia.
    + rewrite Hrar. intros Hunk.
      assert (Hcases : card.(Card.cost) = 1 \/ card.(Card.cost) = 2 \/
                       card.(Card.cost) = 3 \/ card.(Card.cost) = 4 \/
                       card.(Card.cost) = 5) by lia.
      destruct Hcases as [ E | [ E | [ E | [ E | E ] ] ] ];
        rewrite E in Hunk; discriminate Hunk.
    + rewrite Hrar. intros Hunk.
      assert (Hcases : card.(Card.cost) = 1 \/ card.(Card.cost) = 2 \/
                       card.(Card.cost) = 3 \/ card.(Card.cost) = 4 \/
                       card.(Card.cost) = 5) by lia.
      destruct Hcases as [ E | [ E | [ E | [ E | E ] ] ] ];
        rewrite E in Hunk; discriminate Hunk.
    + now exists k, region.
  - rewrite <- (map_map (deref _) Card.shop_index), Hderef, !map_map.
    apply Forall_fmap_ext. apply List.Forall_forall.
    intros [[i region] card] Hin. cbn [RecognitionSpec.slot_entry
      GameState.slot_index snd].
    destruct (Hfound i region card Hin) as (k & -> & Hk & Hslot).
    apply slot_card_attributes in Hslot.
    now destruct Hslot as (_ & _ & _ & _ & _ & _ & ->).
  - apply List.Forall_forall. intros s Hs. apply in_map_iff in Hs.
    now destruct Hs as ([[i region] card] & <- & _).
Qed.

End RecognizedCards.

(** On the worked scene, the pass finds the one card of the fifth slot. *)
Lemma recognize_cards_attributes_witness :
  let obs := Scene.frame (1920, 1080) 100 in
  let r := (snd Scene.controller).(Automator.card_recognizer) in
  let run := Recognizer.recognize_cards
               (cv := TestDouble.cv) (py := TestDouble.py) obs None
               (fst Scene.controller, r) in
  (img_size obs.(screen_recognize) =? 0) = false /\
  exists cards : list nat,
    fst run = Ok cards /\
    Forall
      (fun c =>
         let card := deref (fst (snd run)).(heap) c in
         In card.(Card.name)
            (map fst r.(Recognizer.template_matcher).(Matcher.templates)) /\
         (7 # 10 < card.(Card.confidence))%Q /\
         1 <= card.(Card.cost) <= 5 /\
         card.(Card.rarity) = Card.from_cost card.(Card.cost) /\
         card.(Card.rarity) <> Card.UNKNOWN /\
         card.(Card.rarity) <> Card.SPATULA /\
         card.(Card.classes) = [] /\
         exists (k : nat) (region : Region),
           r.(Recognizer.shop_regions) !! k = Some region /\
           card.(Card.shop_index) = Some (Z.of_nat k) /\
           card.(Card.position) = region_centre region)
      cards /\
    map (fun s => Some s.(GameState.slot_index))
        (snd (snd run)).(Recognizer.game_state).(GameState.shop_slots)
      = map (fun c => (deref (fst (snd run)).(heap) c).(Card.shop_index))
            cards /\
    Forall (fun s => s.(GameState.has_card) = true)
           (snd (snd run)).(Recognizer.game_state).(GameState.shop_slots).
Proof.
  intros obs r run. split; [ reflexivity | ].
  apply (recognize_cards_attributes
           (cv := TestDouble.cv) (py := TestDouble.py) obs
           (fst Scene.controller) r).
  reflexivity.
Defined.

(** ** The monitor loop *)

Lemma same_controls_refl (a : Automator.GameAutomator) : same_controls a a.
Proof. unfold same_controls. now repeat split. Qed.

Lemma same_controls_trans (a b c : Automator.GameAutomator) :
  same_controls a b -> same_controls b c -> same_controls a c.
Proof.
  unfold same_controls.
  intros (H1 & H2 & H3 & H4 & H5 & H6 & H7 & H8)
         (K1 & K2 & K3 & K4 & K5 & K6 & K7 & K8).
  repeat split; congruence.
Qed.

Section LoopFacts.
Context `{cv : OpenCV} `{py : PyBuiltins}.

(** Recognition only ever adds objects to the store. *)
Lemma refresh_heap_grows (obs : Observation) (w : World)
    (r : Recognizer.CardRecognizer) :
  (length w.(heap)
   <= length (fst (snd (Recognizer.refresh_and_recognize obs (w, r)))).(heap))%nat.
Proof.
  destruct (refresh_and_recognize_run obs w r) as (res & g1 & _ & _ & ->).
  destruct res as [ is_shop | e ]; [ | reflexivity ].
  destruct (GameState.phase_eqb _ _); [ | reflexivity ].
  destruct (img_size obs.(screen_recognize) =? 0) eqn:Hframe.
  - now rewrite (recognize_cards_no_frame obs _ Hframe).
  - rewrite (recognize_cards_run obs w _ Hframe). cbn [fst snd heap].
    rewrite length_app. lia.
Qed.

(** [_pick_card] writes the pick bookkeeping and nothing else of the
    controller, and adds no object to the store. *)
Lemma pick_card_frame (obs : Observation) (card : nat) (w : World)
    (a : Automator.GameAutomator) :
  let '(res, (w', a')) := Automator._pick_card obs card (w, a) in
  same_controls a a' /\
  a'.(Automator.card_recognizer) = a.(Automator.card_recognizer) /\
  length w'.(heap) = length w.(heap) /\
  (same_picks a a' \/ one_more_pick obs.(time_picked) a a').
Proof.
  unfold Automator._pick_card.
  unfold bind at 1, on_field at 1, Recognizer.get_card_position at 1.
  cbn [fst snd].
  replace (Automator.with_card_recognizer a.(Automator.card_recognizer) a)
    with a by (now destruct a).
  destruct (deref w.(heap) card).(Card.position) as [x y].
  destruct ((x =? 0) && (y =? 0)).
  { cbn. split; [ apply same_controls_refl | ].
    repeat split. left. now repeat split. }
  unfold bind at 1, emit at 1. cbn [fst snd heap events].
  unfold Mouse.click_card.
  destruct (Mouse.is_on_screen obs.(screen_size) x y 10); cbn [negb].
  2:{ unfold bind, emit, ret. cbn [fst snd heap events].
      split; [ apply same_controls_refl | ].
      repeat split. left. now repeat split. }
  destruct obs.(random_offset) as [offset_x offset_y].
  unfold bind at 1, emit at 1. cbn [fst snd heap events].
  unfold bind at 1, mutate at 1. cbn [fst snd heap events].
  unfold bind at 1, update at 1. cbn [fst snd].
  unfold bind at 1, self at 1. cbn [fst snd Automator.with_picks
                                    Automator.pick_callback].
  assert (Hlen : length (alter Card.select card w.(heap)) = length w.(heap))
    by apply length_alter.
  destruct a.(Automator.pick_callback).
  - unfold bind at 1. unfold bind at 1, emit at 1.
    cbn [fst snd heap events].
    destruct obs.(callback_raises); cbn;
      (split; [ unfold same_controls; cbn; now repeat split | ]);
      (split; [ reflexivity | ]); (split; [ exact Hlen | ]);
      right; unfold one_more_pick; cbn; now repeat split.
  - cbn. split; [ unfold same_controls; cbn; now repeat split | ].
    split; [ reflexivity | ]. split; [ exact Hlen | ].
    right. unfold one_more_pick. cbn. now repeat split.
Qed.

(** One tick writes the recognizer and the pick bookkeeping and nothing
    else of the controller. *)
Lemma process_shop_phase_frame (obs : Observation) (w : World)
    (a : Automator.GameAutomator) :
  let '(res, (w', a')) := Automator._process_shop_phase obs (w, a) in
  same_controls a a' /\
  (length w.(heap) <= length w'.(heap))%nat /\
  (same_picks a a' \/ one_more_pick obs.(time_picked) a a').
Proof.
  unfold Automator._process_shop_phase.
  unfold bind at 1, self at 1. cbn [fst snd].
  destruct (negb _).
  { cbn. split; [ apply same_controls_refl | ].
    split; [ lia | left; now repeat split ]. }
  unfold bind at 1, on_field at 1. cbn [fst snd].
  pose proof (refresh_heap_grows obs w a.(Automator.card_recognizer))
    as Hgrow.
  destruct (Recognizer.refresh_and_recognize obs _) as [rres [w1 r1]].
  cbn [fst snd] in Hgrow.
  set (a1 := Automator.with_card_recognizer r1 a).
  assert (Hctl : same_controls a a1)
    by (subst a1; unfold same_controls; cbn; now repeat split).
  assert (Hsame : same_picks a a1)
    by (subst a1; unfold same_picks; cbn; now repeat split).
  assert (Hquiet :
    same_controls a a1 /\ (length w.(heap) <= length w1.(heap))%nat /\
    (same_picks a a1 \/ one_more_pick obs.(time_picked) a a1))
    by (split; [ exact Hctl | split; [ exact Hgrow | now left ] ]).
  destruct rres as [ cards | e ]; [ | exact Hquiet ].
  destruct (Py.is_empty cards); [ exact Hquiet | ].
  unfold bind at 1, self at 1. cbn [fst snd].
  unfold bind at 1, Automator.world at 1. cbn [fst snd].
  destruct (Strategy.execute_selection _ _ _) as [ card | ];
    [ | exact Hquiet ].
  unfold bind at 1.
  destruct (can_pick_run obs (w1, a1)) as (can & -> & _).
  destruct can; [ | exact Hquiet ].
  unfold bind at 1.
  pose proof (pick_card_frame obs card w1 a1) as Hpick.
  destruct (Automator._pick_card obs card (w1, a1)) as [pres [w2 a2]].
  destruct Hpick as (Hctl2 & _ & Hlen & Hpicks).
  assert (Hgoal :
    same_controls a a2 /\ (length w.(heap) <= length w2.(heap))%nat /\
    (same_picks a a2 \/ one_more_pick obs.(time_picked) a a2)).
  { split; [ now apply same_controls_trans with a1 | ].
    split; [ lia | ].
    destruct Hsame as (S1 & S2 & S3).
    destruct Hpicks as [ (P1 & P2 & P3) | (P1 & P2 & P3) ].
    - left. unfold same_picks. repeat split; congruence.
    - right. unfold one_more_pick. repeat split; congruence. }
  destruct pres as [ [] | e ]; exact Hgoal.
Qed.



(** With the stop flag set the loop ends at once. With the pause flag set,
    or with a game state that is not active, every pass only sleeps (0.1 s
    when paused, the detection interval otherwise): the screen is not
    captured, the phase is not detected, and neither the controller nor the
    store changes. *)
Theorem monitor_loop_idle :
  forall (obss : list Observation) (w : World)
         (a : Automator.GameAutomator),
    a.(Automator._stop_event) = true \/
    a.(Automator._pause_event) = true \/
    (Automator.game_state a).(GameState.is_active) = false ->
    Automator._monitor_loop obss (w, a) =
    (Ok tt,
     ({| heap := w.(heap);
         events :=
           w.(events) ++
           (if a.(Automator._stop_event) then []
            else repeat (Sleep (if a.(Automator._pause_event)
                                then 1 # 10
                                else a.(Automator.detect_interval)))
                        (length obss)) |},
      a)).
Proof.
  intros obss w a Hidle. revert w.
  induction obss as [ | obs rest IH ]; intros w.
  - cbn. destruct a.(Automator._stop_event); cbn; rewrite app_nil_r;
      now destruct w.
  - cbn [Automator._monitor_loop]. unfold bind at 1.
    unfold Automator._monitor_loop_pass.
    unfold bind at 1, self at 1. cbn [fst snd].
    destruct a.(Automator._stop_event) eqn:Hstop.
    { cbn. rewrite app_nil_r. now destruct w. }
    destruct a.(Automator._pause_event) eqn:Hpause.
    { unfold bind at 1, emit at 1. cbn [fst snd ret heap events].
      rewrite IH, ?Hstop, ?Hpause. cbn [heap events length repeat].
      now rewrite <- app_assoc. }
    destruct Hidle as [ Hs | [ Hp | Hinactive ] ]; try discriminate.
    unfold bind at 1, try_except, Automator._process_shop_phase.
    unfold bind at 1, self at 1. cbn [fst snd].
    rewrite Hinactive. cbn [negb ret].
    unfold bind at 1, self at 1. cbn [fst snd].
    unfold bind at 1, emit at 1. cbn [fst snd heap events ret].
    rewrite IH, ?Hstop, ?Hpause. cbn [heap events length repeat].
    now rewrite <- app_assoc.
Qed.

End LoopFacts.

(** A controller as constructed, started or not, shown two shop frames:
    its game state is not active, so the loop sleeps twice and does no
    more. *)
Lemma monitor_loop_idle_witness :
  Automator._monitor_loop (cv := TestDouble.cv) (py := TestDouble.py)
    [Scene.frame (1920, 1080) 100; Scene.frame (1920, 1080) 101]
    (fresh_world, Automator.init)
  = (Ok tt,
     ({| heap := []; events := [Sleep (3 # 10); Sleep (3 # 10)] |},
      Automator.init)).
Proof.
  apply (monitor_loop_idle (cv := TestDouble.cv) (py := TestDouble.py)
           [Scene.frame (1920, 1080) 100; Scene.frame (1920, 1080) 101]
           fresh_world Automator.init).
  right. right. reflexivity.
Defined.

(** ** Lifecycle calls in sequence *)

(** The state and the flags stay consistent under the four lifecycle calls,
    from construction on: the state is never Detecting; Running and Paused
    hold a thread with the stop flag clear, and the pause flag is set
    exactly in Paused; a Stopped controller that ever held a thread has the
    stop flag set. The pick bookkeeping, the cooldown, the interval, the
    strategy manager and the recognizer are not touched by any of the
    calls. *)
Theorem lifecycle_calls_keep_consistency :
  lifecycle_consistent Automator.init /\
  forall (call : M Automator.GameAutomator bool),
    (call = Automator.start_auto_picker \/
     (exists alive, call = Automator.stop_auto_picker alive) \/
     call = Automator.pause_auto_picker \/
     call = Automator.resume_auto_picker) ->
    forall (w : World) (a : Automator.GameAutomator),
      let a' := snd (snd (call (w, a))) in
      (lifecycle_consistent a -> lifecycle_consistent a') /\
      same_picks a a' /\
      a'.(Automator.pick_cooldown) = a.(Automator.pick_cooldown) /\
      a'.(Automator.detect_interval) = a.(Automator.detect_interval) /\
      a'.(Automator.strategy_manager) = a.(Automator.strategy_manager) /\
      a'.(Automator.card_recognizer) = a.(Automator.card_recognizer) /\
      a'.(Automator.pick_callback) = a.(Automator.pick_callback).
Proof.
  split; [ cbn; now right | ].
  intros call Hcall w a.
  destruct Hcall as [ -> | [ [alive ->] | [ -> | -> ] ] ]; cbv zeta.
  - unfold Automator.start_auto_picker, bind, self, lifecycle_consistent.
    cbn [fst snd].
    destruct a.(Automator.auto_picker_state) eqn:Hst; cbn;
      rewrite ?Hst; unfold same_picks; cbn; repeat split; auto;
      try discriminate; intuition congruence.
  - unfold Automator.stop_auto_picker, bind, self, lifecycle_consistent.
    cbn [fst snd].
    destruct a.(Automator.auto_picker_state) eqn:Hst; cbn;
      rewrite ?Hst;
      try (destruct a.(Automator._monitor_thread); [ destruct alive | ]);
      unfold same_picks; cbn; rewrite ?Hst; repeat split; auto;
      intuition congruence.
  - unfold Automator.pause_auto_picker, bind, self, lifecycle_consistent.
    cbn [fst snd].
    destruct a.(Automator.auto_picker_state) eqn:Hst; cbn;
      rewrite ?Hst; unfold same_picks; cbn; repeat split; auto;
      intuition congruence.
  - unfold Automator.resume_auto_picker, bind, self, lifecycle_consistent.
    cbn [fst snd].
    destruct a.(Automator.auto_picker_state) eqn:Hst; cbn;
      rewrite ?Hst; unfold same_picks; cbn; repeat split; auto;
      intuition congruence.
Qed.

(** Pausing a running controller and resuming it gives back the controller
    as it was: both calls answer [True] and no thread is started or
    joined. *)
Theorem pause_then_resume_restores :
  forall (w : World) (a : Automator.GameAutomator),
    a.(Automator.auto_picker_state) = Automator.RUNNING ->
    lifecycle_consistent a ->
    then_run Automator.pause_auto_picker Automator.resume_auto_picker (w, a)
    = (Ok true, Ok true, (w, a)).
Proof.
  intros w a Hrun Hok. unfold lifecycle_consistent in Hok.
  rewrite Hrun in Hok. destruct Hok as (Hstop & Hpause & _).
  unfold then_run, Automator.pause_auto_picker,
    Automator.resume_auto_picker, bind, self, update, ret.
  cbn [fst snd]. rewrite Hrun.
  cbn [Automator.state_eqb negb fst snd Automator.with_lifecycle
       Automator.auto_picker_state Automator._monitor_thread
       Automator._stop_event].
  destruct a; cbn in *. subst. reflexivity.
Qed.

(** A controller that was just started. *)
Lemma pause_then_resume_restores_witness :
  let s := snd (Automator.start_auto_picker (fresh_world, Automator.init)) in
  then_run Automator.pause_auto_picker Automator.resume_auto_picker s
  = (Ok true, Ok true, s).
Proof.
  intros s.
  apply (pause_then_resume_restores (fst s) (snd s)).
  - reflexivity.
  - cbn. repeat split. discriminate.
Defined.

(** ** Picks by hand, and the settings *)

Section ManualPick.
Context `{cv : OpenCV} `{py : PyBuiltins}.

(** [manual_pick] does not consult the cooldown: whenever it does not
    answer [False] it has clicked, counted the pick and stamped its time,
    whatever the time of the pick before. The cooldown then runs from that
    stamp: a tick of the monitor loop that reads the clock less than one
    cooldown later dispatches nothing and counts nothing. *)
Theorem manual_pick_restarts_cooldown :
  forall (obs obs2 : Observation) (card : nat) (w : World)
         (a : Automator.GameAutomator),
    let run := Automator.manual_pick obs card (w, a) in
    fst run <> Ok false ->
    (obs2.(time_check) - obs.(time_picked) < a.(Automator.pick_cooldown))%Q ->
    let s1 := snd run in
    let s2 := snd (Automator._process_shop_phase obs2 s1) in
    one_more_pick obs.(time_picked) a (snd s1) /\
    dispatched (fst s1).(events)
      = dispatched w.(events) ++ [(deref w.(heap) card).(Card.position)] /\
    dispatched (fst s2).(events) = dispatched (fst s1).(events) /\
    same_picks (snd s1) (snd s2).
Proof.
  intros obs obs2 card w a run Hres Hsoon s1 s2. subst s2 s1 run.
  unfold Automator.manual_pick in *.
  pose proof (pick_card_run obs card w a) as Hpick.
  destruct (deref w.(heap) card).(Card.position) as [x y].
  destruct (Automator._pick_card obs card (w, a)) as [res [w1 a1]].
  cbn [fst snd] in *.
  destruct ((x =? 0) && (y =? 0)).
  { destruct Hpick as (-> & _). now contradiction Hres. }
  destruct (Mouse.is_on_screen obs.(screen_size) x y 10).
  2:{ destruct Hpick as (-> & _). now contradiction Hres. }
  destruct Hpick as (_ & Hdisp & _ & Hmore & Hcd).
  split; [ exact Hmore | ]. split; [ exact Hdisp | ].
  pose proof (process_shop_phase_outcome obs2 w1 a1) as Htick.
  destruct (Automator._process_shop_phase obs2 (w1, a1)) as [tres [w2 a2]].
  cbn [fst snd].
  destruct Htick as (_ & [ Hquiet | (x2 & y2 & _ & Hcool & _) ]);
    [ exact Hquiet | ].
  exfalso. unfold cooled_down in Hcool.
  destruct Hmore as (_ & _ & Hstamp). rewrite Hstamp, Hcd in Hcool.
  now apply (Qlt_not_le _ _ Hsoon).
Qed.

End ManualPick.

(** On the worked scene: the card recognised in the fifth slot is picked by
    hand at 100.0 s, and the tick at 100.1 s leaves it at that. *)
Lemma manual_pick_restarts_cooldown_witness :
  let obs := Scene.frame (1920, 1080) 100 in
  let obs2 := Scene.frame (1920, 1080) (1001 # 10) in
  let run := Automator.manual_pick obs 0 Scene.controller in
  let s2 := snd (Automator._process_shop_phase
                   (cv := TestDouble.cv) (py := TestDouble.py) obs2
                   (snd run)) in
  fst run = Ok true /\
  dispatched (fst (snd run)).(events) = [(1075, 600)] /\
  dispatched (fst s2).(events) = [(1075, 600)].
Proof.
  intros obs obs2 run s2.
  destruct (manual_pick_restarts_cooldown
              (cv := TestDouble.cv) (py := TestDouble.py)
              obs obs2 0 (fst Scene.controller) (snd Scene.controller))
    as (_ & Hfirst & Hsecond & _).
  - vm_compute. discriminate.
  - vm_compute. reflexivity.
  - split; [ vm_compute; reflexivity | ].
    change (fst Scene.controller, snd Scene.controller)
      with Scene.controller in *.
    fold run in Hfirst, Hsecond. fold s2 in Hsecond.
    split; [ rewrite Hfirst | rewrite Hsecond, Hfirst ];
      vm_compute; reflexivity.
Defined.

Lemma dict_set_present_keys {V} (k : string) (v : V)
    (d : list (string * V)) :
  Py.dict_get String.eqb k d <> None ->
  map fst (Py.dict_set String.eqb k v d) = map fst d.
Proof.
  induction d as [ | [k' v'] d IH ]; cbn; [ congruence | ].
  destruct (String.eqb k' k) eqn:Hk; cbn.
  - apply String.eqb_eq in Hk. now subst.
  - intros Hin. now rewrite IH.
Qed.

(** [GameAutomator.set_priority_list] acts only when the current strategy
    is a priority strategy: it then replaces the priority list of that
    strategy, keeping its cost limit and its cost preference, and leaves
    the other registered strategies and the order of registration alone.
    With a cost-balance or comp-building strategy current, or none, the
    call changes nothing. It never changes the world. *)
Theorem automator_set_priority_list_scope :
  forall (priority_list : list string) (w : World)
         (a : Automator.GameAutomator),
    let s' := snd (Automator.set_priority_list priority_list (w, a)) in
    let m := a.(Automator.strategy_manager) in
    let m' := (snd s').(Automator.strategy_manager) in
    fst s' = w /\
    match Strategy.get_current_strategy m with
    | Some (Strategy.Priority p) =>
        Strategy.get_current_strategy m'
          = Some (Strategy.Priority
                    {| Strategy.priority_list := priority_list;
                       Strategy.max_cost := p.(Strategy.max_cost);
                       Strategy.prefer_higher_cost :=
                         p.(Strategy.prefer_higher_cost) |}) /\
        m'.(Strategy.current_strategy_name)
          = m.(Strategy.current_strategy_name) /\
        Strategy.get_available_strategies m'
          = Strategy.get_available_strategies m /\
        (forall n, Some n <> m.(Strategy.current_strategy_name) ->
           Py.dict_get String.eqb n m'.(Strategy.strategies)
           = Py.dict_get String.eqb n m.(Strategy.strategies)) /\
        same_picks a (snd s') /\
        (snd s').(Automator.card_recognizer) = a.(Automator.card_recognizer)
    | _ => snd s' = a
    end.
Proof.
  intros priority_list w a s' m m'. subst s' m m'.
  unfold Automator.set_priority_list, update. cbn [fst snd].
  split; [ reflexivity | ].
  unfold Strategy.get_current_strategy.
  destruct a.(Automator.strategy_manager).(Strategy.current_strategy_name)
    as [ n | ] eqn:Hname; [ | reflexivity ].
  destruct (String.eqb n "") eqn:Hempty; [ reflexivity | ].
  destruct (Py.dict_get String.eqb n _) as [ [ p | c | c ] | ] eqn:Hget;
    try reflexivity.
  cbn [Automator.strategy_manager Strategy.current_strategy_name
       Strategy.strategies Automator.card_recognizer].
  rewrite Hempty, dict_get_set_eq.
  split; [ reflexivity | ]. split; [ reflexivity | ].
  split; [ | split; [ | split; [ unfold same_picks; now repeat split
                               | reflexivity ] ] ].
  - unfold Strategy.get_available_strategies. cbn [Strategy.strategies].
    apply dict_set_present_keys. congruence.
  - intros n0 Hn0. apply dict_get_set_ne. congruence.
Qed.

Section Settings.
Context `{cv : OpenCV} `{py : PyBuiltins}.

(** Neither the cooldown nor the detection interval can be set below
    0.1 s; a value above 0.1 s is taken as given. Whatever cooldown
    is asked for, [_can_pick] refuses a pick less than 0.1 s after the one
    before; whatever interval is asked for, a pass of the loop that is
    neither stopped nor paused ends with a sleep of at least 0.1 s. *)
Theorem timing_floors :
  forall (value : Q) (obs : Observation) (w : World)
         (a : Automator.GameAutomator),
    let paced := snd (Automator.set_pick_cooldown value (w, a)) in
    let timed := snd (Automator.set_detect_interval value (w, a)) in
    (snd paced).(Automator.pick_cooldown)
      = (if Py.Qltb (1 # 10) value then value else 1 # 10) /\
    (snd timed).(Automator.detect_interval)
      = (if Py.Qltb (1 # 10) value then value else 1 # 10) /\
    (1 # 10 <= (snd paced).(Automator.pick_cooldown))%Q /\
    (1 # 10 <= (snd timed).(Automator.detect_interval))%Q /\
    (forall last : Q,
       a.(Automator.last_pick_time) = Some last ->
       (obs.(time_check) - last < 1 # 10)%Q ->
       Automator._can_pick obs paced = (Ok false, paced)) /\
    (a.(Automator._stop_event) = false ->
     a.(Automator._pause_event) = false ->
     exists es d,
       (fst (snd (Automator._monitor_loop_pass obs timed))).(events)
         = es ++ [Sleep d] /\
       (1 # 10 <= d)%Q).
Proof.
  intros value obs w a paced timed. subst paced timed.
  unfold Automator.set_pick_cooldown, Automator.set_detect_interval, update.
  cbn [fst snd Automator.with_pick_cooldown Automator.pick_cooldown
       Automator.detect_interval].
  assert (Hmax : Qmax (1 # 10) value
                 = if Py.Qltb (1 # 10) value then value else 1 # 10).
  { unfold Qmax, GenericMinMax.gmax.
    destruct (Py.Qltb (1 # 10) value) eqn:Hlt.
    - apply Qltb_lt in Hlt.
      now rewrite (proj1 (Qlt_alt (1 # 10) value) Hlt).
    - apply Qltb_ge in Hlt.
      pose proof (proj1 (Qge_alt (1 # 10) value) Hlt) as Hcmp.
      destruct (1 # 10 ?= value)%Q; [ reflexivity | | reflexivity ].
      now contradiction Hcmp. }
  assert (Hfloor : (1 # 10 <= Qmax (1 # 10) value)%Q)
    by apply Q.le_max_l.
  split; [ exact Hmax | ]. split; [ exact Hmax | ].
  split; [ exact Hfloor | ]. split; [ exact Hfloor | ].
  split.
  - intros last Hlast Hsoon.
    unfold Automator._can_pick, bind, self, ret.
    cbn [fst snd Automator.last_pick_time Automator.pick_cooldown
         Automator.with_pick_cooldown].
    rewrite Hlast.
    destruct (Qle_bool _ _) eqn:Hle; [ | reflexivity ].
    apply Qle_bool_iff in Hle. exfalso.
    apply (Qlt_not_le _ _ Hsoon). now apply Qle_trans with (2 := Hle).
  - intros Hstop Hpause.
    unfold Automator._monitor_loop_pass.
    unfold bind at 1, self at 1.
    cbn [fst snd Automator._stop_event Automator._pause_event].
    rewrite Hstop, Hpause.
    unfold bind at 1, try_except.
    pose proof (process_shop_phase_frame obs w
      (Automator.mkGameAutomator a.(Automator.card_recognizer)
         a.(Automator.strategy_manager) a.(Automator.auto_picker_state)
         a.(Automator.pick_callback) a.(Automator._monitor_thread)
         a.(Automator._stop_event) a.(Automator._pause_event)
         a.(Automator.pick_cooldown) (Qmax (1 # 10) value)
         a.(Automator.pick_count) a.(Automator.total_picks)
         a.(Automator.last_pick_time))) as Htick.
    rewrite Hstop, Hpause in Htick.
    destruct (Automator._process_shop_phase obs _) as [tres [w1 a1]].
    destruct Htick as ((_ & _ & _ & _ & _ & _ & _ & Hint) & _).
    cbn [Automator.detect_interval] in Hint.
    destruct tres as [ [] | e ]; cbn; rewrite Hint;
      exists w1.(events), (Qmax (1 # 10) value); now split.
Qed.

(** [reset_statistics] clears the session count and the time of the last
    pick, so the next [_can_pick] answers [True] at any clock reading: the
    cooldown of a pick made just before is lifted. The total count and
    everything else stay. *)
Theorem reset_statistics_lifts_cooldown :
  forall (obs : Observation) (w : World) (a : Automator.GameAutomator),
    let s' := snd (Automator.reset_statistics (w, a)) in
    Automator._can_pick obs s' = (Ok true, s') /\
    fst s' = w /\
    (snd s').(Automator.pick_count) = 0 /\
    (snd s').(Automator.last_pick_time) = None /\
    (snd s').(Automator.total_picks) = a.(Automator.total_picks) /\
    same_controls a (snd s') /\
    (snd s').(Automator.card_recognizer) = a.(Automator.card_recognizer).
Proof.
  intros obs w a s'. subst s'.
  unfold Automator.reset_statistics, update, Automator._can_pick, bind,
    self, ret, same_controls.
  cbn. now repeat split.
Qed.

End Settings.

(** ** A pick, step by step *)

(** A pick of a card whose position is on screen and not (0, 0): the
    controller calls [click_card] with the position, the pointer clicks at
    the position moved by the random offset, the card object is marked
    selected, both counters go up and the time is stamped; only then is the
    callback called, if one is registered. A callback that raises makes
    [_pick_card] raise with the pick already counted. With offsets drawn
    from -10..10 the click lands within 10 pixels of the position and within
    20 pixels of the screen. *)
Theorem pick_card_counts_before_callback :
  forall (obs : Observation) (card : nat) (w : World)
         (a : Automator.GameAutomator) (x y : Z),
    (deref w.(heap) card).(Card.position) = (x, y) ->
    (x =? 0) && (y =? 0) = false ->
    Mouse.is_on_screen obs.(screen_size) x y 10 = true ->
    let run := Automator._pick_card obs card (w, a) in
    let w' := fst (snd run) in
    let tx := x + fst obs.(random_offset) in
    let ty := y + snd obs.(random_offset) in
    fst run = (if a.(Automator.pick_callback) && obs.(callback_raises)
               then Raised CallbackError else Ok true) /\
    w'.(events)
      = w.(events) ++ [ClickCard x y; Click tx ty]
        ++ (if a.(Automator.pick_callback) then [Callback card] else []) /\
    w'.(heap) = alter Card.select card w.(heap) /\
    ((card < length w.(heap))%nat ->
     (deref w'.(heap) card).(Card.is_selected) = true) /\
    one_more_pick obs.(time_picked) a (snd (snd run)) /\
    same_controls a (snd (snd run)) /\
    (-10 <= fst obs.(random_offset) <= 10 ->
     -10 <= snd obs.(random_offset) <= 10 ->
     -10 <= tx - x <= 10 /\ -10 <= ty - y <= 10 /\
     -20 <= tx <= fst obs.(screen_size) + 20 /\
     -20 <= ty <= snd obs.(screen_size) + 20).
Proof.
  intros obs card w a x y Hpos Hzero Hscreen run w' tx ty.
  assert (Hrun :
    run =
    (if a.(Automator.pick_callback) && obs.(callback_raises)
     then Raised CallbackError else Ok true,
     ({| heap := alter Card.select card w.(heap);
         events := w.(events) ++ [ClickCard x y; Click tx ty]
                   ++ (if a.(Automator.pick_callback)
                       then [Callback card] else []) |},
      Automator.with_picks (a.(Automator.pick_count) + 1)
                           (a.(Automator.total_picks) + 1)
                           (Some obs.(time_picked)) a))).
  { subst run tx ty. unfold Automator._pick_card.
    unfold bind at 1, on_field at 1, Recognizer.get_card_position at 1.
    cbn [fst snd].
    replace (Automator.with_card_recognizer a.(Automator.card_recognizer) a)
      with a by (now destruct a).
    rewrite Hpos, Hzero.
    unfold bind at 1, emit at 1. cbn [fst snd heap events].
    unfold Mouse.click_card. rewrite Hscreen. cbn [negb].
    destruct obs.(random_offset) as [offset_x offset_y]. cbn [fst snd].
    unfold bind at 1, emit at 1. cbn [fst snd heap events].
    unfold bind at 1, mutate at 1. cbn [fst snd heap events].
    unfold bind at 1, update at 1. cbn [fst snd].
    unfold bind at 1, self at 1. cbn [fst snd Automator.with_picks
                                      Automator.pick_callback].
    destruct a.(Automator.pick_callback).
    - unfold bind at 1. unfold bind at 1, emit at 1.
      cbn [fst snd heap events].
      destruct obs.(callback_raises); cbn;
        rewrite <- ?app_assoc; reflexivity.
    - cbn. rewrite <- ?app_assoc. reflexivity. }
  subst w'. rewrite Hrun. cbn [fst snd heap events].
  split; [ reflexivity | ]. split; [ reflexivity | ].
  split; [ reflexivity | ]. split.
  { intros Hcard. unfold deref. rewrite list_lookup_alter.
    destruct (lookup_lt_is_Some_2 w.(heap) card Hcard) as [c ->].
    destruct (decide (card = card)); [ reflexivity | congruence ]. }
  split; [ unfold one_more_pick; cbn; now repeat split | ].
  split; [ unfold same_controls; cbn; now repeat split | ].
  intros Hox Hoy. subst tx ty.
  unfold Mouse.is_on_screen in Hscreen.
  destruct obs.(screen_size) as [sw sh]. cbn [fst snd].
  apply andb_prop in Hscreen as [Hx Hy].
  apply andb_prop in Hx as [Hx0 Hx1]. apply andb_prop in Hy as [Hy0 Hy1].
  apply Z.leb_le in Hx0, Hx1, Hy0, Hy1. lia.
Qed.

(** On the worked scene the card of the fifth slot is clicked at its centre
    moved by the offset (3, -2). *)
Lemma pick_card_counts_before_callback_witness :
  let obs := Scene.frame (1920, 1080) 100 in
  let run := Automator._pick_card obs 0 Scene.controller in
  fst run = Ok true /\
  (fst (snd run)).(events)
    = (fst Scene.controller).(events)
      ++ [ClickCard 1075 600; Click 1078 598] ++ [].
Proof.
  intros obs run.
  destruct (pick_card_counts_before_callback obs 0
              (fst Scene.controller) (snd Scene.controller) 1075 600)
    as (Hres & Hev & _); [ reflexivity | reflexivity | reflexivity | ].
  split; [ exact Hres | exact Hev ].
Defined.

(** ** Marks and order of cards *)

Section CardOrder.
Context `{py : PyBuiltins}.

(** Selecting, deselecting, moving or indexing a card changes nothing that
    [==], [hash], [<] or [>] look at, on either side of the comparison.
    [<] and [>] compare costs alone and mirror each other; against anything
    that is not a card they answer NotImplemented. Two cards are unordered
    exactly when their costs agree, which is independent of [==]: that one
    goes by the name. *)
Theorem card_marks_keep_identity_and_order :
  (forall (c : Card.Card) (x y i : Z),
     Forall
       (fun mark : Card.Card -> Card.Card =>
          (mark c).(Card.name) = c.(Card.name) /\
          (mark c).(Card.cost) = c.(Card.cost) /\
          Card.hash (mark c) = Card.hash c /\
          forall (d : Card.Card) (o : Card.PyObject),
            Card.eq (mark c) o = Card.eq c o /\
            Card.lt (mark c) o = Card.lt c o /\
            Card.gt (mark c) o = Card.gt c o /\
            Card.eq d (Card.OCard (mark c)) = Card.eq d (Card.OCard c) /\
            Card.lt d (Card.OCard (mark c)) = Card.lt d (Card.OCard c) /\
            Card.gt d (Card.OCard (mark c)) = Card.gt d (Card.OCard c))
       [Card.select; Card.deselect; Card.set_position x y;
        Card.set_shop_index i]) /\
  (forall a b : Card.Card,
     Card.lt a (Card.OCard b) = Card.gt b (Card.OCard a) /\
     (Card.lt a (Card.OCard b) = Some true ->
      Card.gt a (Card.OCard b) = Some false) /\
     (Card.lt a (Card.OCard b) = Some false /\
      Card.gt a (Card.OCard b) = Some false <->
      a.(Card.cost) = b.(Card.cost))) /\
  (forall (a : Card.Card) (o : Card.PyObject),
     (forall b, o <> Card.OCard b) ->
     Card.lt a o = None /\ Card.gt a o = None /\ Card.eq a o = false) /\
  (forall (n : string) (cost1 cost2 : Z),
     cost1 < cost2 ->
     let a := example_card n cost1 in
     let b := example_card n cost2 in
     Card.eq a (Card.OCard b) = true /\
     Card.lt a (Card.OCard b) = Some true).
Proof.
  split; [ | split; [ | split ] ].
  - intros c x y i.
    repeat constructor; intros; (destruct o; cbn; repeat split).
  - intros a b. unfold Card.lt, Card.gt.
    split; [ reflexivity | split ].
    + intros Hlt. injection Hlt as Hlt. apply Z.ltb_lt in Hlt.
      f_equal. apply Z.ltb_ge. lia.
    + split.
      * intros [Hlt Hgt]. injection Hlt as Hlt. injection Hgt as Hgt.
        apply Z.ltb_ge in Hlt, Hgt. lia.
      * intros Hcost. rewrite Hcost, Z.ltb_irrefl. now split.
  - intros a o Hnot. destruct o as [ b | s | n | ]; cbn;
      [ now contradiction (Hnot b) | | | ]; now repeat split.
  - intros n cost1 cost2 Hlt a b. subst a b. unfold Card.eq, Card.lt. cbn.
    split; [ apply String.eqb_refl | ].
    f_equal. now apply Z.ltb_lt.
Qed.

End CardOrder.

(** ** The stored priority list and decks *)

Lemma list_remove_first (x : string) (before after : list string) :
  ~ In x before ->
  Py.list_remove x (before ++ x :: after) = before ++ after.
Proof.
  induction before as [ | y before IH ]; intros Hnot; cbn.
  - now rewrite String.eqb_refl.
  - destruct (String.eqb y x) eqn:Hy.
    + apply String.eqb_eq in Hy. exfalso. apply Hnot. now left.
    + rewrite IH; [ reflexivity | ]. intros Hin. apply Hnot. now right.
Qed.

Lemma first_occurrence_split (x : string) (l : list string) :
  In x l ->
  exists before after, l = before ++ x :: after /\ ~ In x before.
Proof.
  induction l as [ | y l IH ]; [ intros [] | ].
  intros Hin. destruct (String.eqb y x) eqn:Hy.
  - apply String.eqb_eq in Hy. subst y. exists [], l. now split.
  - apply String.eqb_neq in Hy.
    destruct Hin as [ Heq | Hin ]; [ contradiction | ].
    destruct (IH Hin) as (before & after & -> & Hnot).
    exists (y :: before), after. split; [ reflexivity | ].
    intros [ Heq | Hb ]; [ contradiction | now apply Hnot ].
Qed.

(** Where [add_to_priority] puts a new name. *)
Lemma add_to_priority_split (card_name : string) (position : option Z)
    (self : CardConfig.CardConfigManager) :
  Py.contains card_name self.(CardConfig._priority_list) = false ->
  exists before after,
    self.(CardConfig._priority_list) = before ++ after /\
    (CardConfig.add_to_priority card_name position self)
      .(CardConfig._priority_list) = before ++ card_name :: after /\
    Py.len before
      = match position with
        | None => Py.len self.(CardConfig._priority_list)
        | Some p =>
            if p <? 0
            then Z.max 0 (p + Py.len self.(CardConfig._priority_list))
            else Z.min p (Py.len self.(CardConfig._priority_list))
        end.
Proof.
  intros Hnew. unfold CardConfig.add_to_priority. rewrite Hnew.
  set (l := self.(CardConfig._priority_list)).
  assert (Hend : exists before after,
            l = before ++ after /\ l ++ [card_name] = before ++ card_name :: after /\
            Py.len before = Py.len l).
  { exists l, []. now rewrite app_nil_r. }
  destruct position as [ p | ].
  - destruct (Py.len l <=? p) eqn:Hp.
    + apply Z.leb_le in Hp.
      destruct Hend as (before & after & H1 & H2 & H3).
      exists before, after. cbn [CardConfig.with_priority_list
                                 CardConfig._priority_list].
      split; [ exact H1 | split; [ exact H2 | ] ].
      assert (0 <= Py.len l) by (unfold Py.len; lia).
      destruct (Z.ltb_spec p 0); lia.
    + apply Z.leb_gt in Hp.
      cbn [CardConfig.with_priority_list CardConfig._priority_list].
      unfold Py.list_insert. fold (Py.len l).
      set (i := if p <? 0 then Z.max 0 (p + Py.len l)
                else Z.min p (Py.len l)).
      exists (firstn (Z.to_nat i) l), (skipn (Z.to_nat i) l).
      split; [ now rewrite firstn_skipn | split; [ reflexivity | ] ].
      unfold Py.len. rewrite length_firstn.
      assert (0 <= i <= Py.len l)
        by (subst i; unfold Py.len in *; destruct (Z.ltb_spec p 0); lia).
      unfold Py.len in *. lia.
  - destruct Hend as (before & after & H1 & H2 & H3).
    exists before, after. now repeat split.
Qed.

(** [add_to_priority] ignores a name that is already listed, position
    included; a new name goes in once, at the place Python's [insert] gives
    it (the end for no position or one past the end, counted from the end
    for a negative one), and removing it again gives back the manager as it
    was. [remove_from_priority] answers whether the name was listed and
    removes its first occurrence only. A list without repeats stays
    without repeats under both, and then no longer holds a removed name.
    The decks are not touched. *)
Theorem priority_list_edits :
  forall (card_name : string) (position : option Z)
         (self : CardConfig.CardConfigManager),
    let l := self.(CardConfig._priority_list) in
    let added := CardConfig.add_to_priority card_name position self in
    let removed := CardConfig.remove_from_priority card_name self in
    added.(CardConfig._custom_decks) = self.(CardConfig._custom_decks) /\
    (snd removed).(CardConfig._custom_decks)
      = self.(CardConfig._custom_decks) /\
    (if Py.contains card_name l
     then added = self /\ fst removed = true /\
          exists before after,
            l = before ++ card_name :: after /\ ~ In card_name before /\
            (snd removed).(CardConfig._priority_list) = before ++ after
     else removed = (false, self) /\
          CardConfig.remove_from_priority card_name added = (true, self) /\
          exists before after,
            l = before ++ after /\
            added.(CardConfig._priority_list)
              = before ++ card_name :: after /\
            Py.len before
              = match position with
                | None => Py.len l
                | Some p => if p <? 0 then Z.max 0 (p + Py.len l)
                            else Z.min p (Py.len l)
                end) /\
    (List.NoDup l ->
     List.NoDup added.(CardConfig._priority_list) /\
     List.NoDup (snd removed).(CardConfig._priority_list) /\
     ~ In card_name (snd removed).(CardConfig._priority_list)).
Proof.
  intros card_name position self l added removed.
  destruct (Py.contains card_name l) eqn:Hlisted.
  - assert (Hadded : added = self)
      by (subst added l; unfold CardConfig.add_to_priority;
          now rewrite Hlisted).
    apply contains_In in Hlisted as Hin.
    destruct (first_occurrence_split card_name l Hin)
      as (before & after & Hl & Hnot).
    assert (Hremoved :
      removed = (true, CardConfig.with_priority_list (before ++ after) self)).
    { subst removed. unfold CardConfig.remove_from_priority.
      fold l. rewrite Hlisted. cbn [negb]. rewrite Hl.
      now rewrite list_remove_first. }
    rewrite Hadded, Hremoved. cbn [fst snd CardConfig.with_priority_list
      CardConfig._custom_decks CardConfig._priority_list].
    split; [ reflexivity | ]. split; [ reflexivity | ].
    split.
    + split; [ reflexivity | split; [ reflexivity | ] ].
      now exists before, after.
    + intros Hnd. split; [ exact Hnd | ].
      fold l in Hnd. rewrite Hl in Hnd.
      apply NoDup_remove in Hnd. exact Hnd.
  - destruct (add_to_priority_split card_name position self Hlisted)
      as (before & after & Hl & Hadded & Hlen).
    fold l in Hl, Hlen. fold added in Hadded.
    assert (Hnot : ~ In card_name l).
    { intros Hin. apply contains_In in Hin. fold l in Hlisted. congruence. }
    assert (Hremoved : removed = (false, self))
      by (subst removed l; unfold CardConfig.remove_from_priority;
          now rewrite Hlisted).
    assert (Hdecks : added.(CardConfig._custom_decks)
                     = self.(CardConfig._custom_decks)).
    { subst added. unfold CardConfig.add_to_priority.
      fold l. rewrite Hlisted.
      destruct position as [ p | ]; [ destruct (_ <=? p) | ]; reflexivity. }
    rewrite Hremoved. cbn [fst snd].
    split; [ exact Hdecks | ]. split; [ reflexivity | ].
    split.
    + split; [ reflexivity | ]. split.
      * unfold CardConfig.remove_from_priority. rewrite Hadded.
        assert (Hthere : Py.contains card_name (before ++ card_name :: after)
                         = true).
        { apply contains_In. apply in_or_app. right. now left. }
        rewrite Hthere. cbn [negb].
        rewrite list_remove_first.
        2:{ intros Hb. apply Hnot. rewrite Hl. apply in_or_app. now left. }
        rewrite <- Hl. unfold CardConfig.with_priority_list.
        rewrite Hdecks. subst l. now destruct self.
      * now exists before, after.
    + intros Hnd. split; [ | split; [ exact Hnd | exact Hnot ] ].
      rewrite Hadded.
      apply (Permutation.Permutation_NoDup
               (Permutation.Permutation_middle before after card_name)).
      constructor; [ now rewrite <- Hl | now rewrite <- Hl ].
Qed.

(** The decks are kept under distinct names. [save_deck] stores the cards
    under the name, replacing what was there; [delete_deck] and
    [rename_deck] answer [False] and change nothing for a name that is not
    stored. [rename_deck] moves the cards to the new name, silently
    replacing a deck already stored under it, so that one deck fewer is
    stored afterwards; renaming a deck to its own name keeps it. All three
    change the stored decks even when the file could not be written and
    they answer [False]; no other deck and no priority is touched. *)
Theorem deck_edits :
  forall (written : bool) (old_name new_name : string)
         (cards : list string) (self : CardConfig.CardConfigManager),
    List.NoDup (map fst self.(CardConfig._custom_decks)) ->
    let saved := CardConfig.save_deck written new_name cards self in
    let deleted := CardConfig.delete_deck written old_name self in
    let renamed := CardConfig.rename_deck written old_name new_name self in
    (fst saved = written /\
     CardConfig.get_deck new_name (snd saved) = Some cards /\
     (forall k, k <> new_name ->
        CardConfig.get_deck k (snd saved) = CardConfig.get_deck k self) /\
     List.NoDup (map fst (snd saved).(CardConfig._custom_decks)) /\
     (snd saved).(CardConfig._priority_list)
       = self.(CardConfig._priority_list)) /\
    match CardConfig.get_deck old_name self with
    | None => deleted = (false, self) /\ renamed = (false, self)
    | Some held =>
        (fst deleted = written /\
         CardConfig.get_deck old_name (snd deleted) = None /\
         (forall k, k <> old_name ->
            CardConfig.get_deck k (snd deleted)
            = CardConfig.get_deck k self) /\
         List.NoDup (map fst (snd deleted).(CardConfig._custom_decks)) /\
         (snd deleted).(CardConfig._priority_list)
           = self.(CardConfig._priority_list)) /\
        (fst renamed = written /\
         CardConfig.get_deck new_name (snd renamed) = Some held /\
         (old_name <> new_name ->
          CardConfig.get_deck old_name (snd renamed) = None) /\
         (forall k, k <> old_name -> k <> new_name ->
            CardConfig.get_deck k (snd renamed)
            = CardConfig.get_deck k self) /\
         List.NoDup (map fst (snd renamed).(CardConfig._custom_decks)) /\
         Py.len (snd renamed).(CardConfig._custom_decks)
           = Py.len self.(CardConfig._custom_decks)
             - (if String.eqb old_name new_name then 0
                else match CardConfig.get_deck new_name self with
                     | Some _ => 1
                     | None => 0
                     end) /\
         (snd renamed).(CardConfig._priority_list)
           = self.(CardConfig._priority_list))
    end.
Proof.
  intros written old_name new_name cards self Hnd saved deleted renamed.
  subst saved deleted renamed.
  unfold CardConfig.save_deck, CardConfig.delete_deck,
    CardConfig.rename_deck, CardConfig.get_deck.
  cbn [fst snd CardConfig.with_custom_decks CardConfig._custom_decks
       CardConfig._priority_list].
  set (d := self.(CardConfig._custom_decks)) in *.
  split.
  { split; [ reflexivity | ]. split; [ apply dict_get_set_eq | ].
    split; [ intros k Hk; apply dict_get_set_ne; congruence | ].
    split; [ now apply dict_set_NoDup | reflexivity ]. }
  destruct (Py.dict_get String.eqb old_name d) as [ held | ] eqn:Hold;
    [ | now split ].
  cbn [fst snd CardConfig.with_custom_decks CardConfig._custom_decks
       CardConfig._priority_list].
  split.
  { split; [ reflexivity | ]. split; [ now apply dict_del_get_eq | ].
    split; [ intros k Hk; apply dict_del_get_ne; congruence | ].
    split; [ now apply dict_del_NoDup | reflexivity ]. }
  split; [ reflexivity | ]. split; [ apply dict_get_set_eq | ].
  split.
  { intros Hne. rewrite dict_get_set_ne by congruence.
    now apply dict_del_get_eq. }
  split.
  { intros k Hk1 Hk2. rewrite dict_get_set_ne by congruence.
    apply dict_del_get_ne. congruence. }
  split; [ apply dict_set_NoDup; now apply dict_del_NoDup | ].
  split; [ | reflexivity ].
  assert (Hdel : S (length (Py.dict_del String.eqb old_name d)) = length d)
    by (apply dict_del_length; congruence).
  unfold Py.len. rewrite dict_set_length.
  destruct (String.eqb old_name new_name) eqn:Hsame.
  - apply String.eqb_eq in Hsame. subst new_name.
    rewrite dict_del_get_eq by exact Hnd. lia.
  - apply String.eqb_neq in Hsame.
    rewrite dict_del_get_ne by exact Hsame.
    destruct (Py.dict_get String.eqb new_name d); lia.
Qed.

(** Two decks, the first renamed to the name of the second: one deck is
    left, holding the cards of the first. *)
Lemma deck_edits_witness :
  let self := {| CardConfig._priority_list := [];
                 CardConfig._custom_decks :=
                   [("early"%string, ["garen"%string]);
                    ("late"%string, ["jinx"%string])] |} in
  let renamed := CardConfig.rename_deck true "early" "late" self in
  fst renamed = true /\
  CardConfig.get_deck "late" (snd renamed) = Some ["garen"%string] /\
  CardConfig.get_deck "early" (snd renamed) = None /\
  Py.len (snd renamed).(CardConfig._custom_decks) = 1.
Proof.
  intros self renamed.
  assert (Hnd : List.NoDup (map fst self.(CardConfig._custom_decks))).
  { cbn. repeat constructor; cbn; intuition discriminate. }
  destruct (deck_edits true "early" "late" [] self Hnd)
    as (_ & _ & Hres & Hnew & Hold & _ & _ & Hlen & _).
  split; [ exact Hres | ]. split; [ exact Hnew | ].
  split; [ apply Hold; discriminate | exact Hlen ].
Defined.
